(** * LessonsKwork: payment lifecycle and ledger accounting

    A shallow embedding of the payment, promo-code and withdrawal services
    of the backend (backend/services/*.py, backend/api/payments.py,
    shared/models.py, shared/constants.py) together with the properties
    they satisfy.

    Conventions of the embedding
    - Python [int] is [Z]; [//] on a positive divisor is [Z.div] (floor).
    - A table is the list of its rows in storage order.  An ORM object is a
      handle on a row: its position in the table.  [query.first()] yields
      the first handle that passes the filter, [query.all()] all of them,
      and assigning to an attribute of the object rewrites that row.
    - [datetime.utcnow()] is an explicit argument [now]; a naive datetime
      is the number of microseconds since 1970-01-01T00:00:00.
    - [raise ValueError(...)] is a value of the error type [error].  *)

From Stdlib Require Import ZArith Lia Ascii String.
From stdpp Require Import base option list strings pretty.

Local Open Scope string_scope.
Local Open Scope Z_scope.

(** ** shared/constants.py *)

Module constants.

Inductive PurchaseStatus := PENDING | COMPLETED | FAILED | REFUNDED.

Inductive WithdrawStatus := W_PENDING | W_APPROVED | W_COMPLETED | W_REJECTED.

Definition MIN_PRICE : Z := 1.
Definition MAX_PRICE : Z := 10000.
Definition MAX_PROMO_USES : Z := 1000.
Definition MAX_DISCOUNT_PERCENT : Z := 100.
Definition MIN_WITHDRAW_AMOUNT : Z := 100.
Definition MAX_WITHDRAW_AMOUNT : Z := 50000.
Definition COMMISSION_PERCENT : Z := 5.
Definition PAYMENT_TIMEOUT_MINUTES : Z := 30.
Definition TELEGRAM_STARS_CURRENCY : string := "XTR".

Definition PurchaseStatus_eqb (a b : PurchaseStatus) : bool :=
  match a, b with
  | PENDING, PENDING | COMPLETED, COMPLETED
  | FAILED, FAILED | REFUNDED, REFUNDED => true
  | _, _ => false
  end.

Definition WithdrawStatus_eqb (a b : WithdrawStatus) : bool :=
  match a, b with
  | W_PENDING, W_PENDING | W_APPROVED, W_APPROVED
  | W_COMPLETED, W_COMPLETED | W_REJECTED, W_REJECTED => true
  | _, _ => false
  end.

End constants.
Export constants.

(** ** Python values that the services test for truth *)

Module py.

(** [bool(x)] of an [Optional[int]]: [None] and [0] are false. *)
Definition truthy_opt_int (x : option Z) : bool :=
  match x with
  | Some z => negb (z =? 0)
  | None => false
  end.

(** [bool(s)] of an [Optional[str]]: [None] and the empty string are false. *)
Definition truthy_opt_str (x : option string) : bool :=
  match x with
  | Some s => negb (String.eqb s "")
  | None => false
  end.

(** [a or b] on [Optional[int]] operands. *)
Definition or_opt_int (a b : option Z) : option Z :=
  if truthy_opt_int a then a else b.

(** A [str] is held as its UTF-8 encoding.  [len(s)] counts code points:
    the bytes that are not continuation bytes (10xxxxxx). *)
Definition is_continuation (c : ascii) : bool :=
  let n := N_of_ascii c in ((128 <=? n) && (n <? 192))%N.

Fixpoint len (s : string) : nat :=
  match s with
  | EmptyString => 0
  | String c s' => ((if is_continuation c then 0 else 1) + len s')%nat
  end.

(** [s.isascii()] *)
Fixpoint isascii (s : string) : bool :=
  match s with
  | EmptyString => true
  | String c s' => (N_of_ascii c <? 128)%N && isascii s'
  end.

(** [s.upper()] for a string of ASCII characters: the letters a-z are
    mapped to A-Z and every other byte is kept.  Python maps the letters
    beyond ASCII too; what depends on the upper-cased text itself is stated
    for ASCII strings. *)
Definition upper_ascii (c : ascii) : ascii :=
  let n := N_of_ascii c in
  if ((97 <=? n) && (n <=? 122))%N then ascii_of_N (n - 32) else c.

Fixpoint upper (s : string) : string :=
  match s with
  | EmptyString => EmptyString
  | String c s' => String (upper_ascii c) (upper s')
  end.

(** [s[:n]] *)
Fixpoint prefix (n : nat) (s : string) : string :=
  match n, s with
  | S n', String c s' => String c (prefix n' s')
  | _, _ => EmptyString
  end.

End py.

(** ** Naive datetimes *)

Module datetime.

Definition t := Z.

Definition MICROS_PER_SECOND : Z := 1000000.
Definition MICROS_PER_DAY : Z := 86400 * MICROS_PER_SECOND.

(** [timedelta(minutes=m)] *)
Definition timedelta_minutes (m : Z) : Z := m * 60 * MICROS_PER_SECOND.

(** Proleptic Gregorian date of a day count relative to 1970-01-01. *)
Definition civil_from_days (d : Z) : Z * Z * Z :=
  let z := d + 719468 in
  let era := z / 146097 in
  let doe := z - era * 146097 in
  let yoe := (doe - doe / 1460 + doe / 36524 - doe / 146096) / 365 in
  let y := yoe + era * 400 in
  let doy := doe - (365 * yoe + yoe / 4 - yoe / 100) in
  let mp := (5 * doy + 2) / 153 in
  let day := doy - (153 * mp + 2) / 5 + 1 in
  let month := if mp <? 10 then mp + 3 else mp - 9 in
  (if month <=? 2 then y + 1 else y, month, day).

(** Decimal rendering of [0 <= z] on at least [width] digits. *)
Fixpoint zero_pad (width : nat) (z : Z) : string :=
  match width with
  | O => ""
  | S O => pretty z
  | S w => if z <? 10 ^ Z.of_nat w
           then "0" +:+ zero_pad w z
           else pretty z
  end.

(** [datetime.isoformat()]: YYYY-MM-DDTHH:MM:SS, then .ffffff when the
    microsecond field is not zero. *)
Definition isoformat (dt : t) : string :=
  let days := dt / MICROS_PER_DAY in
  let rest := dt mod MICROS_PER_DAY in
  let '(y, m, d) := civil_from_days days in
  let secs := rest / MICROS_PER_SECOND in
  let us := rest mod MICROS_PER_SECOND in
  zero_pad 4 y +:+ "-" +:+ zero_pad 2 m +:+ "-" +:+ zero_pad 2 d +:+ "T"
    +:+ zero_pad 2 (secs / 3600) +:+ ":"
    +:+ zero_pad 2 ((secs / 60) mod 60) +:+ ":"
    +:+ zero_pad 2 (secs mod 60)
    +:+ (if us =? 0 then "" else "." +:+ zero_pad 6 us).

(** [timedelta(days=d)] *)
Definition timedelta_days (d : Z) : Z := d * MICROS_PER_DAY.

End datetime.

(** ** shared/models.py *)

Module models.

Record User := mkUser {
  user_id_ : Z;
  user_is_active : bool
}.

Record Lesson := mkLesson {
  lesson_id_ : Z;
  lesson_price : Z;
  lesson_is_active : bool
}.

Record Course := mkCourse {
  course_id_ : Z;
  total_price : Z;
  discount_price : option Z;
  course_is_active : bool
}.

Record Purchase := mkPurchase {
  id : Z;
  user_id : Z;
  lesson_id : option Z;
  course_id : option Z;
  payment_id : string;
  amount : Z;
  status : PurchaseStatus;
  created_at : datetime.t;
  updated_at : datetime.t
}.

Record PromoCode := mkPromoCode {
  promo_id : Z;
  code : string;
  discount_percent : Z;
  discount_amount : option Z;
  max_uses : option Z;
  current_uses : Z;
  is_active : bool;
  expires_at : option datetime.t
}.

Record WithdrawRequest := mkWithdrawRequest {
  w_id : Z;
  w_amount : Z;
  w_status : WithdrawStatus;
  telegram_wallet_address : option string;
  requested_at : datetime.t;
  processed_at : option datetime.t;
  notes : option string;
  admin_id : option Z
}.

(** [PromoCode.is_valid] *)
Definition is_valid (now : datetime.t) (self : PromoCode) : bool :=
  if negb (is_active self) then false
  else if match expires_at self with
          | Some e => e <? now
          | None => false
          end then false
  else if py.truthy_opt_int (max_uses self)
          && match max_uses self with
             | Some m => m <=? current_uses self
             | None => false
             end then false
  else true.

(** Attribute assignments on ORM objects. *)
Definition set_purchase_status (s : PurchaseStatus) (now : datetime.t)
    (p : Purchase) : Purchase :=
  mkPurchase (id p) (user_id p) (lesson_id p) (course_id p) (payment_id p)
    (amount p) s (created_at p) now.

Definition set_current_uses (n : Z) (p : PromoCode) : PromoCode :=
  mkPromoCode (promo_id p) (code p) (discount_percent p) (discount_amount p)
    (max_uses p) n (is_active p) (expires_at p).

Definition set_is_active (b : bool) (p : PromoCode) : PromoCode :=
  mkPromoCode (promo_id p) (code p) (discount_percent p) (discount_amount p)
    (max_uses p) (current_uses p) b (expires_at p).

(** The database behind a [Session]. *)
Record Session := mkSession {
  users : list User;
  lessons : list Lesson;
  courses : list Course;
  purchases : list Purchase;
  promocodes : list PromoCode;
  withdraw_requests : list WithdrawRequest
}.

Definition with_purchases (ps : list Purchase) (db : Session) : Session :=
  mkSession (users db) (lessons db) (courses db) ps (promocodes db)
    (withdraw_requests db).

Definition with_promocodes (ps : list PromoCode) (db : Session) : Session :=
  mkSession (users db) (lessons db) (courses db) (purchases db) ps
    (withdraw_requests db).

Definition with_withdraw_requests (ws : list WithdrawRequest)
    (db : Session) : Session :=
  mkSession (users db) (lessons db) (courses db) (purchases db)
    (promocodes db) ws.

End models.
Export models.

(** ** Queries *)

Module query.

Section Query.
Context {A : Type}.

(** The rows that pass the filter, each with its handle, in storage
    order; [start] is the handle of the first row of [tbl]. *)
Fixpoint select_from (start : nat) (p : A -> bool) (tbl : list A)
    : list (nat * A) :=
  match tbl with
  | [] => []
  | r :: tbl' =>
      if p r then (start, r) :: select_from (S start) p tbl'
      else select_from (S start) p tbl'
  end.

(** [db.query(T).filter(p).all()] *)
Definition all (p : A -> bool) (tbl : list A) : list (nat * A) :=
  select_from 0 p tbl.

(** [db.query(T).filter(p).first()] *)
Definition first (p : A -> bool) (tbl : list A) : option (nat * A) :=
  head (all p tbl).

(** Assigning attributes of the object behind handle [h]. *)
Definition assign (f : A -> A) (h : nat) (tbl : list A) : list A :=
  alter f h tbl.

(** [db.delete(obj)] for every object behind a handle of [hs]: those rows
    are gone, the others keep their order. *)
Fixpoint delete_from (start : nat) (hs : list nat) (tbl : list A)
    : list A :=
  match tbl with
  | [] => []
  | r :: tbl' =>
      if existsb (Nat.eqb start) hs then delete_from (S start) hs tbl'
      else r :: delete_from (S start) hs tbl'
  end.

Definition delete (hs : list nat) (tbl : list A) : list A :=
  delete_from 0 hs tbl.

End Query.

(** [func.sum(col)]: NULL on no rows. *)
Definition sql_sum (l : list Z) : option Z :=
  match l with
  | [] => None
  | _ => Some (foldr Z.add 0 l)
  end.

(** [func.coalesce(x, d)] *)
Definition coalesce (x : option Z) (d : Z) : Z :=
  match x with
  | Some z => z
  | None => d
  end.

(** [db.query(func.coalesce(func.sum(col), 0)).filter(p).scalar()] *)
Definition sum_scalar {A} (col : A -> Z) (p : A -> bool) (tbl : list A)
    : Z :=
  coalesce (sql_sum (map (fun hr => col (snd hr)) (all p tbl))) 0.

End query.

(** ** JSON values ([json.loads] results, [Dict[str, Any]] payloads) *)

Module json.

(** The values [json.loads] yields for the bodies and payloads read here:
    null, booleans, integers, strings, lists and objects.  A number with a
    fraction or an exponent is not represented. *)
#[local] Unset Elimination Schemes.
Inductive value :=
| JNull
| JBool (b : bool)
| JInt (z : Z)
| JStr (s : string)
| JArr (l : list value)
| JObj (kv : list (string * value)).

#[local] Set Elimination Schemes.

Definition dict := list (string * value).

Fixpoint dict_lookup (k : string) (kv : dict) : option value :=
  match kv with
  | [] => None
  | (k', v) :: kv' => if String.eqb k k' then Some v else dict_lookup k kv'
  end.

(** [d.get(k, dflt)] on a dict *)
Definition dict_get (d : dict) (k : string) (dflt : value) : value :=
  default dflt (dict_lookup k d).

(** [v.get(k, dflt)] on any value: only a dict has [get]
    ([AttributeError] otherwise, here [None]). *)
Definition get (v : value) (k : string) (dflt : value) : option value :=
  match v with
  | JObj kv => Some (dict_get kv k dflt)
  | _ => None
  end.

(** [bool(v)] *)
Definition truthy (v : value) : bool :=
  match v with
  | JNull => false
  | JBool b => b
  | JInt z => negb (z =? 0)
  | JStr s => negb (String.eqb s "")
  | JArr l => match l with [] => false | _ => true end
  | JObj kv => match kv with [] => false | _ => true end
  end.

(** [v == n] for an [int] [n]; Python's [True == 1] and [False == 0]. *)
Definition eq_int (v : value) (n : Z) : bool :=
  match v with
  | JInt z => z =? n
  | JBool b => (if b then 1 else 0) =? n
  | _ => false
  end.

(** [v == s] for a [str] [s] *)
Definition eq_str (v : value) (s : string) : bool :=
  match v with
  | JStr s' => String.eqb s' s
  | _ => false
  end.

Definition quote_char : ascii := ascii_of_N 34.

Definition hex_digit (n : N) : ascii :=
  if (n <? 10)%N then ascii_of_N (48 + n) else ascii_of_N (87 + n).

(** One character of a string literal, [ensure_ascii=False]. *)
Definition escape_char (c : ascii) : string :=
  let n := N_of_ascii c in
  if (n =? 34)%N then String "\" (String quote_char "")
  else if (n =? 92)%N then "\\"
  else if (n =? 10)%N then "\n"
  else if (n =? 13)%N then "\r"
  else if (n =? 9)%N then "\t"
  else if (n =? 8)%N then "\b"
  else if (n =? 12)%N then "\f"
  else if (n <? 32)%N
    then "\u00" +:+ String (hex_digit (n / 16))
                      (String (hex_digit (n mod 16)) "")
  else String c "".

Fixpoint escape (s : string) : string :=
  match s with
  | EmptyString => ""
  | String c s' => escape_char c +:+ escape s'
  end.

Definition dumps_str (s : string) : string :=
  String quote_char (escape s) +:+ String quote_char "".

(** [json.dumps(v, ensure_ascii=False)] with the default separators. *)
Fixpoint dumps (v : value) : string :=
  match v with
  | JNull => "null"
  | JBool b => if b then "true" else "false"
  | JInt z => pretty z
  | JStr s => dumps_str s
  | JArr l =>
      "[" +:+ (fix items (sep : string) (l : list value) : string :=
                 match l with
                 | [] => ""
                 | x :: l' => sep +:+ dumps x +:+ items ", " l'
                 end) "" l +:+ "]"
  | JObj kv =>
      "{" +:+ (fix items (sep : string) (kv : list (string * value))
                   : string :=
                 match kv with
                 | [] => ""
                 | (k, x) :: kv' =>
                     sep +:+ dumps_str k +:+ ": " +:+ dumps x
                       +:+ items ", " kv'
                 end) "" kv +:+ "}"
  end.

End json.

Export json.

(** ** SQLite: a TEXT column compared with a bound Python value *)

Module sqlite.

(** [column == v] on a column of TEXT affinity, for a value [v] that
    [json.loads] produced: the text the column is compared with.  A string
    is compared as it is; an integer (a [bool] is an integer) is turned
    into its decimal text first, so that [123] selects ['123'].  [None]
    when no row can be selected: NULL equals nothing, and the driver
    refuses an integer outside 64 bits, a list or a dict with an exception
    that the callers catch. *)
Definition bind (v : json.value) : option string :=
  match v with
  | JStr s => Some s
  | JInt z =>
      if (- 2 ^ 63 <=? z) && (z <? 2 ^ 63) then Some (pretty z) else None
  | JBool b => Some (if b then "1" else "0")
  | JNull => None
  | JArr _ => None
  | JObj _ => None
  end.

End sqlite.

(** ** Exceptions *)

Module exn.

(** The exceptions the services raise: each [ValueError] with its message
    in the source, and the database's [IntegrityError]. *)
Inductive error :=
| UserNotFound          (* ValueError: user not found *)
| UserInactive          (* ValueError: user is not active *)
| ItemNotFound          (* ValueError: <Item_type> not found *)
| ItemInactive          (* ValueError: <Item_type> is not active *)
| UnsupportedItemType   (* ValueError: unsupported item type *)
| AlreadyPurchased      (* ValueError: item already purchased *)
| PromoNotFound         (* ValueError: promo code not found *)
| PromoDeactivated      (* ValueError: promo code deactivated *)
| PromoExpired          (* ValueError: promo code expired *)
| PromoInvalid          (* ValueError: promo code is not valid *)
| PromoExhausted        (* ValueError: promo code exhausted *)
| BelowMinWithdraw      (* ValueError: below the minimum withdrawal *)
| AboveMaxWithdraw      (* ValueError: above the maximum withdrawal *)
| InsufficientFunds (available : Z)  (* ValueError: not enough funds *)
| IntegrityError.       (* UNIQUE constraint on purchases.payment_id *)

Inductive result (A : Type) :=
| Ok (a : A)
| Raise (e : error).
Arguments Ok {A} a.
Arguments Raise {A} e.

End exn.
Export exn.

Notation "'assert_not' c 'raising' e ;; k" :=
  (if c then Raise e else k)
  (at level 10, c at level 99, e at level 9, k at level 200).

(** ** backend/services/promo_service.py *)

Module PromoCodeService.

(** [validate_promo_code]: read-only; yields the promo object. *)
Definition validate_promo_code (now : datetime.t) (code : string)
    (db : Session) : result (nat * PromoCode) :=
  match query.first (fun p => String.eqb (models.code p) (py.upper code))
                    (promocodes db) with
  | None => Raise PromoNotFound
  | Some (h, promo) =>
      assert_not (negb (is_active promo)) raising PromoDeactivated ;;
      assert_not (match expires_at promo with
                  | Some e => e <? now
                  | None => false
                  end) raising PromoExpired ;;
      assert_not (py.truthy_opt_int (max_uses promo)
                  && match max_uses promo with
                     | Some m => m <=? current_uses promo
                     | None => false
                     end) raising PromoExhausted ;;
      Ok (h, promo)
  end.

(** The dict returned by [apply_discount]. *)
Record DiscountInfo := mkDiscountInfo {
  original_amount : Z;
  discount_amount : Z;
  final_amount : Z;
  discount_percent : Z
}.

Definition apply_discount (promo_code : PromoCode) (amount : Z)
    : DiscountInfo :=
  let discount :=
    if py.truthy_opt_int (models.discount_amount promo_code)
    then Z.min (default 0 (models.discount_amount promo_code))
               (amount - MIN_PRICE)
    else (amount * models.discount_percent promo_code) / 100 in
  let discount := Z.min discount (amount - MIN_PRICE) in
  let final_amount := Z.max MIN_PRICE (amount - discount) in
  mkDiscountInfo amount discount final_amount
    (if 0 <? amount then (discount * 100) / amount else 0).

(** [use_promo_code]: the counter and the flag are written on the promo
    object and committed together. *)
Definition use_promo_code (now : datetime.t) (code : string) (user_id : Z)
    (db : Session) : bool * Session :=
  match validate_promo_code now code db with
  | Raise _ => (false, db)
  | Ok (h, promo) =>
      let uses := current_uses promo + 1 in
      let tbl := query.assign (set_current_uses uses) h (promocodes db) in
      let tbl :=
        if py.truthy_opt_int (max_uses promo)
           && match max_uses promo with
              | Some m => m <=? uses
              | None => false
              end
        then query.assign (set_is_active false) h tbl
        else tbl in
      (true, with_promocodes tbl db)
  end.

(** The [ValueError]s of [create_promo_code]. *)
Inductive create_error :=
| CodeTooShort        (* the code is empty or shorter than 3 *)
| PercentOutOfRange   (* discount_percent outside 0..MAX_DISCOUNT_PERCENT *)
| NegativeDiscount    (* discount_amount below 0 *)
| NoDiscountGiven     (* neither a percent nor a fixed discount *)
| TooManyUses         (* max_uses above MAX_PROMO_USES *)
| CodeExists.         (* a promo code with this code exists *)

(** The id the database gives a new row of [promocodes]. *)
Definition next_promo_id (tbl : list PromoCode) : Z :=
  1 + foldr (fun p m => Z.max (promo_id p) m) 0 tbl.

(** [create_promo_code]; [len(code)] counts the characters of the code. *)
Definition create_promo_code (code : string) (discount_percent : Z)
    (discount_amount max_uses : option Z) (expires_at : option datetime.t)
    (db : Session) : (create_error + PromoCode) * Session :=
  if String.eqb code "" || (Z.of_nat (py.len code) <? 3)
  then (inl CodeTooShort, db) else
  if (discount_percent <? 0) || (MAX_DISCOUNT_PERCENT <? discount_percent)
  then (inl PercentOutOfRange, db) else
  if py.truthy_opt_int discount_amount && (default 0 discount_amount <? 0)
  then (inl NegativeDiscount, db) else
  if (discount_percent =? 0) && negb (py.truthy_opt_int discount_amount)
  then (inl NoDiscountGiven, db) else
  if py.truthy_opt_int max_uses && (MAX_PROMO_USES <? default 0 max_uses)
  then (inl TooManyUses, db) else
  match query.first (fun p => String.eqb (models.code p) (py.upper code))
                    (promocodes db) with
  | Some _ => (inl CodeExists, db)
  | None =>
      let promo_code :=
        mkPromoCode (next_promo_id (promocodes db)) (py.upper code)
          discount_percent discount_amount max_uses 0 true expires_at in
      (inr promo_code, with_promocodes (promocodes db ++ [promo_code]) db)
  end.

Definition get_promo_code_by_id (promo_id : Z) (db : Session)
    : option (nat * PromoCode) :=
  query.first (fun p => models.promo_id p =? promo_id) (promocodes db).

Definition get_promo_code_by_code (code : string) (db : Session)
    : option (nat * PromoCode) :=
  query.first (fun p => String.eqb (models.code p) (py.upper code))
              (promocodes db).

(** [delete_promo_code]: the code is deactivated, never removed. *)
Definition delete_promo_code (promo_id : Z) (db : Session)
    : bool * Session :=
  match get_promo_code_by_id promo_id db with
  | None => (false, db)
  | Some (h, _) =>
      (true,
       with_promocodes (query.assign (set_is_active false) h (promocodes db))
                       db)
  end.

(** The filter of [cleanup_expired_promocodes]: active, with an expiry
    date (NULL compares with nothing) that is before now. *)
Definition active_and_expired (now : datetime.t) (p : PromoCode) : bool :=
  is_active p
  && match expires_at p with
     | Some e => e <? now
     | None => false
     end.

Definition cleanup_expired_promocodes (now : datetime.t) (db : Session)
    : Z * Session :=
  let expired_promos := query.all (active_and_expired now) (promocodes db) in
  let tbl :=
    foldl (fun tbl promo => query.assign (set_is_active false) (fst promo) tbl)
          (promocodes db) expired_promos in
  (Z.of_nat (length expired_promos), with_promocodes tbl db).

End PromoCodeService.

(** ** backend/services/payment_service.py *)

Module PaymentService.

Inductive Item :=
| ALesson (l : Lesson)
| ACourse (c : Course).

Definition item_is_active (i : Item) : bool :=
  match i with
  | ALesson l => lesson_is_active l
  | ACourse c => course_is_active c
  end.

Record PaymentResponse := mkPaymentResponse {
  r_payment_id : string;
  r_amount : Z;
  r_final_amount : Z;
  r_discount_applied : Z;
  r_invoice_payload : string
}.

Definition _get_item_and_price (item_id : Z) (item_type : string)
    (db : Session) : result (option Item * Z) :=
  if String.eqb item_type "lesson" then
    let item := query.first (fun l => lesson_id_ l =? item_id)
                            (lessons db) in
    Ok (match item with
        | Some (_, l) => (Some (ALesson l), lesson_price l)
        | None => (None, 0)
        end)
  else if String.eqb item_type "course" then
    let item := query.first (fun c => course_id_ c =? item_id)
                            (courses db) in
    Ok (match item with
        | Some (_, c) =>
            (Some (ACourse c),
             default 0 (py.or_opt_int (discount_price c)
                                      (Some (total_price c))))
        | None => (None, 0)
        end)
  else Raise UnsupportedItemType.

(** SQL [col == item_id] on a nullable column: NULL matches nothing. *)
Definition col_eq (col : option Z) (item_id : Z) : bool :=
  match col with
  | Some z => z =? item_id
  | None => false
  end.

Definition _check_existing_purchase (user_id item_id : Z)
    (item_type : string) (db : Session) : bool :=
  let base p := (models.user_id p =? user_id)
                && PurchaseStatus_eqb (status p) COMPLETED in
  let q := if String.eqb item_type "lesson"
           then fun p => base p && col_eq (lesson_id p) item_id
           else fun p => base p && col_eq (course_id p) item_id in
  match query.first q (purchases db) with
  | Some _ => true
  | None => false
  end.

(** [_apply_promo_code]: yields (discount, final price); the counter is
    written on the promo object and committed. *)
Definition _apply_promo_code (now : datetime.t) (code : string)
    (base_price user_id : Z) (db : Session)
    : result (Z * Z) * Session :=
  match query.first (fun p => String.eqb (models.code p) (py.upper code))
                    (promocodes db) with
  | None => (Raise PromoInvalid, db)
  | Some (h, promo) =>
      if negb (is_valid now promo) then (Raise PromoInvalid, db)
      else if py.truthy_opt_int (max_uses promo)
              && match max_uses promo with
                 | Some m => m <=? current_uses promo
                 | None => false
                 end
      then (Raise PromoExhausted, db)
      else
        let discount :=
          if py.truthy_opt_int (discount_amount promo)
          then Z.min (default 0 (discount_amount promo)) base_price
          else (base_price * discount_percent promo) / 100 in
        let final_price := Z.max MIN_PRICE (base_price - discount) in
        let tbl := query.assign (set_current_uses (current_uses promo + 1))
                                h (promocodes db) in
        (Ok (discount, final_price), with_promocodes tbl db)
  end.

(** [_generate_payment_id]; [uuid4_hex] is [uuid.uuid4().hex]. *)
Definition _generate_payment_id (uuid4_hex : string) : string :=
  "pay_" +:+ py.prefix 16 uuid4_hex.

Definition opt_int_json (x : option Z) : json.value :=
  match x with
  | Some z => JInt z
  | None => JNull
  end.

Definition _create_invoice_payload (now : datetime.t) (user_id : Z)
    (item_id : option Z) (item_type payment_id : string) : string :=
  let payload_data :=
    [("user_id", JInt user_id);
     ("item_id", opt_int_json item_id);
     ("item_type", JStr item_type);
     ("payment_id", JStr payment_id);
     ("timestamp", JStr (datetime.isoformat now))] in
  json.dumps (JObj payload_data).

(** The id the database gives a new row of [purchases]. *)
Definition next_purchase_id (tbl : list Purchase) : Z :=
  1 + foldr (fun p m => Z.max (id p) m) 0 tbl.

(** [db.add(purchase); db.commit()]: [payment_id] is UNIQUE. *)
Definition add_purchase (p : Purchase) (db : Session) : result Session :=
  match query.first (fun q => String.eqb (models.payment_id q)
                                         (models.payment_id p))
                    (purchases db) with
  | Some _ => Raise IntegrityError
  | None => Ok (with_purchases (purchases db ++ [p]) db)
  end.

(** [create_payment].  [created_at] and [updated_at] of the new purchase
    are left to the column default, the clock of the database at the
    insert; the call is taken to be instantaneous, so they carry the clock
    of the call. *)
Definition create_payment (now : datetime.t) (uuid4_hex : string)
    (user_id item_id : Z) (item_type : string)
    (promo_code : option string) (db : Session)
    : result PaymentResponse * Session :=
  match query.first (fun u => user_id_ u =? user_id) (users db) with
  | None => (Raise UserNotFound, db)
  | Some (_, user) =>
  if negb (user_is_active user) then (Raise UserInactive, db) else
  match _get_item_and_price item_id item_type db with
  | Raise e => (Raise e, db)
  | Ok (None, _) => (Raise ItemNotFound, db)
  | Ok (Some item, base_price) =>
  if negb (item_is_active item) then (Raise ItemInactive, db) else
  if _check_existing_purchase user_id item_id item_type db
  then (Raise AlreadyPurchased, db) else
  let '(promo_result, db1) :=
    if py.truthy_opt_str promo_code
    then _apply_promo_code now (default "" promo_code) base_price user_id db
    else (Ok (0, base_price), db) in
  match promo_result with
  | Raise e => (Raise e, db1)
  | Ok (discount_applied, final_price) =>
  let payment_id := _generate_payment_id uuid4_hex in
  let invoice_payload :=
    _create_invoice_payload now user_id (Some item_id) item_type
                            payment_id in
  let purchase :=
    mkPurchase (next_purchase_id (purchases db1)) user_id
      (if String.eqb item_type "lesson" then Some item_id else None)
      (if String.eqb item_type "lesson" then None else Some item_id)
      payment_id final_price PENDING now now in
  match add_purchase purchase db1 with
  | Raise e => (Raise e, db1)
  | Ok db2 =>
      (Ok (mkPaymentResponse payment_id base_price final_price
             discount_applied invoice_payload), db2)
  end end end end.

Definition verify_payment (now : datetime.t) (payment_id : string)
    (telegram_payment_data : json.dict) (db : Session) : bool :=
  match query.first (fun p => String.eqb (models.payment_id p) payment_id)
                    (purchases db) with
  | None => false
  | Some (_, purchase) =>
  if negb (PurchaseStatus_eqb (status purchase) PENDING) then false else
  let telegram_amount :=
    json.dict_get telegram_payment_data "total_amount" (JInt 0) in
  if negb (json.eq_int telegram_amount (amount purchase)) then false else
  let telegram_currency :=
    json.dict_get telegram_payment_data "currency" (JStr "") in
  if negb (json.eq_str telegram_currency TELEGRAM_STARS_CURRENCY)
  then false else
  let invoice_payload :=
    json.dict_get telegram_payment_data "invoice_payload" (JStr "") in
  let expected_payload :=
    _create_invoice_payload now (models.user_id purchase)
      (py.or_opt_int (lesson_id purchase) (course_id purchase))
      (if py.truthy_opt_int (lesson_id purchase)
       then "lesson" else "course")
      payment_id in
  if negb (json.eq_str invoice_payload expected_payload) then false
  else true
  end.

Definition process_successful_payment (now : datetime.t)
    (purchase_id : Z) (db : Session) : bool * Session :=
  match query.first (fun p => id p =? purchase_id) (purchases db) with
  | None => (false, db)
  | Some (h, _) =>
      let tbl := query.assign (set_purchase_status COMPLETED now) h
                              (purchases db) in
      (true, with_purchases tbl db)
  end.

Definition handle_failed_payment (now : datetime.t) (purchase_id : Z)
    (error : string) (db : Session) : bool * Session :=
  match query.first (fun p => id p =? purchase_id) (purchases db) with
  | None => (false, db)
  | Some (h, _) =>
      let tbl := query.assign (set_purchase_status FAILED now) h
                              (purchases db) in
      (true, with_purchases tbl db)
  end.

Definition get_payment_status (payment_id : string) (db : Session)
    : option PurchaseStatus :=
  match query.first (fun p => String.eqb (models.payment_id p) payment_id)
                    (purchases db) with
  | Some (_, purchase) => Some (status purchase)
  | None => None
  end.

Section Sweeper.

(** The timeout of shared/constants.py; the sweep is defined for any
    value of it. *)
Variable PAYMENT_TIMEOUT_MINUTES : Z.

Definition is_expired (now : datetime.t) (p : Purchase) : bool :=
  let expiry_time :=
    now - datetime.timedelta_minutes PAYMENT_TIMEOUT_MINUTES in
  PurchaseStatus_eqb (status p) PENDING && (created_at p <? expiry_time).

Definition cancel_expired_payments (now : datetime.t) (db : Session)
    : Z * Session :=
  let expired_purchases := query.all (is_expired now) (purchases db) in
  let tbl :=
    foldl (fun tbl purchase =>
             query.assign (set_purchase_status FAILED now)
                          (fst purchase) tbl)
          (purchases db) expired_purchases in
  (Z.of_nat (length expired_purchases), with_purchases tbl db).

End Sweeper.

End PaymentService.

(** ** backend/services/withdraw_service.py *)

Module WithdrawService.

Definition _calculate_available_amount (db : Session) : Z :=
  let total_revenue :=
    query.sum_scalar amount
      (fun p => PurchaseStatus_eqb (status p) COMPLETED) (purchases db) in
  let total_withdraws :=
    query.sum_scalar w_amount
      (fun w => WithdrawStatus_eqb (w_status w) W_APPROVED
                || WithdrawStatus_eqb (w_status w) W_COMPLETED)
      (withdraw_requests db) in
  let pending_withdraws :=
    query.sum_scalar w_amount
      (fun w => WithdrawStatus_eqb (w_status w) W_PENDING)
      (withdraw_requests db) in
  let commission := (total_revenue * COMMISSION_PERCENT) / 100 in
  let available :=
    total_revenue - total_withdraws - pending_withdraws - commission in
  Z.max 0 available.

Definition _calculate_pending_withdraws (db : Session) : Z :=
  query.sum_scalar w_amount
    (fun w => WithdrawStatus_eqb (w_status w) W_PENDING)
    (withdraw_requests db).

Definition get_withdraw_request_by_id (request_id : Z) (db : Session)
    : option (nat * WithdrawRequest) :=
  query.first (fun w => w_id w =? request_id) (withdraw_requests db).

(** The id the database gives a new row of [withdraw_requests]. *)
Definition next_withdraw_id (tbl : list WithdrawRequest) : Z :=
  1 + foldr (fun w m => Z.max (w_id w) m) 0 tbl.

Definition create_withdraw_request (now : datetime.t) (amount : Z)
    (wallet_address notes : option string) (db : Session)
    : result WithdrawRequest * Session :=
  if amount <? MIN_WITHDRAW_AMOUNT then (Raise BelowMinWithdraw, db) else
  if MAX_WITHDRAW_AMOUNT <? amount then (Raise AboveMaxWithdraw, db) else
  let available_amount := _calculate_available_amount db in
  if available_amount <? amount
  then (Raise (InsufficientFunds available_amount), db) else
  let withdraw_request :=
    mkWithdrawRequest (next_withdraw_id (withdraw_requests db)) amount
      W_PENDING wallet_address now None notes None in
  (Ok withdraw_request,
   with_withdraw_requests (withdraw_requests db ++ [withdraw_request]) db).

(** The note of an automatic rejection. *)
Definition insufficient_funds_note (available_amount : Z) : string :=
  "Недостаточно средств. Доступно: " +:+ pretty available_amount
    +:+ " Stars".

Definition reject_row (admin : Z) (note : string) (now : datetime.t)
    (w : WithdrawRequest) : WithdrawRequest :=
  mkWithdrawRequest (w_id w) (w_amount w) W_REJECTED
    (telegram_wallet_address w) (requested_at w) (Some now) (Some note)
    (Some admin).

Definition approve_row (admin : Z) (note : option string)
    (now : datetime.t) (w : WithdrawRequest) : WithdrawRequest :=
  mkWithdrawRequest (w_id w) (w_amount w) W_APPROVED
    (telegram_wallet_address w) (requested_at w) (Some now)
    (if py.truthy_opt_str note then note else notes w)
    (Some admin).

Definition complete_row (admin : Z) (now : datetime.t)
    (w : WithdrawRequest) : WithdrawRequest :=
  mkWithdrawRequest (w_id w) (w_amount w) W_COMPLETED
    (telegram_wallet_address w) (requested_at w) (Some now) (notes w)
    (Some admin).

Definition approve_withdraw (now : datetime.t) (request_id admin_id : Z)
    (notes : option string) (db : Session) : bool * Session :=
  match get_withdraw_request_by_id request_id db with
  | None => (false, db)
  | Some (h, withdraw_request) =>
  if negb (WithdrawStatus_eqb (w_status withdraw_request) W_PENDING)
  then (false, db) else
  let available_amount := _calculate_available_amount db in
  if available_amount <? w_amount withdraw_request then
    (false,
     with_withdraw_requests
       (query.assign
          (reject_row admin_id (insufficient_funds_note available_amount)
                      now)
          h (withdraw_requests db)) db)
  else
    (true,
     with_withdraw_requests
       (query.assign (approve_row admin_id notes now) h
                     (withdraw_requests db)) db)
  end.

Definition reject_withdraw (now : datetime.t) (request_id admin_id : Z)
    (reason : string) (db : Session) : bool * Session :=
  match get_withdraw_request_by_id request_id db with
  | None => (false, db)
  | Some (h, withdraw_request) =>
  if negb (WithdrawStatus_eqb (w_status withdraw_request) W_PENDING)
  then (false, db) else
    (true,
     with_withdraw_requests
       (query.assign (reject_row admin_id reason now) h
                     (withdraw_requests db)) db)
  end.

Definition process_withdraw (now : datetime.t) (request_id admin_id : Z)
    (db : Session) : bool * Session :=
  match get_withdraw_request_by_id request_id db with
  | None => (false, db)
  | Some (h, withdraw_request) =>
  if negb (WithdrawStatus_eqb (w_status withdraw_request) W_APPROVED)
  then (false, db) else
    (true,
     with_withdraw_requests
       (query.assign (complete_row admin_id now) h
                     (withdraw_requests db)) db)
  end.

(** The dict returned by [calculate_withdraw_limits]. *)
Record WithdrawLimits := mkWithdrawLimits {
  min_withdraw : Z;
  max_withdraw : Z;
  available_amount : Z;
  pending_amount : Z
}.

Definition calculate_withdraw_limits (db : Session) : WithdrawLimits :=
  let available_amount := _calculate_available_amount db in
  mkWithdrawLimits MIN_WITHDRAW_AMOUNT
    (Z.min MAX_WITHDRAW_AMOUNT available_amount)
    available_amount
    (_calculate_pending_withdraws db).

(** The filter of [cleanup_old_rejected_requests]: rejected, with a
    processing time (NULL compares with nothing) before the cutoff. *)
Definition old_and_rejected (cutoff_date : datetime.t) (w : WithdrawRequest)
    : bool :=
  WithdrawStatus_eqb (w_status w) W_REJECTED
  && match processed_at w with
     | Some t => t <? cutoff_date
     | None => false
     end.

Definition cleanup_old_rejected_requests (now : datetime.t) (days : Z)
    (db : Session) : Z * Session :=
  let cutoff_date := now - datetime.timedelta_days days in
  let old_requests :=
    query.all (old_and_rejected cutoff_date) (withdraw_requests db) in
  (Z.of_nat (length old_requests),
   with_withdraw_requests
     (query.delete (map fst old_requests) (withdraw_requests db)) db).

(** One administrative or requesting call, with its arguments. *)
Inductive op :=
| Create (now : datetime.t) (amount : Z)
         (wallet_address notes : option string)
| Approve (now : datetime.t) (request_id admin_id : Z)
          (notes : option string)
| Reject (now : datetime.t) (request_id admin_id : Z) (reason : string)
| Process (now : datetime.t) (request_id admin_id : Z).

Definition run_op (db : Session) (o : op) : Session :=
  match o with
  | Create now a w n => snd (create_withdraw_request now a w n db)
  | Approve now r a n => snd (approve_withdraw now r a n db)
  | Reject now r a s => snd (reject_withdraw now r a s db)
  | Process now r a => snd (process_withdraw now r a db)
  end.

Definition run_ops (db : Session) (ops : list op) : Session :=
  foldl run_op db ops.

End WithdrawService.

(** ** backend/services/finance_service.py *)

Module FinanceService.

Record WithdrawableAmount := mkWithdrawableAmount {
  total_revenue : Z;
  total_withdraws : Z;
  pending_withdraws : Z;
  available_amount : Z;
  commission_amount : Z
}.

Definition calculate_withdrawable_amount (db : Session)
    : WithdrawableAmount :=
  let total_revenue :=
    query.sum_scalar amount
      (fun p => PurchaseStatus_eqb (status p) COMPLETED) (purchases db) in
  let total_withdraws :=
    query.sum_scalar w_amount
      (fun w => WithdrawStatus_eqb (w_status w) W_APPROVED
                || WithdrawStatus_eqb (w_status w) W_COMPLETED)
      (withdraw_requests db) in
  let pending_withdraws :=
    query.sum_scalar w_amount
      (fun w => WithdrawStatus_eqb (w_status w) W_PENDING)
      (withdraw_requests db) in
  let commission_amount := (total_revenue * COMMISSION_PERCENT) / 100 in
  let available_amount :=
    total_revenue - total_withdraws - pending_withdraws
      - commission_amount in
  let available_amount := Z.max 0 available_amount in
  mkWithdrawableAmount total_revenue total_withdraws pending_withdraws
    available_amount commission_amount.

End FinanceService.

(** ** backend/api/payments.py *)

Module payments.

Section Webhook.

(** [json.loads] of the standard library; [None] stands for
    [JSONDecodeError]. *)
Variable json_loads : string -> option json.value.

(** [Purchase.payment_id == payment_id], with whatever value the parsed
    payload holds under payment_id, as the repository's SQLite evaluates
    it. *)
Definition payment_id_is (payment_id : json.value) (p : Purchase)
    : bool :=
  match sqlite.bind payment_id with
  | Some key => String.eqb (models.payment_id p) key
  | None => false
  end.

Definition _process_successful_payment_webhook (now : datetime.t)
    (webhook_data : json.value) (db : Session) : Session :=
  match json.get webhook_data "message" (JObj []) with
  | None => db
  | Some message =>
  match json.get message "successful_payment" (JObj []) with
  | None => db
  | Some successful_payment =>
  if negb (json.truthy successful_payment) then db else
  match json.get successful_payment "invoice_payload" (JStr "") with
  | None => db
  | Some invoice_payload =>
  match invoice_payload with
  | JStr text =>
      match json_loads text with
      | None => db
      | Some payload_data =>
      match json.get payload_data "payment_id" JNull with
      | None => db
      | Some payment_id =>
      if negb (json.truthy payment_id) then db else
      match query.first (payment_id_is payment_id) (purchases db) with
      | None => db
      | Some (_, purchase) =>
          snd (PaymentService.process_successful_payment now
                 (id purchase) db)
      end end end
  | _ => db
  end end end end.

Definition _validate_pre_checkout (invoice_payload : string)
    (db : Session) : bool :=
  match json_loads invoice_payload with
  | None => false
  | Some payload_data =>
  match json.get payload_data "payment_id" JNull with
  | None => false
  | Some payment_id =>
  if negb (json.truthy payment_id) then false else
  match query.first (payment_id_is payment_id) (purchases db) with
  | Some (_, purchase) => PurchaseStatus_eqb (status purchase) PENDING
  | None => false
  end end end.

(** The [JSONResponse] of the webhook endpoint: its status code and the
    [ok] entry of its content. *)
Record JSONResponse := mkJSONResponse {
  status_code : Z;
  ok : bool
}.

(** [payment_webhook] on the parsed request body; the background task of
    a successful payment has run when the new store is read. *)
Definition payment_webhook (now : datetime.t) (webhook_data : json.value)
    (db : Session) : JSONResponse * Session :=
  match json.get webhook_data "update_type" JNull with
  | None => (mkJSONResponse 500 false, db)
  | Some update_type =>
  if json.eq_str update_type "successful_payment" then
    (mkJSONResponse 200 true,
     _process_successful_payment_webhook now webhook_data db)
  else if json.eq_str update_type "pre_checkout_query" then
    match json.get webhook_data "pre_checkout_query" (JObj []) with
    | None => (mkJSONResponse 500 false, db)
    | Some pre_checkout_query =>
    match json.get pre_checkout_query "invoice_payload" (JStr "") with
    | None => (mkJSONResponse 500 false, db)
    | Some invoice_payload =>
        let is_valid :=
          match invoice_payload with
          | JStr text => _validate_pre_checkout text db
          | _ => false
          end in
        (mkJSONResponse 200 is_valid, db)
    end end
  else (mkJSONResponse 200 true, db)
  end.

End Webhook.

(** The request body of the verification endpoint, with the attributes
    the endpoint reads; [amount] is [None] when the object has no such
    attribute. *)
Record PaymentVerificationRequest := mkPaymentVerificationRequest {
  v_payment_id : string;
  v_amount : option json.value;
  v_telegram_payment_charge_id : json.value;
  v_provider_payment_charge_id : json.value
}.

(** The endpoint [verify_payment]: the [verified] entry of its answer. *)
Definition verify_payment (now : datetime.t)
    (verification_request : PaymentVerificationRequest) (db : Session)
    : bool :=
  let telegram_data :=
    [("total_amount", default (JInt 0) (v_amount verification_request));
     ("currency", JStr "XTR");
     ("telegram_payment_charge_id",
      v_telegram_payment_charge_id verification_request);
     ("provider_payment_charge_id",
      v_provider_payment_charge_id verification_request);
     ("invoice_payload", JStr (v_payment_id verification_request))] in
  PaymentService.verify_payment now (v_payment_id verification_request)
    telegram_data db.

End payments.

(** ** backend/api/promocodes.py *)

Module promocodes.

(** The body of a [PromoCodeCheck] request. *)
Record PromoCodeCheck := mkPromoCodeCheck {
  check_code : string;
  check_item_type : string;
  check_item_id : Z
}.

(** The answer for a valid code. *)
Record Quote := mkQuote {
  promo_code : string;
  discount_percent : Z;
  discount_amount : option Z;
  original_price : Z;
  discount_value : Z;
  final_price : Z;
  expires_at : option string;
  remaining_uses : option Z
}.

Inductive Response :=
| Valid (q : Quote)            (* valid: True and the quote *)
| Invalid (e : error)          (* valid: False and the error text *)
| BadRequest                   (* HTTP 400: unsupported item type *)
| NotFound.                    (* HTTP 404: item not found *)

(** The endpoint [validate_promo_code]. *)
Definition validate_promo_code (now : datetime.t)
    (validation_request : PromoCodeCheck) (db : Session) : Response :=
  match PromoCodeService.validate_promo_code now
          (check_code validation_request) db with
  | Raise e => Invalid e
  | Ok (_, promo) =>
  let priced (item : option (Z)) : Response :=
    match item with
    | None => NotFound
    | Some base_price =>
        let discount_info := PromoCodeService.apply_discount promo base_price in
        Valid (mkQuote (models.code promo) (models.discount_percent promo)
                 (models.discount_amount promo)
                 (PromoCodeService.original_amount discount_info)
                 (PromoCodeService.discount_amount discount_info)
                 (PromoCodeService.final_amount discount_info)
                 (option_map datetime.isoformat (models.expires_at promo))
                 (if py.truthy_opt_int (max_uses promo)
                  then option_map (fun m => m - current_uses promo)
                                  (max_uses promo)
                  else None))
    end in
  if String.eqb (check_item_type validation_request) "lesson" then
    priced (option_map (fun hl => lesson_price (snd hl))
              (query.first
                 (fun l => lesson_id_ l =? check_item_id validation_request)
                 (lessons db)))
  else if String.eqb (check_item_type validation_request) "course" then
    priced (option_map
              (fun hc => default 0 (py.or_opt_int (discount_price (snd hc))
                                       (Some (total_price (snd hc)))))
              (query.first
                 (fun c => course_id_ c =? check_item_id validation_request)
                 (courses db)))
  else BadRequest
  end.

End promocodes.

(** ** Ledger quantities in the words of the specification *)

Module ledger.

(** Sum of [col] over the rows of [tbl] that satisfy [p]. *)
Fixpoint sum_where {A} (p : A -> bool) (col : A -> Z) (tbl : list A) : Z :=
  match tbl with
  | [] => 0
  | r :: tbl' => (if p r then col r else 0) + sum_where p col tbl'
  end.

Definition is_completed (p : Purchase) : bool :=
  PurchaseStatus_eqb (status p) COMPLETED.

Definition is_paid_out (w : WithdrawRequest) : bool :=
  WithdrawStatus_eqb (w_status w) W_APPROVED
  || WithdrawStatus_eqb (w_status w) W_COMPLETED.

Definition is_pending (w : WithdrawRequest) : bool :=
  WithdrawStatus_eqb (w_status w) W_PENDING.

(** Total amount of completed purchases. *)
Definition revenue (db : Session) : Z :=
  sum_where is_completed amount (purchases db).

(** Total amount of approved and completed withdrawal requests. *)
Definition paid_out (db : Session) : Z :=
  sum_where is_paid_out w_amount (withdraw_requests db).

(** Total amount of pending withdrawal requests. *)
Definition pending (db : Session) : Z :=
  sum_where is_pending w_amount (withdraw_requests db).

(** Platform commission, rounded down. *)
Definition commission (db : Session) : Z :=
  (revenue db * COMMISSION_PERCENT) / 100.

(** AvailableBalance of the specification. *)
Definition AvailableBalance (db : Session) : Z :=
  Z.max 0 (revenue db - paid_out db - pending db - commission db).

(** What has been approved or paid out is covered by the revenue net of
    commission. *)
Definition within_bounds (db : Session) : Prop :=
  paid_out db <= revenue db - commission db.

(** No pending request asks for a negative amount. *)
Definition pending_nonneg (db : Session) : Prop :=
  Forall (fun w => is_pending w = true -> 0 <= w_amount w)
         (withdraw_requests db).

(** The invariant of the withdrawal operations, relative to the store
    [db0] they started from. *)
Definition safe (db0 db : Session) : Prop :=
  purchases db = purchases db0 /\ pending_nonneg db /\ within_bounds db.

End ledger.

(** ** Preconditions of intent creation, in the words of the specification *)

Module intent.

(** The user exists and is active. *)
Definition user_ok (user_id : Z) (db : Session) : Prop :=
  exists h u,
    query.first (fun u => user_id_ u =? user_id) (users db) = Some (h, u)
    /\ user_is_active u = true.

(** The item type is lesson or course, and the item exists and is
    active. *)
Definition item_ok (item_id : Z) (item_type : string) (db : Session)
    : Prop :=
  (item_type = "lesson" /\
   exists h l,
     query.first (fun l => lesson_id_ l =? item_id) (lessons db)
       = Some (h, l) /\ lesson_is_active l = true) \/
  (item_type = "course" /\
   exists h c,
     query.first (fun c => course_id_ c =? item_id) (courses db)
       = Some (h, c) /\ course_is_active c = true).

(** [q] is a completed purchase of the item by the user. *)
Definition owns (user_id item_id : Z) (item_type : string) (q : Purchase)
    : Prop :=
  models.user_id q = user_id /\ status q = COMPLETED /\
  if String.eqb item_type "lesson" then lesson_id q = Some item_id
  else course_id q = Some item_id.

Definition not_owned (user_id item_id : Z) (item_type : string)
    (db : Session) : Prop :=
  forall q, q ∈ purchases db -> ~ owns user_id item_id item_type q.

(** No promo code is supplied, or the supplied one names a valid code. *)
Definition promo_ok (now : datetime.t) (promo_code : option string)
    (db : Session) : Prop :=
  py.truthy_opt_str promo_code = false \/
  exists c h promo,
    promo_code = Some c /\ c <> "" /\
    query.first (fun p => String.eqb (code p) (py.upper c)) (promocodes db)
      = Some (h, promo) /\
    is_valid now promo = true.

(** The promo step of [create_payment]. *)
Definition promo_step (now : datetime.t) (promo_code : option string)
    (base_price user_id : Z) (db : Session) : result (Z * Z) * Session :=
  if py.truthy_opt_str promo_code
  then PaymentService._apply_promo_code now (default "" promo_code)
                                        base_price user_id db
  else (Ok (0, base_price), db).

(** No stored purchase has the payment id. *)
Definition fresh (payment_id : string) (db : Session) : Prop :=
  forall q, q ∈ purchases db -> models.payment_id q <> payment_id.

(** All of the above. *)
Definition ready (now : datetime.t) (payment_id : string)
    (user_id item_id : Z) (item_type : string)
    (promo_code : option string) (db : Session) : Prop :=
  user_ok user_id db /\ item_ok item_id item_type db /\
  not_owned user_id item_id item_type db /\
  promo_ok now promo_code db /\ fresh payment_id db.

End intent.

(** ** Life cycles *)

Module lifecycle.

(** The use counter of a limited code is within its limit ([max_uses]
    of 0 counts as no limit, as in the services). *)
Definition uses_within_max (p : PromoCode) : Prop :=
  forall m, max_uses p = Some m -> m <> 0 -> current_uses p <= m.

(** The moves of a withdrawal request's status. *)
Definition status_step (a b : WithdrawStatus) : Prop :=
  (a = W_PENDING /\ (b = W_APPROVED \/ b = W_REJECTED)) \/
  (a = W_APPROVED /\ b = W_COMPLETED).

(** What a request keeps for life. *)
Definition same_request (w w' : WithdrawRequest) : Prop :=
  w_id w' = w_id w /\ w_amount w' = w_amount w /\
  telegram_wallet_address w' = telegram_wallet_address w /\
  requested_at w' = requested_at w.

(** One operation leaves a request as it is, or moves its status by one
    step and keeps its identity. *)
Definition moved (w w' : WithdrawRequest) : Prop :=
  w' = w \/ (same_request w w' /\ status_step (w_status w) (w_status w')).

(** The key constraints of the purchases table: unique ids, unique
    payment ids, no empty payment id. *)
Definition purchase_keys_ok (db : Session) : Prop :=
  NoDup (id <$> purchases db) /\
  NoDup (payment_id <$> purchases db) /\
  Forall (fun p => payment_id p <> "") (purchases db).

End lifecycle.

(** ** Sample stores *)

Module fixtures.

(** 2024-01-01T00:00:00 *)
Definition T0 : datetime.t := 1704067200000000.

Definition minutes (m : Z) : Z := datetime.timedelta_minutes m.

Definition empty_db : Session := mkSession [] [] [] [] [] [].

Definition sample_user : User := mkUser 1 true.
Definition sample_lesson : Lesson := mkLesson 1 100 true.
Definition sample_course : Course := mkCourse 1 500 (Some 400) true.

(** The promo code of the test suites. *)
Definition TEST10 : PromoCode :=
  mkPromoCode 1 "TEST10" 10 None (Some 100) 0 true None.

(** A code with a single use left. *)
Definition ONCE : PromoCode :=
  mkPromoCode 2 "ONCE" 10 None (Some 1) 0 true None.

Definition shop : Session :=
  mkSession [sample_user] [sample_lesson] [sample_course] []
            [TEST10; ONCE] [].

(** The purchase of [test_verify_payment_success]. *)
Definition pending_purchase : Purchase :=
  mkPurchase 1 1 (Some 1) None "pay_test123" 100 PENDING T0 T0.

Definition with_status (s : PurchaseStatus) : Purchase :=
  mkPurchase 1 1 (Some 1) None "pay_test123" 100 s T0 T0.

Definition one_purchase (s : PurchaseStatus) : Session :=
  mkSession [sample_user] [sample_lesson] [] [with_status s] [] [].

(** The payload of [test_verify_payment_success]. *)
Definition test_invoice_payload : string :=
  PaymentService._create_invoice_payload T0 1 (Some 1) "lesson"
                                         "pay_test123".

Definition test_telegram_data : json.dict :=
  [("total_amount", JInt 100);
   ("currency", JStr "XTR");
   ("invoice_payload", JStr test_invoice_payload)].

(** Revenue 10000, approved and completed withdrawals 2000, pending
    withdrawals 500. *)
Definition ledger_db : Session :=
  mkSession [] [] []
    [mkPurchase 1 1 (Some 1) None "pay_a" 6000 COMPLETED T0 T0;
     mkPurchase 2 2 (Some 1) None "pay_b" 999 PENDING T0 T0;
     mkPurchase 3 3 None (Some 1) "pay_c" 4000 COMPLETED T0 T0;
     mkPurchase 4 4 None (Some 1) "pay_d" 50 FAILED T0 T0]
    []
    [mkWithdrawRequest 1 1500 W_APPROVED None T0 (Some T0) None (Some 1);
     mkWithdrawRequest 2 500 W_COMPLETED None T0 (Some T0) None (Some 1);
     mkWithdrawRequest 3 500 W_PENDING None T0 None None None;
     mkWithdrawRequest 4 300 W_REJECTED None T0 (Some T0) None (Some 1)].

(** A pending request with a negative amount beside one for 5000, on a
    revenue of 1000. *)
Definition negative_pending_db : Session :=
  mkSession [] [] []
    [mkPurchase 1 1 (Some 1) None "pay_a" 1000 COMPLETED T0 T0]
    []
    [mkWithdrawRequest 1 (-10000) W_PENDING None T0 None None None;
     mkWithdrawRequest 2 5000 W_PENDING None T0 None None None].

(** A pending request for more than what is available. *)
Definition overdrawn_db : Session :=
  mkSession [] [] []
    [mkPurchase 1 1 (Some 1) None "pay_a" 1000 COMPLETED T0 T0]
    []
    [mkWithdrawRequest 1 600 W_PENDING None T0 None None None].

(** One intent created at [T0] and still pending, one completed. *)
Definition sweep_db : Session :=
  mkSession [] [] []
    [mkPurchase 1 1 (Some 1) None "pay_a" 100 PENDING T0 T0;
     mkPurchase 2 1 (Some 2) None "pay_b" 100 COMPLETED T0
                (T0 + minutes 29)]
    [] [].

(** A store whose only purchase has a payment_id of digits. *)
Definition numbered_db : Session :=
  mkSession [sample_user] [sample_lesson] []
    [mkPurchase 1 1 (Some 1) None "123" 100 PENDING T0 T0] [] [].

(** A parser that knows one document. *)
Definition loads_one (text : string) (v : json.value) (s : string)
    : option json.value :=
  if String.eqb s text then Some v else None.

Definition webhook (total_amount : Z) (currency invoice_payload : string)
    : json.value :=
  JObj [("update_type", JStr "successful_payment");
        ("message",
         JObj [("successful_payment",
                JObj [("currency", JStr currency);
                      ("total_amount", JInt total_amount);
                      ("invoice_payload", JStr invoice_payload);
                      ("telegram_payment_charge_id", JStr "ch_1")])])].

End fixtures.

(** ** More sample stores *)

Module samples.

(** A code with one use left among two. *)
Definition LAST : PromoCode :=
  mkPromoCode 3 "LAST" 0 (Some 250) (Some 2) 1 true None.

Definition promo_db : Session :=
  mkSession [fixtures.sample_user] [fixtures.sample_lesson]
            [fixtures.sample_course] [] [fixtures.TEST10; LAST] [].

End samples.

(** * Properties *)

Local Open Scope list_scope.

(** ** Queries *)

Section QueryFacts.
Context {A : Type}.
Implicit Types (p : A -> bool) (tbl : list A) (h : nat) (r : A).

Lemma select_from_elem p tbl start h r :
  (h, r) ∈ query.select_from start p tbl <->
  (start <= h)%nat /\ tbl !! (h - start)%nat = Some r /\ p r = true.
Proof.
  revert start. induction tbl as [|x tbl IH]; intros start; simpl.
  - rewrite elem_of_nil. split; [tauto|]. intros (_ & Hx & _).
    rewrite lookup_nil in Hx. discriminate.
  - destruct (p x) eqn:Hpx.
    + rewrite elem_of_cons, IH. split.
      * intros [Heq | (Hle & Hl & Hp)].
        -- inversion Heq; subst. rewrite Nat.sub_diag. auto.
        -- split; [lia|]. split; [|exact Hp].
           replace (h - start)%nat with (S (h - S start)) by lia.
           exact Hl.
      * intros (Hle & Hl & Hp).
        destruct (decide (h = start)) as [->|Hne].
        -- left. rewrite Nat.sub_diag in Hl. simpl in Hl. congruence.
        -- right. split; [lia|]. split; [|exact Hp].
           replace (h - start)%nat with (S (h - S start)) in Hl by lia.
           exact Hl.
    + rewrite IH. split.
      * intros (Hle & Hl & Hp). split; [lia|]. split; [|exact Hp].
        replace (h - start)%nat with (S (h - S start)) by lia. exact Hl.
      * intros (Hle & Hl & Hp).
        destruct (decide (h = start)) as [->|Hne].
        -- rewrite Nat.sub_diag in Hl. simpl in Hl. congruence.
        -- split; [lia|]. split; [|exact Hp].
           replace (h - start)%nat with (S (h - S start)) in Hl by lia.
           exact Hl.
Qed.

Lemma select_from_head p tbl start h r :
  head (query.select_from start p tbl) = Some (h, r) ->
  (start <= h)%nat /\ tbl !! (h - start)%nat = Some r /\ p r = true /\
  forall j r', (j < h - start)%nat -> tbl !! j = Some r' -> p r' = false.
Proof.
  revert start. induction tbl as [|x tbl IH]; intros start; simpl.
  - discriminate.
  - destruct (p x) eqn:Hpx; simpl.
    + intros [= <- <-]. rewrite Nat.sub_diag. repeat split; auto. lia.
    + intros Hh. destruct (IH _ Hh) as (Hle & Hl & Hp & Hmin).
      split; [lia|].
      replace (h - start)%nat with (S (h - S start)) by lia.
      repeat split; auto.
      intros [|j] r' Hj Hr'; simpl in Hr'.
      * congruence.
      * apply (Hmin j); [lia|assumption].
Qed.

Lemma first_Some p tbl h r :
  query.first p tbl = Some (h, r) ->
  tbl !! h = Some r /\ p r = true /\
  forall j r', (j < h)%nat -> tbl !! j = Some r' -> p r' = false.
Proof.
  intros Hf. apply select_from_head in Hf.
  rewrite Nat.sub_0_r in Hf. tauto.
Qed.

Lemma first_None p tbl :
  query.first p tbl = None <-> forall r, r ∈ tbl -> p r = false.
Proof.
  unfold query.first, query.all. generalize 0%nat.
  induction tbl as [|x tbl IH]; intros start; simpl.
  - split; [|reflexivity]. intros _ r Hr. apply elem_of_nil in Hr. tauto.
  - destruct (p x) eqn:Hpx; simpl.
    + split; [discriminate|]. intros H.
      rewrite (H x) in Hpx; [discriminate|]. left.
    + rewrite IH. split.
      * intros H r [->|Hr]%elem_of_cons; auto.
      * intros H r Hr. apply H. right. exact Hr.
Qed.

(** A row that passes the filter is found, or an earlier one is. *)
Lemma first_found p tbl h r :
  tbl !! h = Some r -> p r = true ->
  exists h' r', query.first p tbl = Some (h', r') /\ (h' <= h)%nat.
Proof.
  intros Hl Hp. destruct (query.first p tbl) as [[h' r']|] eqn:Hf.
  - exists h', r'. split; [reflexivity|].
    apply first_Some in Hf as (_ & _ & Hmin).
    destruct (decide (h' <= h)%nat); [assumption|].
    rewrite (Hmin h r) in Hp; [discriminate|lia|assumption].
  - rewrite first_None in Hf. rewrite (Hf r) in Hp; [discriminate|].
    eapply list_elem_of_lookup_2. exact Hl.
Qed.

End QueryFacts.

(** ** Rendering of datetimes *)

Example isoformat_midnight :
  datetime.isoformat fixtures.T0 = "2024-01-01T00:00:00".
Proof. vm_compute. reflexivity. Qed.

Example isoformat_leap_day_micros :
  datetime.isoformat 1709251199000123 = "2024-02-29T23:59:59.000123".
Proof. vm_compute. reflexivity. Qed.

Example isoformat_before_epoch :
  datetime.isoformat (-1) = "1969-12-31T23:59:59.999999".
Proof. vm_compute. reflexivity. Qed.

Example generate_payment_id_prefix :
  PaymentService._generate_payment_id "1234567890abcdef1234567890abcdef"
  = "pay_1234567890abcdef".
Proof. reflexivity. Qed.

(** ** Aggregates *)

Section SumFacts.
Context {A : Type}.
Implicit Types (p : A -> bool) (col : A -> Z) (tbl : list A).

Lemma sum_select_from p col tbl start :
  foldr Z.add 0 (map (fun hr => col (snd hr))
                     (query.select_from start p tbl))
  = ledger.sum_where p col tbl.
Proof.
  revert start. induction tbl as [|x tbl IH]; intros start; simpl.
  - reflexivity.
  - destruct (p x); simpl; rewrite IH; lia.
Qed.

(** The SQL aggregate is the sum over the selected rows. *)
Lemma sum_scalar_sum_where p col tbl :
  query.sum_scalar col p tbl = ledger.sum_where p col tbl.
Proof.
  unfold query.sum_scalar, query.all.
  rewrite <- (sum_select_from p col tbl 0).
  destruct (map _ _); reflexivity.
Qed.

Lemma sum_where_app p col tbl1 tbl2 :
  ledger.sum_where p col (tbl1 ++ tbl2)
  = ledger.sum_where p col tbl1 + ledger.sum_where p col tbl2.
Proof. induction tbl1 as [|x tbl1 IH]; simpl; [|rewrite IH]; lia. Qed.

(** Rewriting one row moves the sum by that row's contribution. *)
Lemma sum_where_alter p col tbl h r (f : A -> A) :
  tbl !! h = Some r ->
  ledger.sum_where p col (alter f h tbl)
  = ledger.sum_where p col tbl
    - (if p r then col r else 0) + (if p (f r) then col (f r) else 0).
Proof.
  revert h. induction tbl as [|x tbl IH]; intros [|h] Hl; cbn in *;
    try discriminate.
  - injection Hl as ->. lia.
  - rewrite (IH h Hl). lia.
Qed.

Lemma sum_where_ge_row p col tbl h r :
  Forall (fun x => p x = true -> 0 <= col x) tbl ->
  tbl !! h = Some r -> p r = true ->
  col r <= ledger.sum_where p col tbl.
Proof.
  intros Hall. revert h.
  induction Hall as [|x tbl Hx Hall IH]; intros [|h] Hl Hp; simpl in *;
    try discriminate.
  - injection Hl as ->. rewrite Hp.
    assert (0 <= ledger.sum_where p col tbl); [|lia].
    clear -Hall. induction Hall as [|y l Hy _ IH']; simpl; [lia|].
    destruct (p y); [specialize (Hy eq_refl)|]; lia.
  - specialize (IH h Hl Hp). destruct (p x); [specialize (Hx eq_refl)|]; lia.
Qed.

End SumFacts.

(** ** Promo code engine: the discount function *)

Lemma apply_discount_final promo amount :
  let r := PromoCodeService.apply_discount promo amount in
  PromoCodeService.final_amount r
  = amount - PromoCodeService.discount_amount r.
Proof.
  unfold PromoCodeService.apply_discount, MIN_PRICE. cbn.
  destruct (py.truthy_opt_int _); lia.
Qed.

(** C7.  For every promo code and every integer base amount, the result of
    [apply_discount] has [original_amount] equal to the base amount,
    [original_amount - discount_amount = final_amount], and [final_amount]
    at least the minimum price; and for base amount 100 with the 10 percent
    code TEST10 it is original 100, discount 10, final 90. *)
Theorem apply_discount_round_trip :
  (forall (promo : PromoCode) (amount : Z),
     let r := PromoCodeService.apply_discount promo amount in
     PromoCodeService.original_amount r = amount /\
     PromoCodeService.original_amount r - PromoCodeService.discount_amount r
       = PromoCodeService.final_amount r /\
     MIN_PRICE <= PromoCodeService.final_amount r) /\
  PromoCodeService.apply_discount fixtures.TEST10 100
    = PromoCodeService.mkDiscountInfo 100 10 90 10.
Proof.
  split.
  - intros promo amount r.
    pose proof (apply_discount_final promo amount) as Hf.
    fold r in Hf. cbv zeta in Hf.
    split; [reflexivity|]. rewrite Hf.
    change (PromoCodeService.original_amount r) with amount.
    split; [reflexivity|].
    subst r. unfold PromoCodeService.apply_discount, MIN_PRICE. cbn.
    destruct (py.truthy_opt_int _); lia.
  - reflexivity.
Qed.

(** ** Withdrawal ledger: the available balance *)

Lemma calculate_available_amount_spec db :
  WithdrawService._calculate_available_amount db = ledger.AvailableBalance db.
Proof.
  unfold WithdrawService._calculate_available_amount, ledger.AvailableBalance,
    ledger.commission, ledger.revenue, ledger.paid_out, ledger.pending.
  rewrite !sum_scalar_sum_where. reflexivity.
Qed.

(** C4.  For every store, the record computed by
    [calculate_withdrawable_amount] holds the sum of completed purchases,
    the sum of approved and completed withdrawals, the sum of pending
    withdrawals and the commission, which is the revenue times the
    commission percent over 100 rounded down; its available amount is the
    first minus the other three, floored at zero, and it is also what
    [_calculate_available_amount] returns.  With revenue 10000, commission
    percent 5, withdrawals 2000 and pending withdrawals 500 that is 7000. *)
Theorem available_balance_formula (db : Session) :
  let r := FinanceService.calculate_withdrawable_amount db in
  FinanceService.total_revenue r = ledger.revenue db /\
  FinanceService.total_withdraws r = ledger.paid_out db /\
  FinanceService.pending_withdraws r = ledger.pending db /\
  FinanceService.commission_amount r = ledger.commission db /\
  (100 * ledger.commission db <= ledger.revenue db * COMMISSION_PERCENT
     < 100 * (ledger.commission db + 1)) /\
  FinanceService.available_amount r
    = Z.max 0 (ledger.revenue db - ledger.paid_out db - ledger.pending db
               - ledger.commission db) /\
  WithdrawService._calculate_available_amount db
    = FinanceService.available_amount r /\
  (ledger.revenue db = 10000 -> ledger.paid_out db = 2000 ->
   ledger.pending db = 500 -> COMMISSION_PERCENT = 5 ->
   FinanceService.available_amount r = 7000).
Proof.
  intros r.
  assert (Hrev : FinanceService.total_revenue r = ledger.revenue db).
  { apply sum_scalar_sum_where. }
  assert (Hout : FinanceService.total_withdraws r = ledger.paid_out db).
  { apply sum_scalar_sum_where. }
  assert (Hpend : FinanceService.pending_withdraws r = ledger.pending db).
  { apply sum_scalar_sum_where. }
  assert (Hcom : FinanceService.commission_amount r = ledger.commission db).
  { unfold ledger.commission. rewrite <- Hrev. reflexivity. }
  assert (Hav : FinanceService.available_amount r
                = Z.max 0 (ledger.revenue db - ledger.paid_out db
                           - ledger.pending db - ledger.commission db)).
  { rewrite <- Hrev, <- Hout, <- Hpend, <- Hcom. reflexivity. }
  split; [exact Hrev|]. split; [exact Hout|]. split; [exact Hpend|].
  split; [exact Hcom|]. split; [|split; [exact Hav|split]].
  - unfold ledger.commission.
    pose proof (Z.mul_div_le (ledger.revenue db * COMMISSION_PERCENT) 100).
    pose proof (Z.mul_succ_div_gt (ledger.revenue db * COMMISSION_PERCENT)
                  100).
    lia.
  - rewrite calculate_available_amount_spec, Hav. reflexivity.
  - intros Hr Hw Hp Hc. rewrite Hav. unfold ledger.commission.
    rewrite Hr, Hw, Hp, Hc. reflexivity.
Qed.

Lemma available_balance_formula_witness :
  ledger.revenue fixtures.ledger_db = 10000 /\
  ledger.paid_out fixtures.ledger_db = 2000 /\
  ledger.pending fixtures.ledger_db = 500 /\
  FinanceService.available_amount
    (FinanceService.calculate_withdrawable_amount fixtures.ledger_db) = 7000.
Proof.
  split; [reflexivity|]. split; [reflexivity|]. split; [reflexivity|].
  destruct (available_balance_formula fixtures.ledger_db)
    as (_ & _ & _ & _ & _ & _ & _ & Hexample).
  apply Hexample; reflexivity.
Defined.

(** ** Objects and keys *)

Section KeyFacts.
Context {A K : Type}.
Implicit Types (tbl : list A) (key : A -> K) (h : nat) (r : A).

Lemma assign_insert (f : A -> A) tbl h r :
  tbl !! h = Some r -> query.assign f h tbl = <[h := f r]> tbl.
Proof.
  unfold query.assign. revert h.
  induction tbl as [|x tbl IH]; intros [|h] Hl; cbn in *;
    try discriminate.
  - injection Hl as ->. reflexivity.
  - f_equal. apply IH, Hl.
Qed.

(** Under a uniqueness constraint on [key], a lookup by key yields the
    one row that has it. *)
Lemma first_unique key (pred : A -> bool) (k : K) tbl h r :
  (forall x, pred x = true <-> key x = k) ->
  NoDup (key <$> tbl) -> tbl !! h = Some r -> key r = k ->
  query.first pred tbl = Some (h, r).
Proof.
  intros Hpred Hnd Hl Hk.
  destruct (first_found pred tbl h r Hl) as (h' & r' & Hf & _).
  { apply Hpred, Hk. }
  destruct (first_Some _ _ _ _ Hf) as (Hl' & Hp' & _).
  apply Hpred in Hp'.
  assert (h' = h) as ->.
  { apply (NoDup_lookup (key <$> tbl) h' h k Hnd);
      rewrite list_lookup_fmap; [rewrite Hl'|rewrite Hl]; simpl; congruence. }
  congruence.
Qed.

Lemma first_absent (pred : A -> bool) tbl :
  (forall r, r ∈ tbl -> pred r = false) -> query.first pred tbl = None.
Proof. apply first_None. Qed.

End KeyFacts.

Lemma first_by_id (tbl : list Purchase) h p :
  NoDup (id <$> tbl) -> tbl !! h = Some p ->
  query.first (fun q => id q =? id p) tbl = Some (h, p).
Proof.
  intros Hnd Hl. apply (first_unique id _ (id p)); auto.
  intros x. apply Z.eqb_eq.
Qed.

Lemma first_by_payment_id (tbl : list Purchase) h p :
  NoDup (payment_id <$> tbl) -> tbl !! h = Some p ->
  query.first (fun q => String.eqb (payment_id q) (payment_id p)) tbl
  = Some (h, p).
Proof.
  intros Hnd Hl. apply (first_unique payment_id _ (payment_id p)); auto.
  intros x. apply String.eqb_eq.
Qed.

(** ** Payment intents: finalising and failing *)

Lemma process_successful_payment_found now db h p :
  NoDup (id <$> purchases db) -> purchases db !! h = Some p ->
  PaymentService.process_successful_payment now (id p) db
  = (true,
     with_purchases
       (<[h := set_purchase_status COMPLETED now p]> (purchases db)) db).
Proof.
  intros Hnd Hl. unfold PaymentService.process_successful_payment.
  rewrite (first_by_id _ h p Hnd Hl).
  rewrite (assign_insert _ _ h p Hl). reflexivity.
Qed.





(** A completed purchase is moved to failed by [handle_failed_payment]. *)
Lemma completed_purchase_can_fail :
  status <$> purchases
               (snd (PaymentService.handle_failed_payment fixtures.T0
                       1 "declined" (fixtures.one_purchase COMPLETED)))
             !! 0%nat
  = Some FAILED.
Proof. reflexivity. Qed.

(** ** Webhook reconciliation *)

Lemma webhook_handler_selects json_loads now top message successful_payment
    payload_data text value db h p :
  json.dict_lookup "message" top = Some (JObj message) ->
  json.dict_lookup "successful_payment" message
    = Some (JObj successful_payment) ->
  json.dict_lookup "invoice_payload" successful_payment = Some (JStr text) ->
  json_loads text = Some (JObj payload_data) ->
  json.dict_lookup "payment_id" payload_data = Some value ->
  json.truthy value = true ->
  query.first (payments.payment_id_is value) (purchases db) = Some (h, p) ->
  payments._process_successful_payment_webhook json_loads now (JObj top) db
  = snd (PaymentService.process_successful_payment now (id p) db).
Proof.
  intros Hmsg Hsp Hinv Hloads Hpid Hne Hf.
  unfold payments._process_successful_payment_webhook.
  unfold json.get at 1. unfold json.dict_get. rewrite Hmsg. simpl.
  unfold json.dict_get. rewrite Hsp. simpl.
  assert (Htruthy : match successful_payment with
                    | [] => false | _ => true end = true).
  { destruct successful_payment; [discriminate|reflexivity]. }
  rewrite Htruthy. simpl.
  unfold json.dict_get. rewrite Hinv. simpl.
  rewrite Hloads. simpl. unfold json.dict_get. rewrite Hpid. simpl.
  rewrite Hne. simpl. rewrite Hf. reflexivity.
Qed.

Lemma first_payment_id_is_unique value db h p :
  NoDup (payment_id <$> purchases db) -> purchases db !! h = Some p ->
  payments.payment_id_is value p = true ->
  query.first (payments.payment_id_is value) (purchases db) = Some (h, p).
Proof.
  intros Hnd Hl Hsel. unfold payments.payment_id_is in *.
  destruct (sqlite.bind value) as [key|]; [|discriminate].
  apply String.eqb_eq in Hsel.
  apply (first_unique payment_id _ key _ h p); auto.
  intros x. apply String.eqb_eq.
Qed.

(** C6, as amended.  For every webhook payload whose successful_payment
    entry carries an invoice payload that parses as a JSON object with a
    payment_id that is not empty (not null, false, 0 or the empty string)
    and selects an existing purchase (a string equal to the purchase's
    payment_id, or an integer whose decimal text is), the background
    handler sets that purchase to completed, stamping [updated_at], and
    changes nothing else.  The result is a function of the store, the clock
    and the selected purchase alone: the other entries of the
    successful_payment object (amount, currency, charge id) and of the
    correlation payload are arbitrary and do not occur in it, and neither
    does the status the purchase had. *)
Theorem webhook_completes_by_payment_id
    (json_loads : string -> option json.value) (now : datetime.t)
    (top message successful_payment payload_data : json.dict)
    (text : string) (value : json.value) (db : Session) (h : nat)
    (p : Purchase) :
  json.dict_lookup "message" top = Some (JObj message) ->
  json.dict_lookup "successful_payment" message
    = Some (JObj successful_payment) ->
  json.dict_lookup "invoice_payload" successful_payment = Some (JStr text) ->
  json_loads text = Some (JObj payload_data) ->
  json.dict_lookup "payment_id" payload_data = Some value ->
  json.truthy value = true ->
  payments.payment_id_is value p = true ->
  NoDup (id <$> purchases db) ->
  NoDup (payment_id <$> purchases db) ->
  purchases db !! h = Some p ->
  payments._process_successful_payment_webhook json_loads now (JObj top) db
  = with_purchases
      (<[h := mkPurchase (id p) (user_id p) (lesson_id p) (course_id p)
                (payment_id p) (amount p) COMPLETED (created_at p) now]>
         (purchases db)) db.
Proof.
  intros Hmsg Hsp Hinv Hloads Hpid Hne Hsel Hids Hpids Hl.
  rewrite (webhook_handler_selects json_loads now top message
             successful_payment payload_data text value db h p); auto.
  - rewrite (process_successful_payment_found now db h p Hids Hl).
    reflexivity.
  - apply first_payment_id_is_unique; assumption.
Qed.

Lemma webhook_completes_by_payment_id_witness :
  let text := "{...}" in
  let by_string :=
    fixtures.loads_one text
      (JObj [("payment_id", JStr "pay_test123"); ("user_id", JInt 77)]) in
  let by_number :=
    fixtures.loads_one text (JObj [("payment_id", JInt 123)]) in
  purchases
    (payments._process_successful_payment_webhook by_string
       (fixtures.T0 + 5) (fixtures.webhook 1 "USD" text)
       (fixtures.one_purchase PENDING))
  = [mkPurchase 1 1 (Some 1) None "pay_test123" 100 COMPLETED fixtures.T0
       (fixtures.T0 + 5)] /\
  purchases
    (payments._process_successful_payment_webhook by_number
       (fixtures.T0 + 5) (fixtures.webhook 1 "USD" text)
       fixtures.numbered_db)
  = [mkPurchase 1 1 (Some 1) None "123" 100 COMPLETED fixtures.T0
       (fixtures.T0 + 5)].
Proof.
  intros text by_string by_number. unfold fixtures.webhook. split.
  - erewrite (webhook_completes_by_payment_id by_string (fixtures.T0 + 5)
               _ _ _
               [("payment_id", JStr "pay_test123"); ("user_id", JInt 77)]
               text (JStr "pay_test123") (fixtures.one_purchase PENDING)
               0%nat (fixtures.with_status PENDING));
      try reflexivity; apply NoDup_singleton.
  - erewrite (webhook_completes_by_payment_id by_number (fixtures.T0 + 5)
               _ _ _ [("payment_id", JInt 123)] text (JInt 123)
               fixtures.numbered_db 0%nat
               (mkPurchase 1 1 (Some 1) None "123" 100 PENDING fixtures.T0
                  fixtures.T0));
      try reflexivity; apply NoDup_singleton.
Defined.

(** C6, as stated, fails: a payment_id that is empty selects no purchase,
    not even one whose payment_id is the empty string; the handler returns
    before the lookup. *)
Lemma empty_payment_id_is_not_looked_up :
  ~ (forall (json_loads : string -> option json.value) (now : datetime.t)
       (top message successful_payment payload_data : json.dict)
       (text : string) (value : json.value) (db : Session) (h : nat)
       (p : Purchase),
       json.dict_lookup "message" top = Some (JObj message) ->
       json.dict_lookup "successful_payment" message
         = Some (JObj successful_payment) ->
       json.dict_lookup "invoice_payload" successful_payment
         = Some (JStr text) ->
       json_loads text = Some (JObj payload_data) ->
       json.dict_lookup "payment_id" payload_data = Some value ->
       payments.payment_id_is value p = true ->
       NoDup (id <$> purchases db) ->
       NoDup (payment_id <$> purchases db) ->
       purchases db !! h = Some p ->
       status <$> purchases
                    (payments._process_successful_payment_webhook
                       json_loads now (JObj top) db) !! h
       = Some COMPLETED).
Proof.
  intros Hall.
  pose (text := "{...}").
  pose (p := mkPurchase 1 1 (Some 1) None "" 100 PENDING fixtures.T0
               fixtures.T0).
  pose (db := with_purchases [p] (fixtures.one_purchase PENDING)).
  specialize (Hall (fixtures.loads_one text (JObj [("payment_id", JStr "")]))
                (fixtures.T0 + 5)
                [("update_type", JStr "successful_payment");
                 ("message",
                  JObj [("successful_payment",
                         JObj [("invoice_payload", JStr text)])])]
                [("successful_payment",
                  JObj [("invoice_payload", JStr text)])]
                [("invoice_payload", JStr text)]
                [("payment_id", JStr "")] text (JStr "") db 0%nat p
                eq_refl eq_refl eq_refl eq_refl eq_refl eq_refl).
  assert (Hids : NoDup (id <$> purchases db)) by apply NoDup_singleton.
  assert (Hpids : NoDup (payment_id <$> purchases db))
    by apply NoDup_singleton.
  specialize (Hall Hids Hpids eq_refl).
  vm_compute in Hall. discriminate.
Qed.

(** The same with the number 0 against a purchase whose payment_id
    is ['0']. *)
Example zero_payment_id_is_not_looked_up :
  let text := "{...}" in
  let p := mkPurchase 1 1 (Some 1) None "0" 100 PENDING fixtures.T0
             fixtures.T0 in
  let db := with_purchases [p] (fixtures.one_purchase PENDING) in
  payments.payment_id_is (JInt 0) p = true /\
  payments._process_successful_payment_webhook
    (fixtures.loads_one text (JObj [("payment_id", JInt 0)]))
    (fixtures.T0 + 5) (fixtures.webhook 100 "XTR" text) db
  = db.
Proof. split; reflexivity. Qed.

(** ** Expiry sweeper *)

Section BulkAssign.
Context {A : Type}.
Implicit Types (p : A -> bool) (f : A -> A) (tbl pre : list A).

(** Assigning through every selected handle rewrites exactly the rows
    that pass the filter. *)
Lemma foldl_assign_select_from p f tbl pre :
  foldl (fun t hr => query.assign f (fst hr) t) (pre ++ tbl)
        (query.select_from (length pre) p tbl)
  = pre ++ map (fun r => if p r then f r else r) tbl.
Proof.
  revert pre. induction tbl as [|x tbl IH]; intros pre; simpl.
  - reflexivity.
  - destruct (p x) eqn:Hpx; simpl.
    + unfold query.assign at 2.
      replace (length pre) with (length pre + 0)%nat at 1 by lia.
      rewrite alter_app_r. cbn.
      specialize (IH (pre ++ [f x])).
      rewrite length_app, Nat.add_1_r, <- app_assoc in IH. simpl in IH.
      rewrite IH, <- app_assoc. reflexivity.
    + specialize (IH (pre ++ [x])).
      rewrite length_app, Nat.add_1_r, <- app_assoc in IH. simpl in IH.
      rewrite IH, <- app_assoc. reflexivity.
Qed.

Lemma foldl_assign_all p f tbl :
  foldl (fun t hr => query.assign f (fst hr) t) tbl (query.all p tbl)
  = map (fun r => if p r then f r else r) tbl.
Proof. apply (foldl_assign_select_from p f tbl []). Qed.

Lemma length_select_from p tbl start :
  length (query.select_from start p tbl) = length (List.filter p tbl).
Proof.
  revert start. induction tbl as [|x tbl IH]; intros start; simpl.
  - reflexivity.
  - destruct (p x); simpl; rewrite IH; reflexivity.
Qed.

End BulkAssign.

Lemma is_expired_iff timeout now p :
  PaymentService.is_expired timeout now p = true <->
  status p = PENDING /\
  created_at p < now - datetime.timedelta_minutes timeout.
Proof.
  unfold PaymentService.is_expired.
  rewrite andb_true_iff, Z.ltb_lt.
  destruct (status p); simpl; intuition congruence.
Qed.



(** ** Withdrawal ledger: requests never overdraw *)

Section WithdrawFacts.
Import ledger.

Lemma available_amount_unclamped db a :
  0 < a -> a <= WithdrawService._calculate_available_amount db ->
  a <= revenue db - paid_out db - pending db - commission db.
Proof.
  rewrite calculate_available_amount_spec. unfold AvailableBalance. lia.
Qed.

Lemma pending_nonneg_total db : pending_nonneg db -> 0 <= pending db.
Proof.
  unfold pending_nonneg, pending.
  induction 1 as [|w l Hw _ IH]; simpl; [lia|].
  destruct (is_pending w); [specialize (Hw eq_refl)|]; lia.
Qed.

(** Rewriting a request touches neither the purchases nor, when the row
    is no longer pending afterwards, the sign condition. *)
Lemma pending_nonneg_assign db h (f : WithdrawRequest -> WithdrawRequest) :
  pending_nonneg db ->
  (forall w, is_pending (f w) = false) ->
  pending_nonneg
    (with_withdraw_requests (query.assign f h (withdraw_requests db)) db).
Proof.
  unfold pending_nonneg, query.assign. simpl. intros Hall Hf.
  apply Forall_alter; [exact Hall|].
  intros w _ _ Hp. rewrite Hf in Hp. discriminate.
Qed.

Lemma paid_out_assign db h w (f : WithdrawRequest -> WithdrawRequest) :
  withdraw_requests db !! h = Some w ->
  paid_out
    (with_withdraw_requests (query.assign f h (withdraw_requests db)) db)
  = paid_out db
    - (if is_paid_out w then w_amount w else 0)
    + (if is_paid_out (f w) then w_amount (f w) else 0).
Proof. intros Hl. apply sum_where_alter, Hl. Qed.

Lemma within_bounds_same_purchases db db' :
  purchases db' = purchases db -> paid_out db' <= paid_out db ->
  within_bounds db -> within_bounds db'.
Proof.
  unfold within_bounds, commission, revenue. intros -> Hle Hb. lia.
Qed.

Lemma create_safe db0 db now a wallet note :
  safe db0 db ->
  safe db0 (snd (WithdrawService.create_withdraw_request
                   now a wallet note db)).
Proof.
  intros (Hp & Hnn & Hb). unfold WithdrawService.create_withdraw_request.
  destruct (a <? MIN_WITHDRAW_AMOUNT) eqn:Hmin; [repeat split; assumption|].
  destruct (MAX_WITHDRAW_AMOUNT <? a); [repeat split; assumption|].
  destruct (_ <? a); [repeat split; assumption|].
  simpl. split; [exact Hp|]. split.
  - unfold pending_nonneg. simpl. apply Forall_app. split; [exact Hnn|].
    constructor; [|constructor]. simpl. intros _.
    apply Z.ltb_ge in Hmin. unfold MIN_WITHDRAW_AMOUNT in Hmin. lia.
  - apply (within_bounds_same_purchases db); [reflexivity| |exact Hb].
    unfold paid_out. simpl. rewrite sum_where_app. simpl. lia.
Qed.

Lemma approve_safe db0 db now request admin note :
  safe db0 db ->
  safe db0 (snd (WithdrawService.approve_withdraw
                   now request admin note db)).
Proof.
  intros (Hp & Hnn & Hb). unfold WithdrawService.approve_withdraw.
  destruct (WithdrawService.get_withdraw_request_by_id request db)
    as [[h w]|] eqn:Hget; [|repeat split; assumption].
  apply first_Some in Hget as (Hl & _ & _).
  destruct (WithdrawStatus_eqb (w_status w) W_PENDING) eqn:Hst; simpl;
    [|repeat split; assumption].
  assert (Hnot_paid : is_paid_out w = false).
  { unfold is_paid_out. destruct (w_status w); try discriminate;
      reflexivity. }
  destruct (_ <? w_amount w) eqn:Hav; simpl.
  - split; [exact Hp|]. split.
    + apply pending_nonneg_assign; [exact Hnn|reflexivity].
    + apply (within_bounds_same_purchases db); [reflexivity| |exact Hb].
      rewrite (paid_out_assign db h w _ Hl), Hnot_paid. simpl. lia.
  - split; [exact Hp|]. split.
    + apply pending_nonneg_assign; [exact Hnn|reflexivity].
    + apply Z.ltb_ge in Hav.
      assert (Hrow : w_amount w <= pending db).
      { apply (sum_where_ge_row is_pending w_amount _ h w);
          [exact Hnn|exact Hl|exact Hst]. }
      unfold within_bounds in *.
      rewrite (paid_out_assign db h w _ Hl), Hnot_paid.
      change (revenue (with_withdraw_requests _ db)) with (revenue db).
      change (commission (with_withdraw_requests _ db))
        with (commission db).
      simpl.
      destruct (Z_lt_le_dec 0 (w_amount w)) as [Hpos|Hneg]; [|lia].
      pose proof (available_amount_unclamped db _ Hpos Hav). lia.
Qed.

Lemma reject_safe db0 db now request admin reason :
  safe db0 db ->
  safe db0 (snd (WithdrawService.reject_withdraw
                   now request admin reason db)).
Proof.
  intros (Hp & Hnn & Hb). unfold WithdrawService.reject_withdraw.
  destruct (WithdrawService.get_withdraw_request_by_id request db)
    as [[h w]|] eqn:Hget; [|repeat split; assumption].
  apply first_Some in Hget as (Hl & _ & _).
  destruct (WithdrawStatus_eqb (w_status w) W_PENDING) eqn:Hst; simpl;
    [|repeat split; assumption].
  assert (Hnot_paid : is_paid_out w = false).
  { unfold is_paid_out. destruct (w_status w); try discriminate;
      reflexivity. }
  split; [exact Hp|]. split.
  - apply pending_nonneg_assign; [exact Hnn|reflexivity].
  - apply (within_bounds_same_purchases db); [reflexivity| |exact Hb].
    rewrite (paid_out_assign db h w _ Hl), Hnot_paid. simpl. lia.
Qed.

Lemma process_safe db0 db now request admin :
  safe db0 db ->
  safe db0 (snd (WithdrawService.process_withdraw now request admin db)).
Proof.
  intros (Hp & Hnn & Hb). unfold WithdrawService.process_withdraw.
  destruct (WithdrawService.get_withdraw_request_by_id request db)
    as [[h w]|] eqn:Hget; [|repeat split; assumption].
  apply first_Some in Hget as (Hl & _ & _).
  destruct (WithdrawStatus_eqb (w_status w) W_APPROVED) eqn:Hst; simpl;
    [|repeat split; assumption].
  assert (Hpaid : is_paid_out w = true).
  { unfold is_paid_out. rewrite Hst. reflexivity. }
  split; [exact Hp|]. split.
  - apply pending_nonneg_assign; [exact Hnn|reflexivity].
  - apply (within_bounds_same_purchases db); [reflexivity| |exact Hb].
    rewrite (paid_out_assign db h w _ Hl), Hpaid. simpl. lia.
Qed.

Lemma run_op_safe db0 db o :
  safe db0 db -> safe db0 (WithdrawService.run_op db o).
Proof.
  destruct o; simpl;
    auto using create_safe, approve_safe, reject_safe, process_safe.
Qed.

Lemma run_ops_safe db0 ops : forall db,
  safe db0 db -> safe db0 (WithdrawService.run_ops db ops).
Proof.
  unfold WithdrawService.run_ops.
  induction ops as [|o ops IH]; intros db Hs; simpl; [exact Hs|].
  apply IH, run_op_safe, Hs.
Qed.

End WithdrawFacts.

(** C3, as amended.  Start from a store in which the approved and
    completed withdrawals are covered by the completed revenue net of
    commission and no pending request has a negative amount.  After any
    sequence of [create_withdraw_request], [approve_withdraw],
    [reject_withdraw] and [process_withdraw] calls the revenue is the same
    and the approved and completed withdrawals are still covered.  And
    [approve_withdraw] computes the available amount at approval time: a
    pending request for more than that is set to rejected, with the note
    that the funds are insufficient and how much is available, the
    administrator and the processing time, and the call returns false. *)
Theorem withdrawals_within_bounds (db : Session) :
  (ledger.within_bounds db -> ledger.pending_nonneg db ->
   forall ops : list WithdrawService.op,
     ledger.revenue (WithdrawService.run_ops db ops) = ledger.revenue db /\
     ledger.paid_out (WithdrawService.run_ops db ops)
       <= ledger.revenue db - ledger.commission db) /\
  (forall now request_id admin_id notes h w,
     WithdrawService.get_withdraw_request_by_id request_id db = Some (h, w) ->
     w_status w = W_PENDING ->
     ledger.AvailableBalance db < w_amount w ->
     WithdrawService.approve_withdraw now request_id admin_id notes db
     = (false,
        with_withdraw_requests
          (<[h := mkWithdrawRequest (w_id w) (w_amount w) W_REJECTED
                    (telegram_wallet_address w) (requested_at w) (Some now)
                    (Some ("Недостаточно средств. Доступно: "
                             +:+ pretty (ledger.AvailableBalance db)
                             +:+ " Stars"))
                    (Some admin_id)]> (withdraw_requests db)) db)).
Proof.
  split.
  - intros Hb Hnn ops.
    destruct (run_ops_safe db ops db) as (Hp & _ & Hb').
    { repeat split; assumption. }
    unfold ledger.within_bounds, ledger.commission, ledger.revenue in *.
    rewrite Hp in *. split; [reflexivity|exact Hb'].
  - intros now request_id admin_id notes h w Hget Hst Hlt.
    unfold WithdrawService.approve_withdraw. rewrite Hget, Hst. simpl.
    rewrite calculate_available_amount_spec.
    apply Z.ltb_lt in Hlt. rewrite Hlt.
    apply first_Some in Hget as (Hl & _ & _).
    rewrite (assign_insert _ _ h w Hl). reflexivity.
Qed.

Lemma withdrawals_within_bounds_witness :
  let ops :=
    [WithdrawService.Create fixtures.T0 4000 None None;
     WithdrawService.Approve (fixtures.T0 + 1) 3 1 None;
     WithdrawService.Approve (fixtures.T0 + 2) 5 1 (Some "ok");
     WithdrawService.Process (fixtures.T0 + 3) 1 1;
     WithdrawService.Reject (fixtures.T0 + 4) 5 1 "late"] in
  ledger.paid_out (WithdrawService.run_ops fixtures.ledger_db ops)
    <= ledger.revenue fixtures.ledger_db
       - ledger.commission fixtures.ledger_db /\
  WithdrawService.approve_withdraw (fixtures.T0 + 1) 1 7 None
    fixtures.overdrawn_db
  = (false,
     with_withdraw_requests
       [mkWithdrawRequest 1 600 W_REJECTED None fixtures.T0
          (Some (fixtures.T0 + 1))
          (Some "Недостаточно средств. Доступно: 350 Stars") (Some 7)]
       fixtures.overdrawn_db).
Proof.
  intros ops. split.
  - destruct (withdrawals_within_bounds fixtures.ledger_db) as [Hinv _].
    apply Hinv.
    + vm_compute. discriminate.
    + repeat constructor; simpl; try discriminate; lia.
  - destruct (withdrawals_within_bounds fixtures.overdrawn_db) as [_ Hrej].
    rewrite (Hrej (fixtures.T0 + 1) 1 7 None 0%nat
               (mkWithdrawRequest 1 600 W_PENDING None fixtures.T0 None None
                  None) eq_refl eq_refl eq_refl).
    reflexivity.
Defined.

(** C3, as stated, fails: the bound on the store at the start is not
    enough.  A pending request with a negative amount raises the available
    amount, and approving another request then takes the approved total
    above the revenue net of commission. *)
Lemma negative_pending_amount_breaks_the_bound :
  ~ (forall (db : Session) (ops : list WithdrawService.op),
       ledger.within_bounds db ->
       ledger.paid_out (WithdrawService.run_ops db ops)
       <= ledger.revenue (WithdrawService.run_ops db ops)
          - ledger.commission (WithdrawService.run_ops db ops)).
Proof.
  intros Hall.
  specialize (Hall fixtures.negative_pending_db
                [WithdrawService.Approve (fixtures.T0 + 1) 2 1 None]).
  assert (Hb : ledger.within_bounds fixtures.negative_pending_db).
  { vm_compute. discriminate. }
  specialize (Hall Hb). vm_compute in Hall. apply Hall. reflexivity.
Qed.

(** On that store the request is approved and 5000 is paid out of a
    revenue of 1000. *)
Example negative_pending_amount_overdraws :
  let db' :=
    WithdrawService.run_ops fixtures.negative_pending_db
      [WithdrawService.Approve (fixtures.T0 + 1) 2 1 None] in
  WithdrawService._calculate_available_amount fixtures.negative_pending_db
    = 5950 /\
  w_status <$> withdraw_requests db' = [W_PENDING; W_APPROVED] /\
  ledger.paid_out db' = 5000 /\ ledger.revenue db' = 1000 /\
  ledger.commission db' = 50.
Proof. repeat split. Qed.

(** ** Promo code engine: redemption *)

(** What [use_promo_code] writes on the promo object. *)
Lemma use_promo_code_redeems now code user db h promo :
  PromoCodeService.validate_promo_code now code db = Ok (h, promo) ->
  let exhausted :=
    match max_uses promo with
    | Some m => negb (m =? 0) && (m <=? current_uses promo + 1)
    | None => false
    end in
  PromoCodeService.use_promo_code now code user db
  = (true,
     with_promocodes
       (<[h := mkPromoCode (promo_id promo) (models.code promo)
                 (discount_percent promo) (discount_amount promo)
                 (max_uses promo) (current_uses promo + 1)
                 (if exhausted then false else is_active promo)
                 (expires_at promo)]> (promocodes db)) db).
Proof.
  intros Hval exhausted. unfold PromoCodeService.use_promo_code.
  rewrite Hval.
  assert (Hl : promocodes db !! h = Some promo).
  { unfold PromoCodeService.validate_promo_code in Hval.
    destruct (query.first _ _) as [[h' promo']|] eqn:Hf; [|discriminate].
    apply first_Some in Hf as (Hl & _).
    repeat match type of Hval with
           | (if ?c then _ else _) = _ => destruct c; [discriminate|]
           end.
    injection Hval as -> ->. exact Hl. }
  f_equal. f_equal. unfold query.assign.
  assert (Hex : py.truthy_opt_int (max_uses promo)
                && match max_uses promo with
                   | Some m => m <=? current_uses promo + 1
                   | None => false
                   end = exhausted).
  { subst exhausted. destruct (max_uses promo); reflexivity. }
  rewrite Hex. apply list_eq. intros i.
  destruct (decide (i = h)) as [->|Hne].
  - rewrite list_lookup_insert_eq by (eapply lookup_lt_Some, Hl).
    destruct exhausted.
    + rewrite list_lookup_alter_eq, list_lookup_alter_eq, Hl. reflexivity.
    + rewrite list_lookup_alter_eq, Hl. destruct promo; reflexivity.
  - rewrite list_lookup_insert_ne by congruence.
    destruct exhausted; rewrite ?list_lookup_alter_ne by congruence;
      reflexivity.
Qed.

(** A code that validates has a use left, so the counter stays within
    [max_uses] after [use_promo_code]. *)
Lemma validate_promo_code_has_use_left now code db h promo m :
  PromoCodeService.validate_promo_code now code db = Ok (h, promo) ->
  max_uses promo = Some m -> m <> 0 ->
  current_uses promo + 1 <= m /\ is_active promo = true.
Proof.
  unfold PromoCodeService.validate_promo_code. intros Hval Hm Hm0.
  destruct (query.first _ _) as [[h' promo']|]; [|discriminate].
  destruct (is_active promo') eqn:Hact; [|discriminate]. simpl in Hval.
  destruct (match expires_at promo' with Some _ => _ | None => _ end);
    [discriminate|].
  destruct (py.truthy_opt_int (max_uses promo') && _) eqn:Hex;
    [discriminate|].
  injection Hval as -> ->. rewrite Hm in Hex. simpl in Hex.
  apply Z.eqb_neq in Hm0. rewrite Hm0 in Hex. simpl in Hex.
  apply Z.leb_gt in Hex. split; [lia|exact Hact].
Qed.

(** What [_apply_promo_code] writes on the promo object: the counter, and
    nothing else. *)
Lemma apply_promo_code_increments now code base_price user db r db' :
  PaymentService._apply_promo_code now code base_price user db
    = (Ok r, db') ->
  exists h promo,
    promocodes db !! h = Some promo /\
    is_valid now promo = true /\
    db' = with_promocodes
            (<[h := set_current_uses (current_uses promo + 1) promo]>
               (promocodes db)) db.
Proof.
  unfold PaymentService._apply_promo_code.
  destruct (query.first _ _) as [[h promo]|] eqn:Hf; [|discriminate].
  apply first_Some in Hf as (Hl & _).
  destruct (is_valid now promo) eqn:Hv; [|discriminate]. simpl.
  destruct (py.truthy_opt_int (max_uses promo) && _); [discriminate|].
  intros [= _ <-]. exists h, promo.
  rewrite (assign_insert _ _ h promo Hl). auto.
Qed.

(** A lookup that found a row finds the rewritten row in its place when the
    rewritten row still passes the filter. *)
Lemma first_insert_same {A} (pred : A -> bool) (tbl : list A) h r r' :
  query.first pred tbl = Some (h, r) -> pred r' = true ->
  query.first pred (<[h := r']> tbl) = Some (h, r').
Proof.
  intros Hf Hp'. apply first_Some in Hf as (Hl & _ & Hmin).
  assert (Hl' : <[h := r']> tbl !! h = Some r').
  { apply list_lookup_insert_eq. eapply lookup_lt_Some, Hl. }
  destruct (first_found pred _ h r' Hl' Hp') as (j & x & Hf' & Hle).
  destruct (decide (j = h)) as [->|Hne].
  - pose proof (first_Some _ _ _ _ Hf') as (Hx & _). congruence.
  - pose proof (first_Some _ _ _ _ Hf') as (Hx & Hpx & _).
    rewrite list_lookup_insert_ne in Hx by congruence.
    rewrite (Hmin j x) in Hpx; [discriminate|lia|exact Hx].
Qed.

(** Sequential use: the redemption that takes the last use deactivates the
    code, and every later [use_promo_code] of it is refused and changes
    nothing. *)
Lemma exhausted_code_is_refused now later code user db h promo m :
  PromoCodeService.validate_promo_code now code db = Ok (h, promo) ->
  max_uses promo = Some m -> m <> 0 -> current_uses promo + 1 = m ->
  let db' := snd (PromoCodeService.use_promo_code now code user db) in
  fst (PromoCodeService.use_promo_code now code user db) = true /\
  (exists promo', promocodes db' !! h = Some promo' /\
                  current_uses promo' = m /\ is_active promo' = false /\
                  is_valid later promo' = false) /\
  PromoCodeService.use_promo_code later code user db' = (false, db').
Proof.
  intros Hval Hm Hm0 Hlast db'. subst db'.
  rewrite (use_promo_code_redeems now code user db h promo Hval). simpl.
  rewrite Hm, Hlast. apply Z.eqb_neq in Hm0. rewrite Hm0, Z.leb_refl. simpl.
  assert (Hf : query.first
                 (fun p => String.eqb (models.code p) (py.upper code))
                 (promocodes db) = Some (h, promo)).
  { unfold PromoCodeService.validate_promo_code in Hval.
    destruct (query.first _ _) as [[h' promo']|]; [|discriminate].
    repeat match type of Hval with
           | (if ?c then _ else _) = _ => destruct c; [discriminate|]
           end.
    congruence. }
  pose proof (first_Some _ _ _ _ Hf) as (Hl & Hcode & _).
  split; [reflexivity|]. split.
  - eexists. split.
    + apply list_lookup_insert_eq. eapply lookup_lt_Some, Hl.
    + repeat split.
  - unfold PromoCodeService.use_promo_code,
      PromoCodeService.validate_promo_code. simpl.
    erewrite first_insert_same; [|exact Hf|exact Hcode]. reflexivity.
Qed.

(** C2 at the failing input.  The code ONCE has [max_uses = 1] and no use
    so far.  Redeemed through [_apply_promo_code] (intent creation) its
    counter reaches [max_uses] and it stays active; redeemed through
    [use_promo_code] it is deactivated. *)
Theorem apply_promo_code_keeps_exhausted_code_active :
  let db := fixtures.shop in
  let via_intent :=
    PaymentService._apply_promo_code fixtures.T0 "once" 100 1 db in
  let via_redeem := PromoCodeService.use_promo_code fixtures.T0 "once" 1 db in
  fst via_intent = Ok (10, 90) /\
  promocodes (snd via_intent) !! 1%nat
    = Some (mkPromoCode 2 "ONCE" 10 None (Some 1) 1 true None) /\
  fst via_redeem = true /\
  promocodes (snd via_redeem) !! 1%nat
    = Some (mkPromoCode 2 "ONCE" 10 None (Some 1) 1 false None).
Proof. repeat split. Qed.

(** ** Payment verification *)

Lemma eq_str_true v s : json.eq_str v s = true <-> v = JStr s.
Proof.
  destruct v; simpl; try (split; [discriminate|congruence]).
  rewrite String.eqb_eq. split; congruence.
Qed.

(** [verify_payment] accepts exactly when the purchase is found and
    pending, the amount and the currency agree, and the payload is the
    text [_create_invoice_payload] yields at verification time. *)
Lemma verify_payment_true now payment_id data db :
  PaymentService.verify_payment now payment_id data db = true <->
  exists h p,
    query.first (fun q => String.eqb (models.payment_id q) payment_id)
                (purchases db) = Some (h, p) /\
    status p = PENDING /\
    json.eq_int (json.dict_get data "total_amount" (JInt 0)) (amount p)
      = true /\
    json.dict_get data "currency" (JStr "") = JStr TELEGRAM_STARS_CURRENCY /\
    json.dict_get data "invoice_payload" (JStr "")
      = JStr (PaymentService._create_invoice_payload now (user_id p)
                (py.or_opt_int (lesson_id p) (course_id p))
                (if py.truthy_opt_int (lesson_id p)
                 then "lesson" else "course")
                payment_id).
Proof.
  unfold PaymentService.verify_payment.
  destruct (query.first _ _) as [[h p]|] eqn:Hf.
  - split.
    + intros Hv. exists h, p. split; [reflexivity|].
      destruct (status p); try discriminate. simpl in Hv.
      destruct (json.eq_int _ _); [|discriminate]. simpl in Hv.
      destruct (json.eq_str _ TELEGRAM_STARS_CURRENCY) eqn:Hc;
        [|discriminate].
      simpl in Hv.
      destruct (json.eq_str (json.dict_get data "invoice_payload" _) _)
        eqn:Hp; [|discriminate].
      apply eq_str_true in Hc, Hp. auto.
    + intros (h' & p' & [= <- <-] & Hst & Ha & Hc & Hp).
      apply eq_str_true in Hc, Hp.
      rewrite Hst, Ha, Hc, Hp. reflexivity.
  - split; [discriminate|]. intros (h & p & Habs & _). discriminate.
Qed.

(** C5 at the failing input, the one of [test_verify_payment_success]:
    a pending purchase of 100 with payment id pay_test123, and provider
    data with amount 100, currency XTR and the invoice payload issued for
    that purchase at 2024-01-01T00:00:00.  Verified one second later the
    payment is refused; it is accepted only at the instant of the
    timestamp. *)
Theorem verify_payment_refuses_issued_payload :
  let db := fixtures.one_purchase PENDING in
  let data := fixtures.test_telegram_data in
  PaymentService.get_payment_status "pay_test123" db = Some PENDING /\
  json.dict_get data "total_amount" (JInt 0)
    = JInt (amount fixtures.pending_purchase) /\
  json.dict_get data "currency" (JStr "") = JStr TELEGRAM_STARS_CURRENCY /\
  json.dict_get data "invoice_payload" (JStr "")
    = JStr (PaymentService._create_invoice_payload fixtures.T0
              (user_id fixtures.pending_purchase) (Some 1) "lesson"
              (payment_id fixtures.pending_purchase)) /\
  datetime.isoformat fixtures.T0 = "2024-01-01T00:00:00" /\
  PaymentService.verify_payment
    (fixtures.T0 + datetime.MICROS_PER_SECOND) "pay_test123" data db
    = false /\
  PaymentService.verify_payment fixtures.T0 "pay_test123" data db = true.
Proof. vm_compute. repeat split. Qed.

(** ** Intent creation *)

Section CreateFacts.
Import intent.

Lemma get_item_and_price_ok item_id item_type db :
  item_ok item_id item_type db <->
  exists item price,
    PaymentService._get_item_and_price item_id item_type db
      = Ok (Some item, price) /\
    PaymentService.item_is_active item = true.
Proof.
  unfold item_ok, PaymentService._get_item_and_price. split.
  - intros [(-> & h & l & Hf & Hact) | (-> & h & c & Hf & Hact)]; simpl;
      rewrite Hf; eauto.
  - intros (item & price & Hget & Hact).
    destruct (String.eqb item_type "lesson") eqn:Hl.
    + apply String.eqb_eq in Hl. left. split; [exact Hl|].
      destruct (query.first _ (lessons db)) as [[h l]|]; [|discriminate].
      injection Hget as <- _. eauto.
    + destruct (String.eqb item_type "course") eqn:Hc; [|discriminate].
      apply String.eqb_eq in Hc. right. split; [exact Hc|].
      destruct (query.first _ (courses db)) as [[h c]|]; [|discriminate].
      injection Hget as <- _. eauto.
Qed.

Lemma col_eq_true col item_id :
  PaymentService.col_eq col item_id = true <-> col = Some item_id.
Proof.
  destruct col as [z|]; simpl; [|split; discriminate].
  rewrite Z.eqb_eq. split; congruence.
Qed.

Lemma status_eqb_true a b : PurchaseStatus_eqb a b = true <-> a = b.
Proof. destruct a, b; simpl; split; congruence. Qed.

Lemma check_existing_purchase_false user_id item_id item_type db :
  PaymentService._check_existing_purchase user_id item_id item_type db
    = false
  <-> not_owned user_id item_id item_type db.
Proof.
  unfold PaymentService._check_existing_purchase, not_owned, owns.
  destruct (query.first _ _) as [[h q]|] eqn:Hf.
  - split; [discriminate|]. intros Hno. exfalso.
    apply first_Some in Hf as (Hl & Hq & _).
    apply (Hno q); [eapply list_elem_of_lookup_2, Hl|].
    destruct (String.eqb item_type "lesson");
      rewrite !andb_true_iff, Z.eqb_eq, status_eqb_true, col_eq_true in Hq;
      tauto.
  - split; [|reflexivity]. intros _ q Hq Hown.
    rewrite first_None in Hf. specialize (Hf q Hq).
    destruct (String.eqb item_type "lesson");
      rewrite !andb_false_iff, Z.eqb_neq in Hf;
      rewrite <- !not_true_iff_false, status_eqb_true, col_eq_true in Hf;
      tauto.
Qed.

Lemma truthy_opt_str_true x :
  py.truthy_opt_str x = true <-> exists c, x = Some c /\ c <> "".
Proof.
  destruct x as [c|]; simpl.
  - rewrite negb_true_iff, String.eqb_neq. split; [eauto|].
    intros (c' & [= <-] & Hne). exact Hne.
  - split; [discriminate|]. intros (c & Habs & _). discriminate.
Qed.

Lemma is_valid_not_exhausted now promo :
  is_valid now promo = true ->
  py.truthy_opt_int (max_uses promo)
  && match max_uses promo with
     | Some m => m <=? current_uses promo
     | None => false
     end = false.
Proof.
  unfold is_valid. destruct (negb _); [discriminate|].
  destruct (match expires_at promo with Some _ => _ | None => _ end);
    [discriminate|].
  destruct (py.truthy_opt_int _ && _); [discriminate|reflexivity].
Qed.

Lemma promo_step_ok now promo_code base_price user_id db :
  promo_ok now promo_code db <->
  exists r db1, promo_step now promo_code base_price user_id db
                = (Ok r, db1).
Proof.
  unfold promo_ok, promo_step. split.
  - intros [Hnone | (c & h & promo & -> & Hne & Hf & Hv)].
    + rewrite Hnone. eauto.
    + simpl. apply String.eqb_neq in Hne. rewrite Hne. simpl.
      unfold PaymentService._apply_promo_code. rewrite Hf, Hv. simpl.
      rewrite (is_valid_not_exhausted _ _ Hv). eauto.
  - intros (r & db1 & Hstep).
    destruct (py.truthy_opt_str promo_code) eqn:Ht; [|left; reflexivity].
    right. apply truthy_opt_str_true in Ht as (c & -> & Hne).
    simpl in Hstep. unfold PaymentService._apply_promo_code in Hstep.
    destruct (query.first _ _) as [[h promo]|] eqn:Hf; [|discriminate].
    destruct (is_valid now promo) eqn:Hv; [|discriminate].
    exists c, h, promo. auto.
Qed.

Lemma promo_step_purchases now promo_code base_price user_id db r db1 :
  promo_step now promo_code base_price user_id db = (r, db1) ->
  purchases db1 = purchases db.
Proof.
  unfold promo_step. destruct (py.truthy_opt_str promo_code).
  - destruct r as [r|e].
    + intros Hap. apply apply_promo_code_increments in Hap
        as (h & promo & _ & _ & ->). reflexivity.
    + unfold PaymentService._apply_promo_code.
      destruct (query.first _ _) as [[h promo]|]; [|congruence].
      destruct (negb _); [congruence|].
      destruct (py.truthy_opt_int _ && _); [congruence|discriminate].
  - congruence.
Qed.

Lemma add_purchase_fresh p db :
  fresh (payment_id p) db ->
  PaymentService.add_purchase p db
  = Ok (with_purchases (purchases db ++ [p]) db).
Proof.
  intros Hfresh. unfold PaymentService.add_purchase.
  rewrite first_absent; [reflexivity|].
  intros q Hq. apply String.eqb_neq, Hfresh, Hq.
Qed.

Lemma add_purchase_taken p db :
  ~ fresh (payment_id p) db ->
  PaymentService.add_purchase p db = Raise IntegrityError.
Proof.
  intros Hnot. unfold PaymentService.add_purchase.
  destruct (query.first _ _) as [[h q]|] eqn:Hf; [reflexivity|].
  exfalso. apply Hnot. intros q Hq. rewrite first_None in Hf.
  apply String.eqb_neq, Hf, Hq.
Qed.

Lemma add_purchase_ok_fresh p db db2 :
  PaymentService.add_purchase p db = Ok db2 ->
  fresh (payment_id p) db /\ db2 = with_purchases (purchases db ++ [p]) db.
Proof.
  unfold PaymentService.add_purchase.
  destruct (query.first _ _) as [[h q]|] eqn:Hf; [discriminate|].
  intros [= <-]. split; [|reflexivity].
  intros q Hq. rewrite first_None in Hf. apply String.eqb_neq, Hf, Hq.
Qed.

End CreateFacts.

Lemma create_payment_cases now uuid4_hex user_id item_id item_type
    promo_code db :
  let payment_id := PaymentService._generate_payment_id uuid4_hex in
  let out := PaymentService.create_payment now uuid4_hex user_id item_id
               item_type promo_code db in
  let ready := intent.ready now payment_id user_id item_id item_type
                 promo_code db in
  (exists e, fst out = Raise e /\ purchases (snd out) = purchases db /\
             ~ ready) \/
  (exists resp p,
     fst out = Ok resp /\ purchases (snd out) = purchases db ++ [p] /\
     status p = PENDING /\ models.payment_id p = payment_id /\
     PaymentService.r_payment_id resp = payment_id /\
     models.user_id p = user_id /\
     amount p = PaymentService.r_final_amount resp /\ ready).
Proof.
  intros payment_id out ready. subst out ready.
  unfold PaymentService.create_payment, intent.ready.
  destruct (query.first _ (users db)) as [[hu u]|] eqn:Hu.
  2:{ left. exists UserNotFound. repeat split.
      intros ((h & u & Hf & _) & _). congruence. }
  destruct (user_is_active u) eqn:Hact; simpl.
  2:{ left. exists UserInactive. repeat split.
      intros ((h & u' & Hf & Hact') & _). congruence. }
  assert (Huser : intent.user_ok user_id db) by (exists hu, u; auto).
  destruct (PaymentService._get_item_and_price item_id item_type db)
    as [[[item|] base_price]|e] eqn:Hget.
  2:{ left. exists ItemNotFound. repeat split.
      intros (_ & Hitem & _).
      apply get_item_and_price_ok in Hitem as (i & pr & Hg & _). congruence. }
  2:{ left. exists e. repeat split.
      intros (_ & Hitem & _).
      apply get_item_and_price_ok in Hitem as (i & pr & Hg & _). congruence. }
  destruct (PaymentService.item_is_active item) eqn:Hiact; simpl.
  2:{ left. exists ItemInactive. repeat split.
      intros (_ & Hitem & _).
      apply get_item_and_price_ok in Hitem as (i & pr & Hg & Hia).
      congruence. }
  assert (Hitem : intent.item_ok item_id item_type db).
  { apply get_item_and_price_ok. eauto. }
  destruct (PaymentService._check_existing_purchase _ _ _ _) eqn:Hown.
  { left. exists AlreadyPurchased. repeat split.
    intros (_ & _ & Hno & _).
    apply check_existing_purchase_false in Hno. congruence. }
  apply check_existing_purchase_false in Hown.
  change (if py.truthy_opt_str promo_code then _ else _)
    with (intent.promo_step now promo_code base_price user_id db).
  destruct (intent.promo_step now promo_code base_price user_id db)
    as [[[discount final_price]|e] db1] eqn:Hstep.
  2:{ left. exists e. simpl.
      split; [reflexivity|]. split.
      - eapply promo_step_purchases, Hstep.
      - intros (_ & _ & _ & Hpromo & _).
        apply (promo_step_ok now promo_code base_price user_id db) in Hpromo
          as (r & d & Hok). congruence. }
  assert (Hpromo : intent.promo_ok now promo_code db).
  { apply (promo_step_ok now promo_code base_price user_id db). eauto. }
  pose proof (promo_step_purchases _ _ _ _ _ _ _ Hstep) as Hsame.
  match goal with
  | |- context [PaymentService.add_purchase ?p db1] => set (purchase := p)
  end.
  destruct (PaymentService.add_purchase purchase db1) as [db2|e] eqn:Hadd.
  - right. apply add_purchase_ok_fresh in Hadd as (Hfresh & ->).
    eexists _, purchase. simpl. rewrite Hsame.
    repeat split; try assumption.
    unfold intent.fresh in *. rewrite <- Hsame. exact Hfresh.
  - left. exists e. simpl. split; [reflexivity|]. split; [exact Hsame|].
    intros (_ & _ & _ & _ & Hfresh).
    rewrite (add_purchase_fresh purchase db1) in Hadd; [discriminate|].
    unfold intent.fresh in *. rewrite Hsame. exact Hfresh.
Qed.

(** C9, as amended.  [create_payment] fails, persisting no purchase, when
    the user is missing or inactive, the item type is neither lesson nor
    course, the item is missing or inactive, the user already has a
    completed purchase of the item, a non-empty promo code is supplied
    that does not name a valid code, or the generated payment id is
    already that of a stored purchase.  Otherwise it appends exactly one
    purchase: pending, for that user, of the final amount, and with the
    generated payment id, which no stored purchase had. *)
Theorem create_payment_outcome
    (now : datetime.t) (uuid4_hex : string) (user_id item_id : Z)
    (item_type : string) (promo_code : option string) (db : Session) :
  let payment_id := PaymentService._generate_payment_id uuid4_hex in
  let out := PaymentService.create_payment now uuid4_hex user_id item_id
               item_type promo_code db in
  let ready := intent.ready now payment_id user_id item_id item_type
                 promo_code db in
  (~ ready ->
   exists e, fst out = Raise e /\ purchases (snd out) = purchases db) /\
  (ready ->
   exists resp p,
     fst out = Ok resp /\ purchases (snd out) = purchases db ++ [p] /\
     status p = PENDING /\ models.payment_id p = payment_id /\
     PaymentService.r_payment_id resp = payment_id /\
     models.user_id p = user_id /\
     amount p = PaymentService.r_final_amount resp /\
     intent.fresh payment_id db).
Proof.
  cbv zeta.
  pose proof (create_payment_cases now uuid4_hex user_id item_id item_type
                promo_code db) as Hcases.
  cbv zeta in Hcases.
  destruct Hcases
    as [(e & He & Hp & Hnot) | (resp & p & Hok & Hp & Hst & Hid & Hrid
                                 & Hu & Ha & Hready)].
  - split.
    + intros _. exists e. auto.
    + intros Hr. contradiction.
  - split.
    + intros Hnot. contradiction.
    + intros _. exists resp, p. repeat split; try assumption.
      apply Hready.
Qed.

Lemma create_payment_outcome_witness :
  exists resp p,
    fst (PaymentService.create_payment fixtures.T0
           "1234567890abcdef1234567890abcdef" 1 1 "lesson" (Some "test10")
           fixtures.shop) = Ok resp /\
    purchases (snd (PaymentService.create_payment fixtures.T0
                      "1234567890abcdef1234567890abcdef" 1 1 "lesson"
                      (Some "test10") fixtures.shop)) = [p] /\
    status p = PENDING /\
    payment_id p = "pay_1234567890abcdef" /\
    amount p = 90.
Proof.
  destruct (create_payment_outcome fixtures.T0
              "1234567890abcdef1234567890abcdef" 1 1 "lesson" (Some "test10")
              fixtures.shop) as [_ Hok].
  destruct Hok as (resp & p & Hres & Hp & Hst & Hid & _ & _ & Ha & _).
  - split; [exists 0%nat, fixtures.sample_user; split; reflexivity|].
    split; [left; split; [reflexivity|];
            exists 0%nat, fixtures.sample_lesson; split; reflexivity|].
    split; [intros q Hq; apply elem_of_nil in Hq; contradiction|].
    split; [right; exists "test10", 0%nat, fixtures.TEST10;
            repeat split; discriminate|].
    intros q Hq. apply elem_of_nil in Hq. contradiction.
  - exists resp, p. repeat split; try assumption.
    rewrite Ha. vm_compute in Hres. injection Hres as <-. reflexivity.
Defined.

(** C9, as stated, fails: with an active user, an active lesson not yet
    bought and a supported item type, a promo code that names no stored
    code makes [create_payment] raise, and no purchase is persisted. *)
Lemma create_payment_rejects_unknown_promo :
  ~ (forall (now : datetime.t) (uuid4_hex : string) (user_id item_id : Z)
            (item_type : string) (promo_code : option string)
            (db : Session),
       intent.user_ok user_id db ->
       intent.item_ok item_id item_type db ->
       intent.not_owned user_id item_id item_type db ->
       exists resp p,
         fst (PaymentService.create_payment now uuid4_hex user_id item_id
                item_type promo_code db) = Ok resp /\
         purchases (snd (PaymentService.create_payment now uuid4_hex user_id
                           item_id item_type promo_code db))
           = purchases db ++ [p] /\
         status p = PENDING).
Proof.
  intros Hall.
  destruct (Hall fixtures.T0 "1234567890abcdef1234567890abcdef" 1 1
              "lesson" (Some "NOPE") fixtures.shop)
    as (resp & p & Hres & _).
  - exists 0%nat, fixtures.sample_user. split; reflexivity.
  - left. split; [reflexivity|].
    exists 0%nat, fixtures.sample_lesson. split; reflexivity.
  - intros q Hq. apply elem_of_nil in Hq. contradiction.
  - vm_compute in Hres. discriminate.
Qed.

(** * Further properties *)

(** ** Promo codes: validation and redemption *)

Lemma validate_promo_code_found now code db h promo :
  query.first (fun p => String.eqb (models.code p) (py.upper code))
              (promocodes db) = Some (h, promo) ->
  PromoCodeService.validate_promo_code now code db
  = if is_valid now promo then Ok (h, promo)
    else Raise (if negb (is_active promo) then PromoDeactivated
                else if match expires_at promo with
                        | Some e => e <? now
                        | None => false
                        end then PromoExpired
                else PromoExhausted).
Proof.
  intros Hf. unfold PromoCodeService.validate_promo_code, is_valid.
  rewrite Hf. destruct (is_active promo); simpl; [|reflexivity].
  destruct (match expires_at promo with Some _ => _ | None => _ end);
    [reflexivity|].
  destruct (py.truthy_opt_int (max_uses promo) && _); reflexivity.
Qed.

(** X1.  [validate_promo_code] of the service and the [is_valid] property
    of the model agree: the call yields a promo code exactly when the first
    stored code equal to the upper-cased argument is valid at that time,
    and it raises "not found" exactly when no stored code equals the
    upper-cased argument. *)
Theorem validate_promo_code_agrees_with_is_valid
    (now : datetime.t) (code : string) (db : Session) :
  (forall h promo,
     PromoCodeService.validate_promo_code now code db = Ok (h, promo) <->
     query.first (fun p => String.eqb (models.code p) (py.upper code))
                 (promocodes db) = Some (h, promo) /\
     is_valid now promo = true) /\
  (PromoCodeService.validate_promo_code now code db = Raise PromoNotFound <->
   forall p, p ∈ promocodes db -> models.code p <> py.upper code).
Proof.
  destruct (query.first
              (fun p => String.eqb (models.code p) (py.upper code))
              (promocodes db)) as [[h0 p0]|] eqn:Hf.
  - rewrite (validate_promo_code_found now code db h0 p0 Hf). split.
    + intros h promo. destruct (is_valid now p0) eqn:Hv.
      * split; [intros [= <- <-]; auto|intros ([= <- <-] & _); reflexivity].
      * split; [discriminate|]. intros ([= <- <-] & Habs). congruence.
    + split.
      * destruct (is_valid now p0); [discriminate|].
        destruct (negb (is_active p0)); [discriminate|].
        destruct (match expires_at p0 with Some _ => _ | None => _ end);
          discriminate.
      * intros Hno. exfalso. apply first_Some in Hf as (Hl & Hc & _).
        apply String.eqb_eq in Hc. apply (Hno p0); [|exact Hc].
        eapply list_elem_of_lookup_2, Hl.
  - unfold PromoCodeService.validate_promo_code. rewrite Hf. split.
    + intros h promo. split; [discriminate|]. intros (Habs & _). discriminate.
    + split; [|reflexivity]. intros _ p Hp.
      rewrite first_None in Hf. apply String.eqb_neq, Hf, Hp.
Qed.

Lemma apply_promo_code_raise now code base_price user db e db' :
  PaymentService._apply_promo_code now code base_price user db
    = (Raise e, db') -> db' = db.
Proof.
  unfold PaymentService._apply_promo_code.
  destruct (query.first _ _) as [[h promo]|]; [|congruence].
  destruct (negb _); [congruence|].
  destruct (py.truthy_opt_int _ && _); [congruence|discriminate].
Qed.

Lemma is_valid_has_use_left now promo m :
  is_valid now promo = true -> max_uses promo = Some m -> m <> 0 ->
  current_uses promo + 1 <= m.
Proof.
  intros Hv Hm Hm0. apply is_valid_not_exhausted in Hv.
  rewrite Hm in Hv. simpl in Hv. apply Z.eqb_neq in Hm0.
  rewrite Hm0 in Hv. simpl in Hv. apply Z.leb_gt in Hv. lia.
Qed.

(** X2.  Both redemption paths keep every use counter within its limit:
    if no limited code of the store has more uses than [max_uses], the same
    holds after [use_promo_code] and after [_apply_promo_code], whether
    the call succeeds or not. *)
Theorem redemption_keeps_uses_within_max
    (now : datetime.t) (code : string) (base_price user : Z) (db : Session) :
  Forall lifecycle.uses_within_max (promocodes db) ->
  Forall lifecycle.uses_within_max
    (promocodes (snd (PromoCodeService.use_promo_code now code user db))) /\
  Forall lifecycle.uses_within_max
    (promocodes (snd (PaymentService._apply_promo_code now code base_price
                        user db))).
Proof.
  intros Hinv. split.
  - destruct (PromoCodeService.validate_promo_code now code db)
      as [[h promo]|e] eqn:Hval.
    + rewrite (use_promo_code_redeems now code user db h promo Hval). simpl.
      apply Forall_insert; [exact Hinv|].
      intros m Hm Hm0. simpl in *.
      apply (validate_promo_code_has_use_left now code db h promo m Hval Hm
               Hm0).
    + unfold PromoCodeService.use_promo_code. rewrite Hval. exact Hinv.
  - destruct (PaymentService._apply_promo_code now code base_price user db)
      as [[r|e] db'] eqn:Hap.
    + apply apply_promo_code_increments in Hap
        as (h & promo & Hl & Hv & ->). simpl.
      apply Forall_insert; [exact Hinv|].
      intros m Hm Hm0. simpl in *.
      apply (is_valid_has_use_left now promo m Hv Hm Hm0).
    + apply apply_promo_code_raise in Hap as ->. exact Hinv.
Qed.

Lemma redemption_keeps_uses_within_max_witness :
  Forall lifecycle.uses_within_max
    (promocodes (snd (PromoCodeService.use_promo_code fixtures.T0 "last" 1
                        samples.promo_db))) /\
  Forall lifecycle.uses_within_max
    (promocodes (snd (PaymentService._apply_promo_code fixtures.T0 "last"
                        100 1 samples.promo_db))).
Proof.
  apply (redemption_keeps_uses_within_max fixtures.T0 "last" 100 1
           samples.promo_db).
  repeat constructor; intros m [= <-] _; simpl; lia.
Defined.

(** X3.  Sequential use: when a valid limited code has one use left,
    [use_promo_code] succeeds, leaves the counter at [max_uses] and the
    code inactive and invalid, and every later [use_promo_code] of that
    code returns false and changes nothing. *)
Theorem last_use_closes_the_code
    (now later : datetime.t) (code : string) (user : Z) (db : Session)
    (h : nat) (promo : PromoCode) (m : Z) :
  PromoCodeService.validate_promo_code now code db = Ok (h, promo) ->
  max_uses promo = Some m -> m <> 0 -> current_uses promo + 1 = m ->
  let db' := snd (PromoCodeService.use_promo_code now code user db) in
  fst (PromoCodeService.use_promo_code now code user db) = true /\
  (exists promo', promocodes db' !! h = Some promo' /\
                  current_uses promo' = m /\ is_active promo' = false /\
                  is_valid later promo' = false) /\
  PromoCodeService.use_promo_code later code user db' = (false, db').
Proof. apply exhausted_code_is_refused. Qed.

Lemma last_use_closes_the_code_witness :
  let db' := snd (PromoCodeService.use_promo_code fixtures.T0 "last" 1
                    samples.promo_db) in
  PromoCodeService.use_promo_code (fixtures.T0 + 60) "last" 1 db'
  = (false, db').
Proof.
  intros db'.
  assert (Hval : PromoCodeService.validate_promo_code fixtures.T0 "last"
                   samples.promo_db = Ok (1%nat, samples.LAST))
    by reflexivity.
  assert (Hm0 : 2 <> 0) by discriminate.
  exact (proj2 (proj2 (last_use_closes_the_code fixtures.T0
                         (fixtures.T0 + 60) "last" 1 samples.promo_db 1%nat
                         samples.LAST 2 Hval eq_refl Hm0 eq_refl))).
Defined.

(** ** Promo codes: the quoted and the charged price *)

Lemma apply_promo_code_ok_inv
    (now : datetime.t) (code : string) (base_price user : Z) (db : Session)
    (discount final_price : Z) (db' : Session) :
  PaymentService._apply_promo_code now code base_price user db
    = (Ok (discount, final_price), db') ->
  exists h promo,
    query.first (fun p => String.eqb (models.code p) (py.upper code))
                (promocodes db) = Some (h, promo) /\
    is_valid now promo = true /\
    final_price
      = PromoCodeService.final_amount
          (PromoCodeService.apply_discount promo base_price) /\
    MIN_PRICE <= final_price /\
    PromoCodeService.discount_amount
      (PromoCodeService.apply_discount promo base_price)
      = Z.min discount (base_price - MIN_PRICE).
Proof.
  unfold PaymentService._apply_promo_code.
  destruct (query.first _ _) as [[h promo]|] eqn:Hf; [|discriminate].
  destruct (is_valid now promo) eqn:Hv; [|discriminate]. simpl.
  destruct (py.truthy_opt_int (max_uses promo) && _); [discriminate|].
  intros [= <- <- _]. exists h, promo.
  split; [reflexivity|]. split; [exact Hv|].
  unfold PromoCodeService.apply_discount, MIN_PRICE. cbn.
  destruct (py.truthy_opt_int (discount_amount promo)); lia.
Qed.

(** X4.  When [_apply_promo_code] succeeds, the final price it charges is
    the [final_amount] that [apply_discount] quotes for the same promo code
    and base price, and it is at least the minimum price; the discount
    that [apply_discount] reports is the one [_apply_promo_code] returns,
    capped at the base price minus the minimum price. *)
Theorem apply_promo_code_charges_quoted_price
    (now : datetime.t) (code : string) (base_price user : Z) (db : Session)
    (discount final_price : Z) (db' : Session) :
  PaymentService._apply_promo_code now code base_price user db
    = (Ok (discount, final_price), db') ->
  exists h promo,
    query.first (fun p => String.eqb (models.code p) (py.upper code))
                (promocodes db) = Some (h, promo) /\
    is_valid now promo = true /\
    final_price
      = PromoCodeService.final_amount
          (PromoCodeService.apply_discount promo base_price) /\
    MIN_PRICE <= final_price /\
    PromoCodeService.discount_amount
      (PromoCodeService.apply_discount promo base_price)
      = Z.min discount (base_price - MIN_PRICE).
Proof. apply apply_promo_code_ok_inv. Qed.

Lemma apply_promo_code_charges_quoted_price_witness :
  exists h promo,
    query.first (fun p => String.eqb (models.code p) (py.upper "last"))
                (promocodes samples.promo_db) = Some (h, promo) /\
    is_valid fixtures.T0 promo = true /\
    1 = PromoCodeService.final_amount
          (PromoCodeService.apply_discount promo 100) /\
    MIN_PRICE <= 1 /\
    PromoCodeService.discount_amount
      (PromoCodeService.apply_discount promo 100)
      = Z.min 100 (100 - MIN_PRICE).
Proof.
  apply (apply_promo_code_charges_quoted_price fixtures.T0 "last" 100 1
           samples.promo_db 100 1
           (snd (PaymentService._apply_promo_code fixtures.T0 "last" 100 1
                   samples.promo_db))).
  reflexivity.
Defined.

Lemma create_payment_ok_inv now uuid4_hex user_id item_id item_type
    promo_code db resp db' :
  PaymentService.create_payment now uuid4_hex user_id item_id item_type
    promo_code db = (Ok resp, db') ->
  exists item db1,
    PaymentService._get_item_and_price item_id item_type db
      = Ok (Some item, PaymentService.r_amount resp) /\
    intent.promo_step now promo_code (PaymentService.r_amount resp) user_id db
      = (Ok (PaymentService.r_discount_applied resp,
             PaymentService.r_final_amount resp), db1).
Proof.
  unfold PaymentService.create_payment.
  destruct (query.first _ (users db)) as [[hu u]|]; [|discriminate].
  destruct (negb (user_is_active u)); [discriminate|].
  destruct (PaymentService._get_item_and_price item_id item_type db)
    as [[[item|] base_price]|e]; try discriminate.
  destruct (negb (PaymentService.item_is_active item)); [discriminate|].
  destruct (PaymentService._check_existing_purchase _ _ _ _); [discriminate|].
  change (if py.truthy_opt_str promo_code then _ else _)
    with (intent.promo_step now promo_code base_price user_id db).
  destruct (intent.promo_step now promo_code base_price user_id db)
    as [[[discount final_price]|e] db1] eqn:Hstep; [|discriminate].
  destruct (PaymentService.add_purchase _ db1); [|discriminate].
  intros [= <- _]. simpl. exists item, db1. split; [reflexivity|exact Hstep].
Qed.

(** X5.  The price quoted is the price charged: when [create_payment]
    succeeds with a non-empty promo code, the promo validation endpoint,
    asked at the same time about the same code and item, answers valid,
    its [original_price] is the response's [amount], its [final_price] is
    the response's [final_amount] (the amount of the persisted purchase),
    and its [discount_value] is the response's [discount_applied] capped
    at the price minus the minimum price. *)
Theorem quoted_price_is_charged
    (now : datetime.t) (uuid4_hex : string) (user_id item_id : Z)
    (item_type code : string) (db : Session)
    (resp : PaymentService.PaymentResponse) (db' : Session) :
  code <> "" ->
  PaymentService.create_payment now uuid4_hex user_id item_id item_type
    (Some code) db = (Ok resp, db') ->
  exists q,
    promocodes.validate_promo_code now
      (promocodes.mkPromoCodeCheck code item_type item_id) db
      = promocodes.Valid q /\
    promocodes.original_price q = PaymentService.r_amount resp /\
    promocodes.final_price q = PaymentService.r_final_amount resp /\
    promocodes.discount_value q
      = Z.min (PaymentService.r_discount_applied resp)
              (PaymentService.r_amount resp - MIN_PRICE).
Proof.
  intros Hne Hcreate.
  apply create_payment_ok_inv in Hcreate as (item & db1 & Hget & Hstep).
  unfold intent.promo_step in Hstep. simpl in Hstep.
  apply String.eqb_neq in Hne. rewrite Hne in Hstep. simpl in Hstep.
  apply apply_promo_code_ok_inv in Hstep
    as (h & promo & Hf & Hv & Hfinal & _ & Hdisc).
  unfold promocodes.validate_promo_code. simpl.
  rewrite (validate_promo_code_found now code db h promo Hf), Hv.
  unfold PaymentService._get_item_and_price in Hget.
  destruct (String.eqb item_type "lesson").
  - destruct (query.first _ (lessons db)) as [[hl l]|]; [|discriminate].
    injection Hget as _ Hprice. simpl. rewrite Hprice.
    eexists. split; [reflexivity|]. simpl. auto.
  - destruct (String.eqb item_type "course"); [|discriminate].
    destruct (query.first _ (courses db)) as [[hc c]|]; [|discriminate].
    injection Hget as _ Hprice. simpl. rewrite Hprice.
    eexists. split; [reflexivity|]. simpl. auto.
Qed.

Lemma quoted_price_is_charged_witness :
  exists q,
    promocodes.validate_promo_code fixtures.T0
      (promocodes.mkPromoCodeCheck "last" "course" 1) samples.promo_db
      = promocodes.Valid q /\
    promocodes.original_price q = 400 /\
    promocodes.final_price q = 150 /\
    promocodes.discount_value q = Z.min 250 (400 - MIN_PRICE).
Proof.
  assert (Hne : "last" <> "") by discriminate.
  exact (quoted_price_is_charged fixtures.T0
           "00112233445566778899aabbccddeeff" 1 1 "course" "last"
           samples.promo_db
           (PaymentService.mkPaymentResponse "pay_0011223344556677" 400 150
              250
              (PaymentService._create_invoice_payload fixtures.T0 1 (Some 1)
                 "course" "pay_0011223344556677"))
           (snd (PaymentService.create_payment fixtures.T0
                   "00112233445566778899aabbccddeeff" 1 1 "course"
                   (Some "last") samples.promo_db))
           Hne eq_refl).
Defined.

(** ** Lookups in a rewritten table *)

Section StableLookups.
Context {A : Type}.
Implicit Types (pred : A -> bool) (f : A -> A) (tbl : list A).

Lemma first_intro pred tbl h r :
  tbl !! h = Some r -> pred r = true ->
  (forall j r', (j < h)%nat -> tbl !! j = Some r' -> pred r' = false) ->
  query.first pred tbl = Some (h, r).
Proof.
  intros Hl Hp Hmin.
  destruct (first_found pred tbl h r Hl Hp) as (h' & r' & Hf & Hle).
  pose proof (first_Some _ _ _ _ Hf) as (Hl' & Hp' & _).
  destruct (decide (h' = h)) as [->|Hne]; [congruence|].
  rewrite (Hmin h' r') in Hp'; [discriminate|lia|exact Hl'].
Qed.

(** Rewriting a row in a way the filter does not see leaves the lookup
    on the same handle. *)
Lemma first_assign_stable pred f tbl j h r :
  (forall x, pred (f x) = pred x) ->
  query.first pred tbl = Some (h, r) ->
  query.first pred (query.assign f j tbl)
  = Some (h, if decide (j = h) then f r else r).
Proof.
  intros Hpred Hf. apply first_Some in Hf as (Hl & Hp & Hmin).
  unfold query.assign. apply first_intro.
  - destruct (decide (j = h)) as [->|Hne].
    + rewrite list_lookup_alter_eq, Hl. reflexivity.
    + rewrite list_lookup_alter_ne by exact Hne. exact Hl.
  - destruct (decide (j = h)); [rewrite Hpred|]; exact Hp.
  - intros i r' Hi Hr'.
    destruct (decide (j = i)) as [->|Hne].
    + rewrite list_lookup_alter_eq in Hr'.
      destruct (tbl !! i) as [x|] eqn:Hx; [|discriminate].
      injection Hr' as <-. rewrite Hpred. apply (Hmin i x Hi Hx).
    + rewrite list_lookup_alter_ne in Hr' by exact Hne.
      apply (Hmin i r' Hi Hr').
Qed.

Lemma first_assign_stable_None pred f tbl j :
  (forall x, pred (f x) = pred x) ->
  query.first pred tbl = None ->
  query.first pred (query.assign f j tbl) = None.
Proof.
  intros Hpred Hf. rewrite first_None in *. intros r Hr.
  apply list_elem_of_lookup in Hr as (i & Hi). unfold query.assign in Hi.
  destruct (decide (j = i)) as [->|Hne].
  - rewrite list_lookup_alter_eq in Hi.
    destruct (tbl !! i) as [x|] eqn:Hx; [|discriminate].
    injection Hi as <-. rewrite Hpred. apply Hf.
    eapply list_elem_of_lookup_2, Hx.
  - rewrite list_lookup_alter_ne in Hi by exact Hne.
    apply Hf. eapply list_elem_of_lookup_2, Hi.
Qed.

Lemma assign_assign f g tbl j :
  (forall x, g (f x) = g x) ->
  query.assign g j (query.assign f j tbl) = query.assign g j tbl.
Proof.
  intros Hgf. unfold query.assign. rewrite list_alter_alter_eq.
  apply list_alter_ext; [|reflexivity]. intros x _. apply Hgf.
Qed.

Lemma all_none pred tbl :
  (forall r, r ∈ tbl -> pred r = false) -> query.all pred tbl = [].
Proof.
  unfold query.all. generalize 0%nat.
  induction tbl as [|x tbl IH]; intros start Hall; simpl; [reflexivity|].
  rewrite (Hall x) by left. apply IH. intros r Hr. apply Hall. right.
  exact Hr.
Qed.

End StableLookups.

(** ** Webhook reconciliation: repeated deliveries *)

Lemma process_successful_payment_again now1 now2 purchase_id db :
  snd (PaymentService.process_successful_payment now2 purchase_id
         (snd (PaymentService.process_successful_payment now1 purchase_id
                 db)))
  = snd (PaymentService.process_successful_payment now2 purchase_id db).
Proof.
  unfold PaymentService.process_successful_payment.
  destruct (query.first _ (purchases db)) as [[h p]|] eqn:Hf; simpl.
  - rewrite (first_assign_stable _ (set_purchase_status COMPLETED now1)
               _ h h p); [|reflexivity|exact Hf].
    simpl. rewrite assign_assign; reflexivity.
  - rewrite Hf. reflexivity.
Qed.

(** X6.  A webhook delivered twice has the effect of its last delivery:
    for every payload and every store, handling the payload at [now1] and
    again at [now2] leaves the store that handling it once at [now2]
    leaves.  In particular the statuses are those after one delivery. *)
Theorem webhook_redelivery_is_idempotent
    (json_loads : string -> option json.value) (now1 now2 : datetime.t)
    (webhook_data : json.value) (db : Session) :
  payments._process_successful_payment_webhook json_loads now2 webhook_data
    (payments._process_successful_payment_webhook json_loads now1
       webhook_data db)
  = payments._process_successful_payment_webhook json_loads now2
      webhook_data db.
Proof.
  unfold payments._process_successful_payment_webhook.
  destruct (json.get webhook_data "message" (JObj [])) as [message|];
    [|reflexivity].
  destruct (json.get message "successful_payment" (JObj [])) as [sp|];
    [|reflexivity].
  destruct (negb (json.truthy sp)); [reflexivity|].
  destruct (json.get sp "invoice_payload" (JStr "")) as [payload|];
    [|reflexivity].
  destruct payload as [| | |text| |]; try reflexivity.
  destruct (json_loads text) as [payload_data|]; [|reflexivity].
  destruct (json.get payload_data "payment_id" JNull) as [pid|];
    [|reflexivity].
  destruct (negb (json.truthy pid)); [reflexivity|].
  destruct (query.first _ (purchases db)) as [[h p]|] eqn:Hf;
    [|rewrite Hf; reflexivity].
  assert (Hsame : forall now x,
            payments.payment_id_is pid
              (set_purchase_status COMPLETED now x)
            = payments.payment_id_is pid x) by reflexivity.
  pose proof (process_successful_payment_again now1 now2 (id p) db) as Ha.
  assert (Hfirst : exists p1,
            query.first (payments.payment_id_is pid)
              (purchases
                 (snd (PaymentService.process_successful_payment now1 (id p)
                         db))) = Some (h, p1) /\ id p1 = id p).
  { unfold PaymentService.process_successful_payment.
    destruct (query.first (fun q => id q =? id p) (purchases db))
      as [[k q]|]; simpl.
    - rewrite (first_assign_stable _ (set_purchase_status COMPLETED now1)
                 _ k h p (Hsame now1) Hf).
      eexists. split; [reflexivity|].
      destruct (decide (k = h)); reflexivity.
    - exists p. auto. }
  destruct Hfirst as (p1 & -> & ->). exact Ha.
Qed.

(** ** Payment intents and the ledger *)

(** X7.  What finalising and failing do to the revenue.  For a stored
    purchase (ids being unique), [process_successful_payment] adds its
    amount to the completed revenue unless it was completed already, in
    which case the revenue is unchanged: a repeated confirmation is not
    counted twice.  [handle_failed_payment] takes the amount of a completed
    purchase off the revenue and leaves the revenue alone otherwise. *)
Theorem finalize_counts_revenue_once
    (now : datetime.t) (reason : string) (db : Session) (h : nat)
    (p : Purchase) :
  NoDup (id <$> purchases db) -> purchases db !! h = Some p ->
  ledger.revenue
    (snd (PaymentService.process_successful_payment now (id p) db))
  = ledger.revenue db + (if ledger.is_completed p then 0 else amount p) /\
  ledger.revenue
    (snd (PaymentService.handle_failed_payment now (id p) reason db))
  = ledger.revenue db - (if ledger.is_completed p then amount p else 0).
Proof.
  intros Hnd Hl.
  unfold PaymentService.process_successful_payment,
    PaymentService.handle_failed_payment.
  rewrite (first_by_id _ h p Hnd Hl). simpl. unfold ledger.revenue. simpl.
  unfold query.assign. rewrite !(sum_where_alter _ _ _ h p _ Hl). simpl.
  destruct (ledger.is_completed p); split; lia.
Qed.

Lemma finalize_counts_revenue_once_witness :
  ledger.revenue
    (snd (PaymentService.process_successful_payment fixtures.T0 1
            (fixtures.one_purchase COMPLETED))) = 100 /\
  ledger.revenue
    (snd (PaymentService.handle_failed_payment fixtures.T0 1 "declined"
            (fixtures.one_purchase COMPLETED))) = 0.
Proof.
  apply (finalize_counts_revenue_once fixtures.T0 "declined"
           (fixtures.one_purchase COMPLETED) 0%nat
           (fixtures.with_status COMPLETED)).
  - apply NoDup_singleton.
  - reflexivity.
Defined.

(** X8.  Once a purchase is finalised its buyer cannot open a new intent
    for the same item: after [process_successful_payment] of a stored
    purchase of an active user for an existing active lesson or course,
    [create_payment] by that user for that item raises "already purchased"
    and leaves the store as it is, whatever the promo code. *)
Theorem finalised_purchase_blocks_new_intent
    (now later : datetime.t) (uuid4_hex : string) (item_id : Z)
    (item_type : string) (promo_code : option string) (db : Session)
    (h : nat) (p : Purchase) :
  NoDup (id <$> purchases db) -> purchases db !! h = Some p ->
  intent.user_ok (user_id p) db ->
  intent.item_ok item_id item_type db ->
  (if String.eqb item_type "lesson" then lesson_id p = Some item_id
   else course_id p = Some item_id) ->
  let db1 := snd (PaymentService.process_successful_payment now (id p) db) in
  PaymentService.create_payment later uuid4_hex (user_id p) item_id item_type
    promo_code db1
  = (Raise AlreadyPurchased, db1).
Proof.
  intros Hnd Hl (hu & u & Hu & Hact) Hitem Hcol db1. subst db1.
  rewrite (process_successful_payment_found now db h p Hnd Hl). simpl.
  apply get_item_and_price_ok in Hitem as (item & price & Hget & Hiact).
  unfold PaymentService.create_payment. simpl.
  rewrite Hu, Hact. simpl.
  change (PaymentService._get_item_and_price item_id item_type
            (with_purchases _ db))
    with (PaymentService._get_item_and_price item_id item_type db).
  rewrite Hget, Hiact. simpl.
  assert (Hown : PaymentService._check_existing_purchase (user_id p) item_id
                   item_type
                   (with_purchases
                      (<[h := set_purchase_status COMPLETED now p]>
                         (purchases db)) db) = true).
  { destruct (PaymentService._check_existing_purchase _ _ _ _) eqn:Hc;
      [reflexivity|].
    apply check_existing_purchase_false in Hc. exfalso.
    apply (Hc (set_purchase_status COMPLETED now p)).
    - simpl. eapply list_elem_of_lookup_2.
      apply list_lookup_insert_eq. eapply lookup_lt_Some, Hl.
    - repeat split. exact Hcol. }
  rewrite Hown. reflexivity.
Qed.

Lemma finalised_purchase_blocks_new_intent_witness :
  let db1 := snd (PaymentService.process_successful_payment fixtures.T0 1
                    (fixtures.one_purchase PENDING)) in
  PaymentService.create_payment (fixtures.T0 + 9)
    "00112233445566778899aabbccddeeff" 1 1 "lesson" None db1
  = (Raise AlreadyPurchased, db1).
Proof.
  apply (finalised_purchase_blocks_new_intent fixtures.T0 (fixtures.T0 + 9)
           "00112233445566778899aabbccddeeff" 1 "lesson" None
           (fixtures.one_purchase PENDING) 0%nat
           (fixtures.with_status PENDING)).
  - apply NoDup_singleton.
  - reflexivity.
  - exists 0%nat, fixtures.sample_user. split; reflexivity.
  - left. split; [reflexivity|].
    exists 0%nat, fixtures.sample_lesson. split; reflexivity.
  - reflexivity.
Defined.

(** ** Expiry sweeper: repeated sweeps and the ledger *)

Lemma sum_where_map_same {A} (p : A -> bool) (col : A -> Z) (g : A -> A)
    (tbl : list A) :
  (forall r, (if p (g r) then col (g r) else 0) = (if p r then col r else 0))
  -> ledger.sum_where p col (map g tbl) = ledger.sum_where p col tbl.
Proof.
  intros Hg. induction tbl as [|x tbl IH]; simpl; [reflexivity|].
  rewrite Hg, IH. reflexivity.
Qed.

Lemma cancel_expired_payments_table timeout now db :
  purchases (snd (PaymentService.cancel_expired_payments timeout now db))
  = map (fun r => if PaymentService.is_expired timeout now r
                  then set_purchase_status FAILED now r else r)
        (purchases db).
Proof.
  unfold PaymentService.cancel_expired_payments. simpl.
  apply foldl_assign_all.
Qed.

(** X9.  The sweep never touches money that was earned: for every store,
    clock and timeout, [cancel_expired_payments] leaves the completed
    revenue, the commission and the available balance as they were. *)
Theorem sweep_keeps_the_ledger
    (timeout : Z) (now : datetime.t) (db : Session) :
  let db' := snd (PaymentService.cancel_expired_payments timeout now db) in
  ledger.revenue db' = ledger.revenue db /\
  ledger.commission db' = ledger.commission db /\
  WithdrawService._calculate_available_amount db'
  = WithdrawService._calculate_available_amount db.
Proof.
  intros db'.
  assert (Hrev : ledger.revenue db' = ledger.revenue db).
  { unfold ledger.revenue. subst db'.
    rewrite cancel_expired_payments_table. apply sum_where_map_same.
    intros r. destruct (PaymentService.is_expired timeout now r) eqn:He;
      [|reflexivity].
    apply is_expired_iff in He as [Hst _].
    unfold ledger.is_completed. simpl. rewrite Hst. reflexivity. }
  split; [exact Hrev|]. split.
  - unfold ledger.commission. rewrite Hrev. reflexivity.
  - rewrite !calculate_available_amount_spec.
    unfold ledger.AvailableBalance, ledger.commission. rewrite Hrev.
    reflexivity.
Qed.

(** X10.  A sweep leaves nothing for an earlier or simultaneous sweep:
    after [cancel_expired_payments] at [now], a second run with the same
    timeout at any clock not after [now] cancels no purchase, returns 0
    and leaves the store unchanged. *)
Theorem second_sweep_finds_nothing
    (timeout : Z) (now now' : datetime.t) (db : Session) :
  now' <= now ->
  let db' := snd (PaymentService.cancel_expired_payments timeout now db) in
  PaymentService.cancel_expired_payments timeout now' db' = (0, db').
Proof.
  intros Hle db'.
  assert (Hnone : query.all (PaymentService.is_expired timeout now')
                    (purchases db') = []).
  { apply all_none. intros r Hr. subst db'.
    rewrite cancel_expired_payments_table in Hr.
    apply list_elem_of_fmap in Hr as (x & -> & _).
    destruct (PaymentService.is_expired timeout now x) eqn:He.
    - reflexivity.
    - destruct (PaymentService.is_expired timeout now' x) eqn:He';
        [|reflexivity].
      apply is_expired_iff in He' as [Hst Hlt].
      assert (PaymentService.is_expired timeout now x = true); [|congruence].
      apply is_expired_iff. split; [exact Hst|]. lia. }
  clearbody db'.
  unfold PaymentService.cancel_expired_payments. rewrite Hnone. simpl.
  destruct db'; reflexivity.
Qed.

Lemma second_sweep_finds_nothing_witness :
  let now := fixtures.T0 + fixtures.minutes 31 in
  let db' := snd (PaymentService.cancel_expired_payments
                    PAYMENT_TIMEOUT_MINUTES now fixtures.sweep_db) in
  PaymentService.cancel_expired_payments PAYMENT_TIMEOUT_MINUTES now db'
  = (0, db').
Proof.
  intros now db'.
  apply (second_sweep_finds_nothing PAYMENT_TIMEOUT_MINUTES now now
           fixtures.sweep_db).
  lia.
Defined.

(** ** Withdrawal requests: life cycle *)

Section WithdrawLifeCycle.
Import lifecycle.

Lemma assign_lookup {A} (f : A -> A) (tbl : list A) k h w :
  tbl !! h = Some w ->
  query.assign f k tbl !! h = Some (if decide (k = h) then f w else w).
Proof.
  intros Hl. unfold query.assign. destruct (decide (k = h)) as [->|Hne].
  - rewrite list_lookup_alter_eq, Hl. reflexivity.
  - rewrite list_lookup_alter_ne by exact Hne. exact Hl.
Qed.

Lemma status_eqb_eq a b : WithdrawStatus_eqb a b = true <-> a = b.
Proof. destruct a, b; simpl; split; congruence. Qed.

(** A guarded rewrite of the request found by id. *)
Lemma guarded_assign_moved db request_id (from : WithdrawStatus)
    (f : WithdrawRequest -> WithdrawRequest) h w k wr :
  WithdrawService.get_withdraw_request_by_id request_id db = Some (k, wr) ->
  WithdrawStatus_eqb (w_status wr) from = true ->
  (forall x, w_status x = from -> moved x (f x)) ->
  withdraw_requests db !! h = Some w ->
  exists w', query.assign f k (withdraw_requests db) !! h = Some w' /\
             moved w w'.
Proof.
  intros Hget Hst Hf Hl. apply first_Some in Hget as (Hk & _).
  rewrite (assign_lookup f _ k h w Hl). eexists. split; [reflexivity|].
  destruct (decide (k = h)) as [->|Hne]; [|left; reflexivity].
  assert (wr = w) as -> by congruence.
  apply Hf. apply status_eqb_eq, Hst.
Qed.

Lemma run_op_row db o h w :
  withdraw_requests db !! h = Some w ->
  exists w', withdraw_requests (WithdrawService.run_op db o) !! h = Some w'
             /\ moved w w'.
Proof.
  intros Hl.
  assert (Hstay : exists w', withdraw_requests db !! h = Some w'
                             /\ moved w w').
  { exists w. split; [exact Hl|left; reflexivity]. }
  destruct o as [now a wallet note|now r admin note|now r admin reason
                |now r admin]; simpl.
  - unfold WithdrawService.create_withdraw_request.
    destruct (a <? MIN_WITHDRAW_AMOUNT); [exact Hstay|].
    destruct (MAX_WITHDRAW_AMOUNT <? a); [exact Hstay|].
    destruct (_ <? a); [exact Hstay|]. simpl.
    exists w. split; [|left; reflexivity].
    apply lookup_app_l_Some, Hl.
  - unfold WithdrawService.approve_withdraw.
    destruct (WithdrawService.get_withdraw_request_by_id r db)
      as [[k wr]|] eqn:Hget; [|exact Hstay].
    destruct (WithdrawStatus_eqb (w_status wr) W_PENDING) eqn:Hst; simpl;
      [|exact Hstay].
    destruct (_ <? w_amount wr); simpl;
      apply (guarded_assign_moved db r W_PENDING _ h w k wr Hget Hst);
      try exact Hl;
      intros x Hx; right; (split; [repeat split|]); left; rewrite Hx;
      simpl; auto.
  - unfold WithdrawService.reject_withdraw.
    destruct (WithdrawService.get_withdraw_request_by_id r db)
      as [[k wr]|] eqn:Hget; [|exact Hstay].
    destruct (WithdrawStatus_eqb (w_status wr) W_PENDING) eqn:Hst; simpl;
      [|exact Hstay].
    apply (guarded_assign_moved db r W_PENDING _ h w k wr Hget Hst);
      try exact Hl.
    intros x Hx. right. split; [repeat split|]. left. rewrite Hx.
    simpl. auto.
  - unfold WithdrawService.process_withdraw.
    destruct (WithdrawService.get_withdraw_request_by_id r db)
      as [[k wr]|] eqn:Hget; [|exact Hstay].
    destruct (WithdrawStatus_eqb (w_status wr) W_APPROVED) eqn:Hst; simpl;
      [|exact Hstay].
    apply (guarded_assign_moved db r W_APPROVED _ h w k wr Hget Hst);
      try exact Hl.
    intros x Hx. right. split; [repeat split|]. right. rewrite Hx.
    simpl. auto.
Qed.

Lemma run_op_other_tables db o :
  with_withdraw_requests (withdraw_requests db) (WithdrawService.run_op db o)
  = db.
Proof.
  destruct o as [now a wallet note|now r admin note|now r admin reason
                |now r admin]; simpl.
  - unfold WithdrawService.create_withdraw_request.
    repeat (destruct (_ <? _); [destruct db; reflexivity|]).
    destruct db; reflexivity.
  - unfold WithdrawService.approve_withdraw.
    destruct (WithdrawService.get_withdraw_request_by_id r db)
      as [[k wr]|]; [|destruct db; reflexivity].
    destruct (negb _); [destruct db; reflexivity|].
    destruct (_ <? _); destruct db; reflexivity.
  - unfold WithdrawService.reject_withdraw.
    destruct (WithdrawService.get_withdraw_request_by_id r db)
      as [[k wr]|]; [|destruct db; reflexivity].
    destruct (negb _); destruct db; reflexivity.
  - unfold WithdrawService.process_withdraw.
    destruct (WithdrawService.get_withdraw_request_by_id r db)
      as [[k wr]|]; [|destruct db; reflexivity].
    destruct (negb _); destruct db; reflexivity.
Qed.

Lemma run_op_length db o :
  (length (withdraw_requests db)
     <= length (withdraw_requests (WithdrawService.run_op db o))
     <= S (length (withdraw_requests db)))%nat.
Proof.
  destruct o as [now a wallet note|now r admin note|now r admin reason
                |now r admin]; simpl.
  - unfold WithdrawService.create_withdraw_request.
    repeat (destruct (_ <? _); [simpl; lia|]). simpl.
    rewrite length_app. simpl. lia.
  - unfold WithdrawService.approve_withdraw.
    destruct (WithdrawService.get_withdraw_request_by_id r db)
      as [[k wr]|]; [|simpl; lia].
    destruct (negb _); [simpl; lia|].
    destruct (_ <? _); simpl; unfold query.assign; rewrite length_alter;
      lia.
  - unfold WithdrawService.reject_withdraw.
    destruct (WithdrawService.get_withdraw_request_by_id r db)
      as [[k wr]|]; [|simpl; lia].
    destruct (negb _); [simpl; lia|]. simpl. unfold query.assign.
    rewrite length_alter. lia.
  - unfold WithdrawService.process_withdraw.
    destruct (WithdrawService.get_withdraw_request_by_id r db)
      as [[k wr]|]; [|simpl; lia].
    destruct (negb _); [simpl; lia|]. simpl. unfold query.assign.
    rewrite length_alter. lia.
Qed.

End WithdrawLifeCycle.

(** X11.  The status machine of withdrawal requests.  Whatever the
    operation ([create_withdraw_request], [approve_withdraw],
    [reject_withdraw], [process_withdraw]) and its arguments, every stored
    request either stays exactly as it is or keeps its id, amount, wallet
    and request time while its status moves from pending to approved or
    rejected, or from approved to completed; no request is removed, at most
    one is added, and no other table changes. *)
Theorem withdraw_status_machine (db : Session) (o : WithdrawService.op) :
  (forall h w,
     withdraw_requests db !! h = Some w ->
     exists w',
       withdraw_requests (WithdrawService.run_op db o) !! h = Some w' /\
       (w' = w \/
        (lifecycle.same_request w w' /\
         ((w_status w = W_PENDING /\
           (w_status w' = W_APPROVED \/ w_status w' = W_REJECTED)) \/
          (w_status w = W_APPROVED /\ w_status w' = W_COMPLETED))))) /\
  (length (withdraw_requests db)
     <= length (withdraw_requests (WithdrawService.run_op db o))
     <= S (length (withdraw_requests db)))%nat /\
  with_withdraw_requests (withdraw_requests db) (WithdrawService.run_op db o)
  = db.
Proof.
  split; [|split].
  - intros h w Hl. apply (run_op_row db o h w Hl).
  - apply run_op_length.
  - apply run_op_other_tables.
Qed.

(** X12.  Rejected and completed are final: a request that is rejected or
    completed is left exactly as it is, at the same place, by every
    sequence of [create_withdraw_request], [approve_withdraw],
    [reject_withdraw] and [process_withdraw] calls. *)
Theorem terminal_request_is_immutable
    (ops : list WithdrawService.op) (db : Session) (h : nat)
    (w : WithdrawRequest) :
  withdraw_requests db !! h = Some w ->
  w_status w = W_REJECTED \/ w_status w = W_COMPLETED ->
  withdraw_requests (WithdrawService.run_ops db ops) !! h = Some w.
Proof.
  unfold WithdrawService.run_ops. revert db.
  induction ops as [|o ops IH]; intros db Hl Hterm; simpl; [exact Hl|].
  apply IH; [|exact Hterm].
  destruct (run_op_row db o h w Hl) as (w' & Hl' & [->|(_ & Hstep)]);
    [exact Hl'|].
  exfalso. destruct Hstep as [(Hp & _)|(Ha & _)], Hterm as [Hr|Hc];
    congruence.
Qed.

Lemma terminal_request_is_immutable_witness :
  withdraw_requests
    (WithdrawService.run_ops fixtures.ledger_db
       [WithdrawService.Approve fixtures.T0 4 1 None;
        WithdrawService.Process fixtures.T0 4 1;
        WithdrawService.Reject fixtures.T0 2 1 "again";
        WithdrawService.Process fixtures.T0 2 1]) !! 3%nat
  = withdraw_requests fixtures.ledger_db !! 3%nat.
Proof.
  apply (terminal_request_is_immutable _ fixtures.ledger_db 3%nat).
  - reflexivity.
  - left. reflexivity.
Defined.

(** ** Withdrawal requests: creation, limits and approval *)

Lemma next_withdraw_id_fresh (tbl : list WithdrawRequest) w :
  w ∈ tbl -> w_id w < WithdrawService.next_withdraw_id tbl.
Proof.
  unfold WithdrawService.next_withdraw_id.
  induction tbl as [|x tbl IH]; intros Hw; simpl.
  - apply elem_of_nil in Hw. contradiction.
  - apply elem_of_cons in Hw as [->|Hw]; [lia|].
    specialize (IH Hw). lia.
Qed.

Lemma create_withdraw_request_ok now a wallet note db :
  MIN_WITHDRAW_AMOUNT <= a <= MAX_WITHDRAW_AMOUNT ->
  a <= WithdrawService._calculate_available_amount db ->
  WithdrawService.create_withdraw_request now a wallet note db
  = (Ok (mkWithdrawRequest
           (WithdrawService.next_withdraw_id (withdraw_requests db)) a
           W_PENDING wallet now None note None),
     with_withdraw_requests
       (withdraw_requests db
          ++ [mkWithdrawRequest
                (WithdrawService.next_withdraw_id (withdraw_requests db)) a
                W_PENDING wallet now None note None]) db).
Proof.
  intros [Hmin Hmax] Hav. unfold WithdrawService.create_withdraw_request.
  apply Z.ltb_ge in Hmin, Hmax, Hav. rewrite Hmin, Hmax, Hav. reflexivity.
Qed.

Lemma available_after_create now a wallet note db :
  MIN_WITHDRAW_AMOUNT <= a <= MAX_WITHDRAW_AMOUNT ->
  a <= WithdrawService._calculate_available_amount db ->
  WithdrawService._calculate_available_amount
    (snd (WithdrawService.create_withdraw_request now a wallet note db))
  = WithdrawService._calculate_available_amount db - a.
Proof.
  intros Hlim Hav.
  rewrite (create_withdraw_request_ok now a wallet note db Hlim Hav).
  rewrite !calculate_available_amount_spec in *.
  unfold ledger.AvailableBalance in *.
  set (db1 := snd _).
  assert (Hrev : ledger.revenue db1 = ledger.revenue db) by reflexivity.
  assert (Hcom : ledger.commission db1 = ledger.commission db)
    by reflexivity.
  assert (Hout : ledger.paid_out db1 = ledger.paid_out db).
  { unfold ledger.paid_out. subst db1. simpl. rewrite sum_where_app.
    simpl. lia. }
  assert (Hpend : ledger.pending db1 = ledger.pending db + a).
  { unfold ledger.pending. subst db1. simpl. rewrite sum_where_app.
    simpl. lia. }
  rewrite Hrev, Hcom, Hout, Hpend.
  unfold MIN_WITHDRAW_AMOUNT in Hlim. lia.
Qed.

(** X13.  [calculate_withdraw_limits] states exactly what
    [create_withdraw_request] accepts.  An amount between [min_withdraw]
    and [max_withdraw] of the limits is accepted: one pending request of
    that amount is appended, with a new id, and the available amount drops
    by the amount while the pending amount grows by it.  Any other amount
    is refused with an error and the store is unchanged. *)
Theorem withdraw_limits_decide_creation
    (now : datetime.t) (a : Z) (wallet note : option string) (db : Session) :
  let lim := WithdrawService.calculate_withdraw_limits db in
  let out := WithdrawService.create_withdraw_request now a wallet note db in
  (WithdrawService.min_withdraw lim <= a <= WithdrawService.max_withdraw lim
   -> exists w,
        out = (Ok w, with_withdraw_requests (withdraw_requests db ++ [w]) db)
        /\ w_amount w = a /\ w_status w = W_PENDING /\
        (forall x, x ∈ withdraw_requests db -> w_id x <> w_id w) /\
        WithdrawService.available_amount
          (WithdrawService.calculate_withdraw_limits (snd out))
        = WithdrawService.available_amount lim - a /\
        WithdrawService.pending_amount
          (WithdrawService.calculate_withdraw_limits (snd out))
        = WithdrawService.pending_amount lim + a) /\
  (~ (WithdrawService.min_withdraw lim <= a
        <= WithdrawService.max_withdraw lim)
   -> exists e, out = (Raise e, db)).
Proof.
  intros lim out. subst lim out. simpl. split.
  - intros [Hmin Hmax].
    assert (Hlim : MIN_WITHDRAW_AMOUNT <= a <= MAX_WITHDRAW_AMOUNT) by lia.
    assert (Hav : a <= WithdrawService._calculate_available_amount db)
      by lia.
    pose proof (available_after_create now a wallet note db Hlim Hav) as Hafter.
    rewrite (create_withdraw_request_ok now a wallet note db Hlim Hav) in *.
    eexists. split; [reflexivity|]. simpl.
    split; [reflexivity|]. split; [reflexivity|]. split; [|split].
    + intros x Hx. pose proof (next_withdraw_id_fresh _ x Hx). lia.
    + exact Hafter.
    + unfold WithdrawService._calculate_pending_withdraws.
      rewrite !sum_scalar_sum_where. simpl. rewrite sum_where_app.
      simpl. lia.
  - intros Hnot. unfold WithdrawService.create_withdraw_request.
    destruct (a <? MIN_WITHDRAW_AMOUNT) eqn:Hmin; [eauto|].
    destruct (MAX_WITHDRAW_AMOUNT <? a) eqn:Hmax; [eauto|].
    destruct (WithdrawService._calculate_available_amount db <? a) eqn:Hav;
      [eauto|].
    exfalso. apply Hnot. apply Z.ltb_ge in Hmin, Hmax, Hav. lia.
Qed.

Lemma withdraw_limits_decide_creation_witness :
  exists w,
    WithdrawService.create_withdraw_request fixtures.T0 4000 None None
      fixtures.ledger_db
    = (Ok w,
       with_withdraw_requests
         (withdraw_requests fixtures.ledger_db ++ [w]) fixtures.ledger_db)
    /\ w_amount w = 4000 /\ w_id w = 5.
Proof.
  destruct (withdraw_limits_decide_creation fixtures.T0 4000 None None
              fixtures.ledger_db) as [Hok _].
  destruct Hok as (w & Hout & Ha & _).
  - vm_compute. split; discriminate.
  - exists w. split; [exact Hout|]. split; [exact Ha|].
    vm_compute in Hout. injection Hout as <-. reflexivity.
Defined.

Lemma get_fresh_withdraw_request db w :
  w_id w = WithdrawService.next_withdraw_id (withdraw_requests db) ->
  WithdrawService.get_withdraw_request_by_id (w_id w)
    (with_withdraw_requests (withdraw_requests db ++ [w]) db)
  = Some (length (withdraw_requests db), w).
Proof.
  intros Hid. unfold WithdrawService.get_withdraw_request_by_id. simpl.
  apply first_intro.
  - apply list_lookup_middle. reflexivity.
  - apply Z.eqb_refl.
  - intros j x Hj Hx. rewrite lookup_app_l in Hx by exact Hj.
    apply Z.eqb_neq. rewrite Hid.
    pose proof (next_withdraw_id_fresh (withdraw_requests db) x) as Hfresh.
    assert (x ∈ withdraw_requests db) by (eapply list_elem_of_lookup_2, Hx).
    specialize (Hfresh ltac:(assumption)). lia.
Qed.

(** X14.  The approval check counts the request against itself: the
    available amount is net of all pending requests, the one being
    approved included.  So when a request is created and approved with
    nothing else in between, it is approved exactly when twice its amount
    fits in what was available before it was created, and auto-rejected
    otherwise, although creation accepted it. *)
Theorem fresh_request_needs_twice_its_amount
    (now later : datetime.t) (a admin : Z) (wallet note notes : option string)
    (db : Session) :
  MIN_WITHDRAW_AMOUNT <= a <= MAX_WITHDRAW_AMOUNT ->
  a <= WithdrawService._calculate_available_amount db ->
  let db1 :=
    snd (WithdrawService.create_withdraw_request now a wallet note db) in
  let request_id := WithdrawService.next_withdraw_id (withdraw_requests db) in
  let out := WithdrawService.approve_withdraw later request_id admin notes
               db1 in
  let enough := 2 * a <=? WithdrawService._calculate_available_amount db in
  fst out = enough /\
  exists w,
    withdraw_requests (snd out) !! length (withdraw_requests db) = Some w /\
    w_id w = request_id /\ w_amount w = a /\
    w_status w = if enough then W_APPROVED else W_REJECTED.
Proof.
  intros Hlim Hav db1 request_id out enough.
  pose proof (available_after_create now a wallet note db Hlim Hav) as Hafter.
  fold db1 in Hafter.
  assert (Hdb1 : db1 = with_withdraw_requests
                         (withdraw_requests db
                            ++ [mkWithdrawRequest request_id a W_PENDING
                                  wallet now None note None]) db).
  { subst db1.
    rewrite (create_withdraw_request_ok now a wallet note db Hlim Hav).
    reflexivity. }
  set (w0 := mkWithdrawRequest request_id a W_PENDING wallet now None note
               None) in *.
  assert (Hget : WithdrawService.get_withdraw_request_by_id request_id db1
                 = Some (length (withdraw_requests db), w0)).
  { rewrite Hdb1. apply (get_fresh_withdraw_request db w0). reflexivity. }
  subst out. unfold WithdrawService.approve_withdraw.
  rewrite Hget. simpl. rewrite Hafter.
  assert (Hl : withdraw_requests db1 !! length (withdraw_requests db)
               = Some w0).
  { rewrite Hdb1. simpl. apply list_lookup_middle. reflexivity. }
  subst enough.
  destruct (2 * a <=? WithdrawService._calculate_available_amount db)
    eqn:Hen.
  - apply Z.leb_le in Hen.
    assert (Hlt : (WithdrawService._calculate_available_amount db - a <? a)
                  = false) by (apply Z.ltb_ge; lia).
    rewrite Hlt. simpl. split; [reflexivity|].
    rewrite (assign_lookup _ _ _ _ w0 Hl).
    destruct (decide _) as [_|Hne]; [|contradiction].
    eexists. split; [reflexivity|]. repeat split.
  - apply Z.leb_gt in Hen.
    assert (Hlt : (WithdrawService._calculate_available_amount db - a <? a)
                  = true) by (apply Z.ltb_lt; lia).
    rewrite Hlt. simpl. split; [reflexivity|].
    rewrite (assign_lookup _ _ _ _ w0 Hl).
    destruct (decide _) as [_|Hne]; [|contradiction].
    eexists. split; [reflexivity|]. repeat split.
Qed.

Lemma fresh_request_needs_twice_its_amount_witness :
  let db1 :=
    snd (WithdrawService.create_withdraw_request fixtures.T0 4000 None None
           fixtures.ledger_db) in
  fst (WithdrawService.approve_withdraw (fixtures.T0 + 1) 5 1 None db1)
  = false.
Proof.
  intros db1.
  destruct (fresh_request_needs_twice_its_amount fixtures.T0 (fixtures.T0 + 1)
              4000 1 None None None fixtures.ledger_db) as [Hfst _].
  - vm_compute. split; discriminate.
  - vm_compute. discriminate.
  - exact Hfst.
Defined.

(** ** Verification endpoint *)

Lemma length_append (s1 s2 : string) :
  String.length (s1 +:+ s2) = (String.length s1 + String.length s2)%nat.
Proof. induction s1 as [|c s1 IH]; simpl; [reflexivity|]. rewrite IH. lia. Qed.

Lemma length_escape (s : string) :
  (String.length s <= String.length (json.escape s))%nat.
Proof.
  induction s as [|c s IH]; simpl; [lia|].
  rewrite length_append.
  assert (1 <= String.length (json.escape_char c))%nat; [|lia].
  unfold json.escape_char.
  repeat match goal with
         | |- context [if ?b then _ else _] => destruct b
         end; simpl; lia.
Qed.

(** The invoice payload is longer than the payment id it embeds. *)
Lemma invoice_payload_longer now user_id item_id item_type payment_id :
  (String.length payment_id
   < String.length (PaymentService._create_invoice_payload now user_id
                      item_id item_type payment_id))%nat.
Proof.
  unfold PaymentService._create_invoice_payload. cbn [json.dumps].
  unfold json.dumps_str.
  repeat (rewrite length_append || cbn [String.length]).
  pose proof (length_escape payment_id). lia.
Qed.

(** X15.  The verification endpoint never verifies a payment: it passes
    the payment id itself as the invoice payload, which can never equal the
    payload [verify_payment] expects, so for every request, store and time
    the answer is "not verified". *)
Theorem verify_endpoint_never_verifies
    (now : datetime.t) (request : payments.PaymentVerificationRequest)
    (db : Session) :
  payments.verify_payment now request db = false.
Proof.
  unfold payments.verify_payment.
  destruct (PaymentService.verify_payment _ _ _ _) eqn:Hv; [|reflexivity].
  exfalso. apply verify_payment_true in Hv as (h & p & _ & _ & _ & _ & Hp).
  match type of Hp with
  | _ = JStr ?expected =>
      assert (Hq : JStr (payments.v_payment_id request) = JStr expected)
        by exact Hp
  end.
  clear Hp. injection Hq as Hp.
  pose proof (invoice_payload_longer now (user_id p)
                (py.or_opt_int (lesson_id p) (course_id p))
                (if py.truthy_opt_int (lesson_id p)
                 then "lesson" else "course")
                (payments.v_payment_id request)) as Hlen.
  rewrite <- Hp in Hlen. lia.
Qed.

(** ** Webhook endpoint: the pre-checkout gate *)

Lemma first_ext {A} (p q : A -> bool) (tbl : list A) :
  (forall x, p x = q x) -> query.first p tbl = query.first q tbl.
Proof.
  intros Hpq. unfold query.first, query.all. generalize 0%nat.
  induction tbl as [|x tbl IH]; intros start; simpl; [reflexivity|].
  rewrite Hpq. destruct (q x); simpl; [reflexivity|apply IH].
Qed.

Lemma first_payment_id_is value key db :
  sqlite.bind value = Some key ->
  query.first (payments.payment_id_is value) (purchases db)
  = query.first (fun p => String.eqb (payment_id p) key) (purchases db).
Proof.
  intros Hb. apply first_ext. intros x. unfold payments.payment_id_is.
  rewrite Hb. reflexivity.
Qed.

Lemma first_payment_id_is_unbound value db :
  sqlite.bind value = None ->
  query.first (payments.payment_id_is value) (purchases db) = None.
Proof.
  intros Hb. apply first_absent. intros r _.
  unfold payments.payment_id_is. rewrite Hb. reflexivity.
Qed.

Lemma validate_pre_checkout_true
    (json_loads : string -> option json.value) (invoice_payload : string)
    (db : Session) :
  payments._validate_pre_checkout json_loads invoice_payload db = true <->
  exists payload_data value key,
    json_loads invoice_payload = Some (JObj payload_data) /\
    json.dict_lookup "payment_id" payload_data = Some value /\
    json.truthy value = true /\
    sqlite.bind value = Some key /\
    PaymentService.get_payment_status key db = Some PENDING.
Proof.
  unfold payments._validate_pre_checkout, PaymentService.get_payment_status.
  split.
  - destruct (json_loads invoice_payload) as [v|]; [|discriminate].
    destruct v as [| | | | |payload_data]; try discriminate. simpl.
    unfold json.dict_get.
    destruct (json.dict_lookup "payment_id" payload_data) as [value|]
      eqn:Hpid; [|discriminate]. simpl.
    destruct (json.truthy value) eqn:Hne; [|discriminate]. simpl.
    destruct (sqlite.bind value) as [key|] eqn:Hb.
    + rewrite (first_payment_id_is value key db Hb).
      destruct (query.first _ _) as [[h p]|] eqn:Hf; [|discriminate].
      intros Hst. exists payload_data, value, key.
      apply status_eqb_true in Hst. rewrite Hf, Hst. auto.
    + rewrite (first_payment_id_is_unbound value db Hb). discriminate.
  - intros (payload_data & value & key & -> & Hpid & Hne & Hb & Hst). simpl.
    unfold json.dict_get. rewrite Hpid. simpl. rewrite Hne. simpl.
    rewrite (first_payment_id_is value key db Hb).
    destruct (query.first _ _) as [[h p]|]; [|discriminate].
    injection Hst as ->. reflexivity.
Qed.

(** X16.  The pre-checkout gate answers yes exactly when the invoice
    payload parses as a JSON object whose payment_id is not empty (not
    null, false, 0 or the empty string) and is compared as a text (a string
    as it is, an integer within 64 bits as its decimal text, true as 1) of
    which [get_payment_status] is pending; nothing else of the payload or
    of the store (such as whether the item or the user is still active)
    enters the answer. *)
Theorem pre_checkout_gate
    (json_loads : string -> option json.value) (invoice_payload : string)
    (db : Session) :
  payments._validate_pre_checkout json_loads invoice_payload db = true <->
  exists payload_data value key,
    json_loads invoice_payload = Some (JObj payload_data) /\
    json.dict_lookup "payment_id" payload_data = Some value /\
    json.truthy value = true /\
    match value with
    | JStr s => key = s
    | JInt z => - 2 ^ 63 <= z < 2 ^ 63 /\ key = pretty z
    | JBool b => key = "1"
    | _ => False
    end /\
    PaymentService.get_payment_status key db = Some PENDING.
Proof.
  rewrite validate_pre_checkout_true.
  split; intros (payload_data & value & key & Hloads & Hpid & Hne & Hb & Hst);
    exists payload_data, value, key;
    (split; [exact Hloads|]); (split; [exact Hpid|]);
    (split; [exact Hne|]); (split; [|exact Hst]).
  - destruct value as [|b|z|s|l|kv]; simpl in Hb; try discriminate.
    + destruct b; [|discriminate]. injection Hb as <-. reflexivity.
    + destruct (- 2 ^ 63 <=? z) eqn:Hlo; [|discriminate].
      destruct (z <? 2 ^ 63) eqn:Hhi; [|discriminate].
      injection Hb as <-. apply Z.leb_le in Hlo. apply Z.ltb_lt in Hhi.
      auto.
    + injection Hb as <-. reflexivity.
  - destruct value as [|b|z|s|l|kv]; simpl; try contradiction.
    + destruct b; [|discriminate]. subst key. reflexivity.
    + destruct Hb as ((Hlo & Hhi) & ->).
      apply Z.leb_le in Hlo. apply Z.ltb_lt in Hhi. rewrite Hlo, Hhi.
      reflexivity.
    + subst key. reflexivity.
Qed.

Lemma gate_answers_for_a_number :
  payments._validate_pre_checkout
    (fixtures.loads_one "{...}" (JObj [("payment_id", JInt 123)])) "{...}"
    fixtures.numbered_db = true.
Proof. reflexivity. Qed.

Lemma webhook_handler_found json_loads now top message successful_payment
    payload_data text pid db h p :
  json.dict_lookup "message" top = Some (JObj message) ->
  json.dict_lookup "successful_payment" message
    = Some (JObj successful_payment) ->
  json.dict_lookup "invoice_payload" successful_payment = Some (JStr text) ->
  json_loads text = Some (JObj payload_data) ->
  json.dict_lookup "payment_id" payload_data = Some (JStr pid) ->
  pid <> "" ->
  query.first (fun q => String.eqb (payment_id q) pid) (purchases db)
    = Some (h, p) ->
  payments._process_successful_payment_webhook json_loads now (JObj top) db
  = snd (PaymentService.process_successful_payment now (id p) db).
Proof.
  intros Hmsg Hsp Hinv Hloads Hpid Hne Hf.
  apply (webhook_handler_selects json_loads now top message
           successful_payment payload_data text (JStr pid) db h p); auto.
  simpl. apply String.eqb_neq in Hne. rewrite Hne. reflexivity.
Qed.

(** X17.  A processed payment closes the gate.  If the pre-checkout gate
    answers yes for an invoice payload and the successful_payment webhook
    carrying that payload is then handled (purchase ids being unique), the
    purchase its payment_id selects has status completed and the gate
    answers no for the same payload from then on: the same intent cannot
    be checked out twice.  This holds for a payment_id given as a string
    and for one given as a number alike. *)
Theorem processed_payment_closes_the_gate
    (json_loads : string -> option json.value) (now : datetime.t)
    (top message successful_payment : json.dict) (text : string)
    (db : Session) :
  json.dict_lookup "message" top = Some (JObj message) ->
  json.dict_lookup "successful_payment" message
    = Some (JObj successful_payment) ->
  json.dict_lookup "invoice_payload" successful_payment = Some (JStr text) ->
  NoDup (id <$> purchases db) ->
  payments._validate_pre_checkout json_loads text db = true ->
  let db' :=
    payments._process_successful_payment_webhook json_loads now (JObj top)
      db in
  payments._validate_pre_checkout json_loads text db' = false /\
  exists payload_data value h p,
    json_loads text = Some (JObj payload_data) /\
    json.dict_lookup "payment_id" payload_data = Some value /\
    query.first (payments.payment_id_is value) (purchases db) = Some (h, p) /\
    query.first (payments.payment_id_is value) (purchases db')
      = Some (h, mkPurchase (id p) (user_id p) (lesson_id p) (course_id p)
                   (payment_id p) (amount p) COMPLETED (created_at p) now).
Proof.
  intros Hmsg Hsp Hinv Hnd Hgate db'.
  apply validate_pre_checkout_true in Hgate
    as (payload_data & value & key & Hloads & Hpid & Hne & Hb & Hst).
  unfold PaymentService.get_payment_status in Hst.
  destruct (query.first _ _) as [[h p]|] eqn:Hf; [|discriminate].
  rewrite <- (first_payment_id_is value key db Hb) in Hf.
  assert (Hdb' : db' = with_purchases
                         (<[h := set_purchase_status COMPLETED now p]>
                            (purchases db)) db).
  { subst db'.
    rewrite (webhook_handler_selects json_loads now top message
               successful_payment payload_data text value db h p); auto.
    apply first_Some in Hf as (Hl & _).
    rewrite (process_successful_payment_found now db h p Hnd Hl).
    reflexivity. }
  assert (Hfirst : query.first (payments.payment_id_is value) (purchases db')
                   = Some (h, set_purchase_status COMPLETED now p)).
  { rewrite Hdb'. simpl.
    pose proof (first_Some _ _ _ _ Hf) as (Hl & _).
    rewrite <- (assign_insert (set_purchase_status COMPLETED now) _ h p Hl).
    rewrite (first_assign_stable _ _ _ h h p); [|reflexivity|exact Hf].
    destruct (decide (h = h)); [reflexivity|contradiction]. }
  split.
  - destruct (payments._validate_pre_checkout json_loads text db') eqn:Hg;
      [|reflexivity].
    apply validate_pre_checkout_true in Hg
      as (pd & value' & key' & Hloads' & Hpid' & _ & Hb' & Hst').
    rewrite Hloads in Hloads'. injection Hloads' as <-.
    rewrite Hpid in Hpid'. injection Hpid' as <-.
    unfold PaymentService.get_payment_status in Hst'.
    rewrite <- (first_payment_id_is value key' db' Hb'), Hfirst in Hst'.
    discriminate.
  - exists payload_data, value, h, p. auto.
Qed.

Lemma processed_payment_closes_the_gate_witness :
  let text := "{...}" in
  let by_string :=
    fixtures.loads_one text (JObj [("payment_id", JStr "pay_test123")]) in
  let by_number :=
    fixtures.loads_one text (JObj [("payment_id", JInt 123)]) in
  payments._validate_pre_checkout by_string text
    (payments._process_successful_payment_webhook by_string (fixtures.T0 + 5)
       (fixtures.webhook 100 "XTR" text) (fixtures.one_purchase PENDING))
  = false /\
  payments._validate_pre_checkout by_number text
    (payments._process_successful_payment_webhook by_number (fixtures.T0 + 5)
       (fixtures.webhook 100 "XTR" text) fixtures.numbered_db)
  = false.
Proof.
  intros text by_string by_number. split.
  - refine (proj1 (processed_payment_closes_the_gate by_string
                     (fixtures.T0 + 5) _ _ _ text
                     (fixtures.one_purchase PENDING) _ _ _ _ _));
      try reflexivity.
    apply NoDup_singleton.
  - refine (proj1 (processed_payment_closes_the_gate by_number
                     (fixtures.T0 + 5) _ _ _ text fixtures.numbered_db
                     _ _ _ _ _)); try reflexivity.
    apply NoDup_singleton.
Defined.

(** ** Webhook endpoint: answers and effects *)

Lemma webhook_handler_shape json_loads now webhook_data db :
  payments._process_successful_payment_webhook json_loads now webhook_data db
    = db \/
  exists purchase_id,
    payments._process_successful_payment_webhook json_loads now webhook_data
      db
    = snd (PaymentService.process_successful_payment now purchase_id db).
Proof.
  unfold payments._process_successful_payment_webhook.
  destruct (json.get webhook_data "message" (JObj [])) as [message|];
    [|left; reflexivity].
  destruct (json.get message "successful_payment" (JObj [])) as [sp|];
    [|left; reflexivity].
  destruct (negb (json.truthy sp)); [left; reflexivity|].
  destruct (json.get sp "invoice_payload" (JStr "")) as [payload|];
    [|left; reflexivity].
  destruct payload as [| | |text| |]; try (left; reflexivity).
  destruct (json_loads text) as [payload_data|]; [|left; reflexivity].
  destruct (json.get payload_data "payment_id" JNull) as [pid|];
    [|left; reflexivity].
  destruct (negb (json.truthy pid)); [left; reflexivity|].
  destruct (query.first _ (purchases db)) as [[h p]|]; [|left; reflexivity].
  right. exists (id p). reflexivity.
Qed.

Lemma process_successful_payment_effect now purchase_id db :
  let db' :=
    snd (PaymentService.process_successful_payment now purchase_id db) in
  with_purchases (purchases db) db' = db /\
  length (purchases db') = length (purchases db) /\
  forall h p, purchases db !! h = Some p ->
    purchases db' !! h = Some p \/
    purchases db' !! h = Some (set_purchase_status COMPLETED now p).
Proof.
  unfold PaymentService.process_successful_payment.
  destruct (query.first _ (purchases db)) as [[k q]|]; simpl.
  - split; [destruct db; reflexivity|]. split.
    + unfold query.assign. apply length_alter.
    + intros h p Hl. rewrite (assign_lookup _ _ k h p Hl).
      destruct (decide (k = h)); auto.
  - split; [destruct db; reflexivity|]. split; [reflexivity|]. auto.
Qed.

(** X18.  What the webhook endpoint answers and what it can do.  For a
    request body that is a JSON object: unless the update is a
    pre_checkout_query the answer is 200 with ok true, also when the
    payment could not be matched or processed; the store changes only for
    a successful_payment update; and in every case no purchase is added or
    removed, no other table changes, and each purchase is left as it was
    or set to completed. *)
Theorem webhook_endpoint_acknowledges
    (json_loads : string -> option json.value) (now : datetime.t)
    (top : json.dict) (db : Session) :
  let out := payments.payment_webhook json_loads now (JObj top) db in
  (json.dict_lookup "update_type" top <> Some (JStr "pre_checkout_query") ->
   fst out = payments.mkJSONResponse 200 true) /\
  (json.dict_lookup "update_type" top <> Some (JStr "successful_payment") ->
   snd out = db) /\
  with_purchases (purchases db) (snd out) = db /\
  length (purchases (snd out)) = length (purchases db) /\
  (forall h p, purchases db !! h = Some p ->
     purchases (snd out) !! h = Some p \/
     purchases (snd out) !! h = Some (set_purchase_status COMPLETED now p)).
Proof.
  intros out. subst out. unfold payments.payment_webhook.
  change (json.get (JObj top) "update_type" JNull)
    with (Some (json.dict_get top "update_type" JNull)).
  cbv beta iota.
  assert (Hsame : with_purchases (purchases db) db = db)
    by (destruct db; reflexivity).
  assert (Hu : forall s,
            json.eq_str (json.dict_get top "update_type" JNull) s = true ->
            json.dict_lookup "update_type" top = Some (JStr s)).
  { intros s H. apply eq_str_true in H. unfold json.dict_get in H.
    destruct (json.dict_lookup "update_type" top); simpl in H;
      [congruence|discriminate]. }
  destruct (json.eq_str (json.dict_get top "update_type" JNull)
              "successful_payment") eqn:Hsucc.
  - apply Hu in Hsucc. simpl.
    split; [reflexivity|]. split; [intros Hne; contradiction|].
    destruct (webhook_handler_shape json_loads now (JObj top) db)
      as [->|(purchase_id & ->)].
    + repeat split; auto.
    + apply process_successful_payment_effect.
  - destruct (json.eq_str (json.dict_get top "update_type" JNull)
                "pre_checkout_query") eqn:Hpre.
    + apply Hu in Hpre.
      split; [intros Hne; contradiction|].
      destruct (json.get (JObj top) "pre_checkout_query" (JObj []))
        as [query|]; [|simpl; repeat split; auto].
      destruct (json.get query "invoice_payload" (JStr ""));
        simpl; repeat split; auto.
    + simpl. repeat split; auto.
Qed.

Lemma webhook_endpoint_acknowledges_witness :
  fst (payments.payment_webhook
         (fixtures.loads_one "{...}" (JObj [("payment_id", JStr "pay_none")]))
         fixtures.T0 (fixtures.webhook 5 "XTR" "{...}")
         (fixtures.one_purchase PENDING))
  = payments.mkJSONResponse 200 true.
Proof.
  apply (webhook_endpoint_acknowledges
           (fixtures.loads_one "{...}"
              (JObj [("payment_id", JStr "pay_none")]))
           fixtures.T0
           [("update_type", JStr "successful_payment");
            ("message",
             JObj [("successful_payment",
                    JObj [("currency", JStr "XTR");
                          ("total_amount", JInt 5);
                          ("invoice_payload", JStr "{...}");
                          ("telegram_payment_charge_id", JStr "ch_1")])])]
           (fixtures.one_purchase PENDING)).
  discriminate.
Defined.

(** ** Promo codes: creation *)

Lemma create_promo_code_inr code pct da mu exp db promo db' :
  PromoCodeService.create_promo_code code pct da mu exp db
    = (inr promo, db') ->
  promo = mkPromoCode (PromoCodeService.next_promo_id (promocodes db))
            (py.upper code) pct da mu 0 true exp /\
  db' = with_promocodes (promocodes db ++ [promo]) db /\
  (forall p, p ∈ promocodes db -> models.code p <> py.upper code).
Proof.
  unfold PromoCodeService.create_promo_code.
  repeat match goal with
         | |- context [if ?c then (inl _, _) else _] =>
             lazymatch type of c with bool => idtac end;
             destruct c; [discriminate|]
         end.
  destruct (query.first _ _) eqn:Hf; [discriminate|].
  intros [= <- <-]. split; [reflexivity|]. split; [reflexivity|].
  intros p Hp. rewrite first_None in Hf. apply String.eqb_neq, Hf, Hp.
Qed.

Lemma create_promo_code_inl code pct da mu exp db e db' :
  PromoCodeService.create_promo_code code pct da mu exp db = (inl e, db') ->
  db' = db.
Proof.
  unfold PromoCodeService.create_promo_code.
  repeat match goal with
         | |- context [if ?c then (inl _, _) else _] =>
             lazymatch type of c with bool => idtac end;
             destruct c; [congruence|]
         end.
  destruct (query.first _ _); [congruence|discriminate].
Qed.

Lemma len_isascii s : py.isascii s = true -> py.len s = String.length s.
Proof.
  induction s as [|c s IH]; simpl; [reflexivity|].
  intros (Hc & Hs)%andb_true_iff. rewrite (IH Hs).
  unfold py.is_continuation.
  apply N.ltb_lt in Hc.
  assert (Hlo : (128 <=? N_of_ascii c)%N = false) by (apply N.leb_gt; lia).
  rewrite Hlo. reflexivity.
Qed.

Lemma create_promo_code_length code pct da mu exp db promo db' :
  PromoCodeService.create_promo_code code pct da mu exp db
    = (inr promo, db') ->
  (3 <= py.len code)%nat.
Proof.
  unfold PromoCodeService.create_promo_code.
  destruct (String.eqb code "" || (Z.of_nat (py.len code) <? 3)) eqn:Hlen;
    [discriminate|].
  intros _. apply orb_false_iff in Hlen as (_ & Hlen).
  apply Z.ltb_ge in Hlen. lia.
Qed.

(** X19.  A created promo code can be validated under any spelling of its
    code, for codes and spellings of ASCII characters.  When
    [create_promo_code] succeeds for such a code, the code has at least
    three characters and is stored upper-cased, active and unused, after
    the existing ones; and [validate_promo_code] of any ASCII string with
    the same upper-casing yields that promo code, at every time not after
    its expiry date, provided [max_uses] is not negative ([max_uses] of 0
    counts as no limit). *)
Theorem created_code_validates
    (code : string) (pct : Z) (da mu : option Z) (exp : option datetime.t)
    (db : Session) (promo : PromoCode) (db' : Session) :
  py.isascii code = true ->
  PromoCodeService.create_promo_code code pct da mu exp db
    = (inr promo, db') ->
  (3 <= String.length code)%nat /\
  promocodes db' = promocodes db ++ [promo] /\
  models.code promo = py.upper code /\
  current_uses promo = 0 /\ is_active promo = true /\
  forall (now : datetime.t) (spelling : string),
    py.isascii spelling = true ->
    py.upper spelling = py.upper code ->
    match exp with Some e => now <= e | None => True end ->
    match mu with Some m => 0 <= m | None => True end ->
    PromoCodeService.validate_promo_code now spelling db'
    = Ok (length (promocodes db), promo).
Proof.
  intros Hascii Hc.
  pose proof (create_promo_code_length _ _ _ _ _ _ _ _ Hc) as Hlen.
  rewrite (len_isascii code Hascii) in Hlen.
  apply create_promo_code_inr in Hc as (-> & -> & Hfresh). simpl.
  split; [exact Hlen|].
  repeat split; try reflexivity.
  intros now spelling _ Hup Hexp Hmu.
  set (promo := mkPromoCode _ _ _ _ _ _ _ _).
  assert (Hf : query.first
                 (fun p => String.eqb (models.code p) (py.upper spelling))
                 (promocodes db ++ [promo])
               = Some (length (promocodes db), promo)).
  { apply first_intro.
    - apply list_lookup_middle. reflexivity.
    - rewrite Hup. apply String.eqb_refl.
    - intros j x Hj Hx. rewrite lookup_app_l in Hx by exact Hj.
      rewrite Hup. apply String.eqb_neq, Hfresh.
      eapply list_elem_of_lookup_2, Hx. }
  rewrite (validate_promo_code_found now spelling
             (with_promocodes (promocodes db ++ [promo]) db) _ promo Hf).
  assert (Hv : is_valid now promo = true).
  { unfold is_valid. simpl.
    assert (He : match exp with Some e => e <? now | None => false end
                 = false).
    { destruct exp as [e|]; [apply Z.ltb_ge; exact Hexp|reflexivity]. }
    rewrite He.
    destruct mu as [m|]; simpl; [|reflexivity].
    destruct (m =? 0) eqn:Hm0; simpl; [reflexivity|].
    apply Z.eqb_neq in Hm0.
    assert (Hle : (m <=? 0) = false) by (apply Z.leb_gt; lia).
    rewrite Hle. reflexivity. }
  rewrite Hv. reflexivity.
Qed.

Lemma created_code_validates_witness :
  PromoCodeService.validate_promo_code (fixtures.T0 + 1) "Spring5"
    (snd (PromoCodeService.create_promo_code "spring5" 5 None (Some 0)
            (Some (fixtures.T0 + 1)) fixtures.shop))
  = Ok (2%nat,
        mkPromoCode 3 "SPRING5" 5 None (Some 0) 0 true
          (Some (fixtures.T0 + 1))).
Proof.
  destruct (created_code_validates "spring5" 5 None (Some 0)
              (Some (fixtures.T0 + 1)) fixtures.shop
              (mkPromoCode 3 "SPRING5" 5 None (Some 0) 0 true
                 (Some (fixtures.T0 + 1)))
              (snd (PromoCodeService.create_promo_code "spring5" 5 None
                      (Some 0) (Some (fixtures.T0 + 1)) fixtures.shop))
              eq_refl eq_refl) as (_ & _ & _ & _ & _ & Hval).
  apply (Hval (fixtures.T0 + 1) "Spring5"); simpl; try reflexivity; lia.
Defined.

(** The length test counts characters, not bytes: a code of two Cyrillic
    letters (four bytes) is refused, one of three is accepted. *)
Example create_promo_code_counts_characters :
  fst (PromoCodeService.create_promo_code "жж" 5 None None None
         fixtures.shop) = inl PromoCodeService.CodeTooShort /\
  py.len "жжж" = 3%nat /\ String.length "жжж" = 6%nat.
Proof. repeat split. Qed.

(** X20.  [create_promo_code] never makes two promo codes with the same
    code and never touches an existing one: if the stored codes are
    pairwise different they still are afterwards, the existing rows are
    the same at the same places, and on an error the store is unchanged. *)
Theorem create_promo_code_keeps_codes_unique
    (code : string) (pct : Z) (da mu : option Z) (exp : option datetime.t)
    (db : Session) :
  let out := PromoCodeService.create_promo_code code pct da mu exp db in
  (NoDup (models.code <$> promocodes db) ->
   NoDup (models.code <$> promocodes (snd out))) /\
  (forall h p, promocodes db !! h = Some p ->
               promocodes (snd out) !! h = Some p) /\
  (forall e, fst out = inl e -> snd out = db).
Proof.
  intros out. subst out.
  destruct (PromoCodeService.create_promo_code code pct da mu exp db)
    as [[e|promo] db'] eqn:Hc; simpl.
  - apply create_promo_code_inl in Hc as ->. auto.
  - apply create_promo_code_inr in Hc as (Hpromo & -> & Hfresh). simpl.
    split; [|split; [|discriminate]].
    + intros Hnd. rewrite fmap_app. apply NoDup_app.
      split; [exact Hnd|]. split; [|apply NoDup_singleton].
      intros c Hc1 Hc2. apply list_elem_of_fmap in Hc1 as (p & -> & Hp).
      simpl in Hc2. apply list_elem_of_singleton in Hc2.
      apply (Hfresh p Hp). rewrite Hc2, Hpromo. reflexivity.
    + intros h p Hl. apply lookup_app_l_Some, Hl.
Qed.

(** ** Promo codes: cleanup and deactivation *)

Lemma cleanup_expired_promocodes_table now db :
  promocodes (snd (PromoCodeService.cleanup_expired_promocodes now db))
  = map (fun p => if PromoCodeService.active_and_expired now p
                  then set_is_active false p else p)
        (promocodes db).
Proof.
  unfold PromoCodeService.cleanup_expired_promocodes. simpl.
  apply foldl_assign_all.
Qed.

Lemma active_and_expired_invalid now p :
  PromoCodeService.active_and_expired now p = true -> is_valid now p = false.
Proof.
  unfold PromoCodeService.active_and_expired, is_valid.
  intros [Hact Hexp]%andb_true_iff. rewrite Hact, Hexp. reflexivity.
Qed.

(** X21.  [cleanup_expired_promocodes] changes the validity of no code.
    Every promo code keeps its place and is either untouched or only
    deactivated; a code that was valid at the time of the cleanup is
    untouched; [is_valid] at that time is the same before and after for
    every code; afterwards no code is both active and expired, so a second
    cleanup at that time returns 0 and changes nothing. *)
Theorem cleanup_expired_promocodes_keeps_validity
    (now : datetime.t) (db : Session) :
  let db' := snd (PromoCodeService.cleanup_expired_promocodes now db) in
  (forall h p, promocodes db !! h = Some p ->
     exists p',
       promocodes db' !! h = Some p' /\
       (p' = p \/ p' = set_is_active false p) /\
       (is_valid now p = true -> p' = p) /\
       is_valid now p' = is_valid now p /\
       PromoCodeService.active_and_expired now p' = false) /\
  length (promocodes db') = length (promocodes db) /\
  PromoCodeService.cleanup_expired_promocodes now db' = (0, db').
Proof.
  intros db'.
  pose proof (cleanup_expired_promocodes_table now db) as Htbl.
  fold db' in Htbl.
  assert (Hrow : forall p,
            let p' := if PromoCodeService.active_and_expired now p
                      then set_is_active false p else p in
            (p' = p \/ p' = set_is_active false p) /\
            (is_valid now p = true -> p' = p) /\
            is_valid now p' = is_valid now p /\
            PromoCodeService.active_and_expired now p' = false).
  { intros p. simpl.
    destruct (PromoCodeService.active_and_expired now p) eqn:He.
    - pose proof (active_and_expired_invalid now p He) as Hinv.
      split; [right; reflexivity|]. split; [congruence|].
      split; [rewrite Hinv; reflexivity|reflexivity].
    - auto. }
  split; [|split].
  - intros h p Hl. eexists. split; [|apply Hrow].
    rewrite Htbl. change (map ?f ?l) with (f <$> l).
    rewrite list_lookup_fmap, Hl. reflexivity.
  - rewrite Htbl. apply length_map.
  - assert (Hnone : query.all (PromoCodeService.active_and_expired now)
                      (promocodes db') = []).
    { apply all_none. intros r Hr. rewrite Htbl in Hr.
      apply list_elem_of_fmap in Hr as (x & -> & _). apply Hrow. }
    clearbody db'.
    unfold PromoCodeService.cleanup_expired_promocodes. rewrite Hnone.
    simpl. destruct db'; reflexivity.
Qed.

(** X22.  A deleted promo code stays in the store and can no longer be
    used.  When [delete_promo_code] finds the code by id (and a lookup by
    its code reaches the same row), it returns true, the row is kept with
    only [is_active] set to false, and from then on
    [validate_promo_code] raises "deactivated", [use_promo_code] returns
    false and [_apply_promo_code] raises "not valid", none of them
    changing the store. *)
Theorem deleted_code_is_refused
    (now : datetime.t) (promo_id : Z) (code : string) (user base_price : Z)
    (db : Session) (h : nat) (p : PromoCode) :
  PromoCodeService.get_promo_code_by_id promo_id db = Some (h, p) ->
  PromoCodeService.get_promo_code_by_code code db = Some (h, p) ->
  let db' := snd (PromoCodeService.delete_promo_code promo_id db) in
  fst (PromoCodeService.delete_promo_code promo_id db) = true /\
  promocodes db' = <[h := set_is_active false p]> (promocodes db) /\
  PromoCodeService.validate_promo_code now code db' = Raise PromoDeactivated /\
  PromoCodeService.use_promo_code now code user db' = (false, db') /\
  PaymentService._apply_promo_code now code base_price user db'
    = (Raise PromoInvalid, db').
Proof.
  intros Hid Hcode db'. subst db'.
  unfold PromoCodeService.delete_promo_code. rewrite Hid. simpl.
  unfold PromoCodeService.get_promo_code_by_code in Hcode.
  pose proof (first_Some _ _ _ _ Hcode) as (Hl & _).
  assert (Hf : query.first
                 (fun q => String.eqb (models.code q) (py.upper code))
                 (query.assign (set_is_active false) h (promocodes db))
               = Some (h, set_is_active false p)).
  { rewrite (first_assign_stable _ _ _ h h p); [|reflexivity|exact Hcode].
    destruct (decide (h = h)); [reflexivity|contradiction]. }
  split; [reflexivity|]. split; [apply assign_insert, Hl|].
  assert (Hval : PromoCodeService.validate_promo_code now code
                   (with_promocodes
                      (query.assign (set_is_active false) h (promocodes db))
                      db) = Raise PromoDeactivated).
  { rewrite (validate_promo_code_found now code
               (with_promocodes
                  (query.assign (set_is_active false) h (promocodes db)) db)
               h (set_is_active false p) Hf).
    reflexivity. }
  split; [exact Hval|]. split.
  - unfold PromoCodeService.use_promo_code. rewrite Hval. reflexivity.
  - unfold PaymentService._apply_promo_code. simpl. rewrite Hf. reflexivity.
Qed.

Lemma deleted_code_is_refused_witness :
  let db' := snd (PromoCodeService.delete_promo_code 1 fixtures.shop) in
  PromoCodeService.use_promo_code fixtures.T0 "test10" 1 db' = (false, db').
Proof.
  intros db'.
  destruct (deleted_code_is_refused fixtures.T0 1 "test10" 1 100
              fixtures.shop 0%nat fixtures.TEST10 eq_refl eq_refl)
    as (_ & _ & _ & Huse & _).
  exact Huse.
Defined.

(** ** Withdrawal requests: cleanup of old rejections *)

Section DeleteFacts.
Context {A : Type}.
Implicit Types (p : A -> bool) (tbl : list A).

Lemma select_from_ge p tbl start h :
  h ∈ map fst (query.select_from start p tbl) -> (start <= h)%nat.
Proof.
  change (map ?f ?l) with (f <$> l).
  intros ([h' r] & -> & Hin)%list_elem_of_fmap.
  apply select_from_elem in Hin. simpl. tauto.
Qed.

Lemma existsb_eqb_false (s : nat) (hs : list nat) :
  (forall h, h ∈ hs -> h <> s) -> existsb (Nat.eqb s) hs = false.
Proof.
  induction hs as [|x hs IH]; intros Hne; simpl; [reflexivity|].
  rewrite IH by (intros h Hh; apply Hne; right; exact Hh).
  assert (x <> s) by (apply Hne; left).
  apply orb_false_iff. split; [apply Nat.eqb_neq; congruence|reflexivity].
Qed.

Lemma existsb_eqb_true (s : nat) (hs : list nat) :
  s ∈ hs -> existsb (Nat.eqb s) hs = true.
Proof.
  intros Hs. apply existsb_exists. exists s. split.
  - apply list_elem_of_In, Hs.
  - apply Nat.eqb_refl.
Qed.

Lemma delete_from_select_from p tbl : forall (seen : list nat) start,
  (forall h, h ∈ seen -> (h < start)%nat) ->
  query.delete_from start
    (seen ++ map fst (query.select_from start p tbl)) tbl
  = List.filter (fun r => negb (p r)) tbl.
Proof.
  induction tbl as [|x tbl IH]; intros seen start Hseen; simpl;
    [reflexivity|].
  destruct (p x) eqn:Hpx; simpl.
  - rewrite existsb_eqb_true by (apply elem_of_app; right; left).
    replace (seen ++ start :: map fst (query.select_from (S start) p tbl))
      with ((seen ++ [start])
              ++ map fst (query.select_from (S start) p tbl))
      by (rewrite <- app_assoc; reflexivity).
    apply IH. intros h [Hh|Hh%list_elem_of_singleton]%elem_of_app;
      [specialize (Hseen h Hh)|]; lia.
  - rewrite existsb_eqb_false.
    + f_equal. apply IH. intros h Hh. specialize (Hseen h Hh). lia.
    + intros h [Hh|Hh]%elem_of_app.
      * specialize (Hseen h Hh). lia.
      * apply select_from_ge in Hh. lia.
Qed.

(** Deleting the selected objects leaves the rows the filter rejects. *)
Lemma delete_all p tbl :
  query.delete (map fst (query.all p tbl)) tbl
  = List.filter (fun r => negb (p r)) tbl.
Proof.
  apply (delete_from_select_from p tbl [] 0%nat).
  intros h Hh. apply elem_of_nil in Hh. contradiction.
Qed.

Lemma sum_where_filter (keep q : A -> bool) (col : A -> Z) tbl :
  (forall r, keep r = false -> q r = false) ->
  ledger.sum_where q col (List.filter keep tbl) = ledger.sum_where q col tbl.
Proof.
  intros Hk. induction tbl as [|x tbl IH]; simpl; [reflexivity|].
  destruct (keep x) eqn:Hx; simpl; rewrite IH; [reflexivity|].
  rewrite (Hk x Hx). lia.
Qed.

End DeleteFacts.

(** X23.  [cleanup_old_rejected_requests] deletes exactly the rejected
    requests processed before the cutoff ([days] before now), keeps all
    the others in their order, returns the number deleted, and leaves the
    ledger alone: the totals of approved, completed and pending requests
    and the available amount are unchanged. *)
Theorem cleanup_old_rejected_keeps_the_ledger
    (now : datetime.t) (days : Z) (db : Session) :
  let cutoff := now - datetime.timedelta_days days in
  let out := WithdrawService.cleanup_old_rejected_requests now days db in
  withdraw_requests (snd out)
    = List.filter (fun w => negb (WithdrawService.old_and_rejected cutoff w))
                  (withdraw_requests db) /\
  (forall w, WithdrawService.old_and_rejected cutoff w = true <->
             w_status w = W_REJECTED /\
             exists t, processed_at w = Some t /\ t < cutoff) /\
  fst out
    = Z.of_nat (length (withdraw_requests db))
      - Z.of_nat (length (withdraw_requests (snd out))) /\
  ledger.paid_out (snd out) = ledger.paid_out db /\
  ledger.pending (snd out) = ledger.pending db /\
  WithdrawService._calculate_available_amount (snd out)
    = WithdrawService._calculate_available_amount db.
Proof.
  intros cutoff out.
  assert (Htbl : withdraw_requests (snd out)
                 = List.filter
                     (fun w => negb (WithdrawService.old_and_rejected cutoff
                                       w))
                     (withdraw_requests db)).
  { subst out. unfold WithdrawService.cleanup_old_rejected_requests. simpl.
    apply delete_all. }
  assert (Hrej : forall w,
            negb (WithdrawService.old_and_rejected cutoff w) = false ->
            w_status w = W_REJECTED).
  { intros w Hw. apply negb_false_iff in Hw.
    unfold WithdrawService.old_and_rejected in Hw.
    apply andb_true_iff in Hw as [Hst _]. apply status_eqb_eq, Hst. }
  assert (Hout : ledger.paid_out (snd out) = ledger.paid_out db).
  { unfold ledger.paid_out. rewrite Htbl. apply sum_where_filter.
    intros w Hw. unfold ledger.is_paid_out. rewrite (Hrej w Hw).
    reflexivity. }
  assert (Hpend : ledger.pending (snd out) = ledger.pending db).
  { unfold ledger.pending. rewrite Htbl. apply sum_where_filter.
    intros w Hw. unfold ledger.is_pending. rewrite (Hrej w Hw).
    reflexivity. }
  split; [exact Htbl|]. split; [|split; [|split; [exact Hout|split]]].
  - intros w. unfold WithdrawService.old_and_rejected.
    rewrite andb_true_iff, status_eqb_eq. split.
    + intros [Hst Ht]. split; [exact Hst|].
      destruct (processed_at w) as [t|]; [|discriminate].
      exists t. split; [reflexivity|]. apply Z.ltb_lt, Ht.
    + intros [Hst (t & -> & Ht)]. split; [exact Hst|]. apply Z.ltb_lt, Ht.
  - rewrite Htbl. subst out.
    unfold WithdrawService.cleanup_old_rejected_requests. simpl.
    unfold query.all. rewrite length_select_from.
    assert (Hlen : forall (f : WithdrawRequest -> bool) l,
              (length (List.filter f l)
               + length (List.filter (fun r => negb (f r)) l)
               = length l)%nat).
    { intros f. induction l as [|x l IH]; simpl; [reflexivity|].
      destruct (f x); simpl; lia. }
    specialize (Hlen (WithdrawService.old_and_rejected cutoff)
                  (withdraw_requests db)).
    unfold cutoff in *. lia.
  - exact Hpend.
  - rewrite !calculate_available_amount_spec.
    unfold ledger.AvailableBalance. rewrite Hout, Hpend.
    reflexivity.
Qed.

(** ** Purchases: the key constraints are kept *)

Lemma next_purchase_id_fresh (tbl : list Purchase) p :
  p ∈ tbl -> id p < PaymentService.next_purchase_id tbl.
Proof.
  unfold PaymentService.next_purchase_id.
  induction tbl as [|x tbl IH]; intros Hp; simpl.
  - apply elem_of_nil in Hp. contradiction.
  - apply elem_of_cons in Hp as [->|Hp]; [lia|].
    specialize (IH Hp). lia.
Qed.

Lemma create_payment_ok_row now uuid4_hex user_id item_id item_type
    promo_code db resp db' :
  PaymentService.create_payment now uuid4_hex user_id item_id item_type
    promo_code db = (Ok resp, db') ->
  exists p,
    purchases db' = purchases db ++ [p] /\
    id p = PaymentService.next_purchase_id (purchases db) /\
    status p = PENDING /\
    payment_id p = PaymentService._generate_payment_id uuid4_hex /\
    PaymentService.r_payment_id resp = payment_id p /\
    amount p = PaymentService.r_final_amount resp /\
    PaymentService.r_invoice_payload resp
      = PaymentService._create_invoice_payload now user_id (Some item_id)
          item_type (payment_id p) /\
    intent.fresh (payment_id p) db /\
    models.user_id p = user_id /\
    lesson_id p
      = (if String.eqb item_type "lesson" then Some item_id else None) /\
    course_id p
      = (if String.eqb item_type "lesson" then None else Some item_id).
Proof.
  unfold PaymentService.create_payment.
  destruct (query.first _ (users db)) as [[hu u]|]; [|discriminate].
  destruct (negb (user_is_active u)); [discriminate|].
  destruct (PaymentService._get_item_and_price item_id item_type db)
    as [[[item|] base_price]|e]; try discriminate.
  destruct (negb (PaymentService.item_is_active item)); [discriminate|].
  destruct (PaymentService._check_existing_purchase _ _ _ _); [discriminate|].
  change (if py.truthy_opt_str promo_code then _ else _)
    with (intent.promo_step now promo_code base_price user_id db).
  destruct (intent.promo_step now promo_code base_price user_id db)
    as [[[discount final_price]|e] db1] eqn:Hstep; [|discriminate].
  pose proof (promo_step_purchases _ _ _ _ _ _ _ Hstep) as Hsame.
  match goal with
  | |- context [PaymentService.add_purchase ?q db1] => set (purchase := q)
  end.
  destruct (PaymentService.add_purchase purchase db1) as [db2|e] eqn:Hadd;
    [|discriminate].
  apply add_purchase_ok_fresh in Hadd as (Hfresh & ->).
  intros [= <- <-]. exists purchase. simpl. rewrite Hsame.
  repeat split. unfold intent.fresh in *. rewrite <- Hsame. exact Hfresh.
Qed.

Lemma generated_payment_id_not_empty uuid4_hex :
  PaymentService._generate_payment_id uuid4_hex <> "".
Proof. discriminate. Qed.

Lemma fmap_assign_same {A B} (key : A -> B) (f : A -> A) h (tbl : list A) :
  (forall x, key (f x) = key x) ->
  key <$> query.assign f h tbl = key <$> tbl.
Proof.
  intros Hk. unfold query.assign. apply list_eq. intros i.
  rewrite !list_lookup_fmap.
  destruct (decide (h = i)) as [->|Hne].
  - rewrite list_lookup_alter_eq. destruct (tbl !! i); simpl; [|reflexivity].
    rewrite Hk. reflexivity.
  - rewrite list_lookup_alter_ne by exact Hne. reflexivity.
Qed.

Lemma keys_ok_same_keys db db' :
  id <$> purchases db' = id <$> purchases db ->
  payment_id <$> purchases db' = payment_id <$> purchases db ->
  lifecycle.purchase_keys_ok db -> lifecycle.purchase_keys_ok db'.
Proof.
  intros Hid Hpid (Hn1 & Hn2 & Hne). split; [|split].
  - rewrite Hid. exact Hn1.
  - rewrite Hpid. exact Hn2.
  - apply Forall_forall. intros p Hp.
    assert (Hin : payment_id p ∈ payment_id <$> purchases db).
    { rewrite <- Hpid. apply list_elem_of_fmap. eauto. }
    apply list_elem_of_fmap in Hin as (q & Hq & Hqin).
    rewrite Hq. rewrite Forall_forall in Hne. apply Hne, Hqin.
Qed.

Lemma set_status_keys_ok (g : Purchase -> Purchase) db tbl :
  (forall x, id (g x) = id x) -> (forall x, payment_id (g x) = payment_id x)
  -> tbl = map g (purchases db) ->
  lifecycle.purchase_keys_ok db ->
  lifecycle.purchase_keys_ok (with_purchases tbl db).
Proof.
  intros Hid Hpid -> Hok. apply (keys_ok_same_keys db); [| |exact Hok]; simpl;
    change (map g ?l) with (g <$> l); rewrite <- list_fmap_compose;
    apply list_fmap_ext; intros i x _; simpl; auto.
Qed.

(** X24.  The key constraints of the purchases table (unique ids, unique
    payment ids, no empty payment id) are kept by every operation of the
    payment service that writes purchases: [create_payment],
    [process_successful_payment], [handle_failed_payment],
    [cancel_expired_payments] and the successful_payment webhook handler.
    A payment id made by [_generate_payment_id] is never empty. *)
Theorem purchase_keys_are_kept (db : Session) :
  lifecycle.purchase_keys_ok db ->
  (forall now hex user item_id item_type promo,
     lifecycle.purchase_keys_ok
       (snd (PaymentService.create_payment now hex user item_id item_type
               promo db))) /\
  (forall now purchase_id,
     lifecycle.purchase_keys_ok
       (snd (PaymentService.process_successful_payment now purchase_id db)))
  /\
  (forall now purchase_id reason,
     lifecycle.purchase_keys_ok
       (snd (PaymentService.handle_failed_payment now purchase_id reason
               db))) /\
  (forall timeout now,
     lifecycle.purchase_keys_ok
       (snd (PaymentService.cancel_expired_payments timeout now db))) /\
  (forall json_loads now webhook_data,
     lifecycle.purchase_keys_ok
       (payments._process_successful_payment_webhook json_loads now
          webhook_data db)).
Proof.
  intros Hok.
  assert (Hproc : forall now purchase_id,
            lifecycle.purchase_keys_ok
              (snd (PaymentService.process_successful_payment now
                      purchase_id db))).
  { intros now purchase_id.
    unfold PaymentService.process_successful_payment.
    destruct (query.first _ _) as [[h p]|]; [|exact Hok]. simpl.
    apply (keys_ok_same_keys db); [| |exact Hok]; simpl;
      apply fmap_assign_same; reflexivity. }
  split; [|split; [exact Hproc|split; [|split]]].
  - intros now hex user item_id item_type promo.
    destruct (PaymentService.create_payment now hex user item_id item_type
                promo db) as [[resp|e] db'] eqn:Hc; simpl.
    + apply create_payment_ok_row in Hc
        as (p & Htbl & Hid & _ & Hpid & _ & _ & _ & Hfresh & _).
      destruct Hok as (Hn1 & Hn2 & Hne). unfold lifecycle.purchase_keys_ok.
      rewrite Htbl, !fmap_app. simpl. split; [|split].
      * apply NoDup_app. split; [exact Hn1|]. split; [|apply NoDup_singleton].
        intros i (q & -> & Hq)%list_elem_of_fmap Hi.
        apply list_elem_of_singleton in Hi.
        pose proof (next_purchase_id_fresh _ q Hq). lia.
      * apply NoDup_app. split; [exact Hn2|]. split; [|apply NoDup_singleton].
        intros s (q & -> & Hq)%list_elem_of_fmap Hs.
        apply list_elem_of_singleton in Hs. apply (Hfresh q Hq Hs).
      * apply Forall_app. split; [exact Hne|].
        constructor; [|constructor]. rewrite Hpid.
        apply generated_payment_id_not_empty.
    + pose proof (create_payment_cases now hex user item_id item_type promo
                    db) as Hcases.
      cbv zeta in Hcases. rewrite Hc in Hcases. simpl in Hcases.
      destruct Hcases as [(e' & _ & Hp & _)|(resp & p & Habs & _)];
        [|discriminate].
      apply (keys_ok_same_keys db); [rewrite Hp| rewrite Hp|exact Hok];
        reflexivity.
  - intros now purchase_id reason.
    unfold PaymentService.handle_failed_payment.
    destruct (query.first _ _) as [[h p]|]; [|exact Hok]. simpl.
    apply (keys_ok_same_keys db); [| |exact Hok]; simpl;
      apply fmap_assign_same; reflexivity.
  - intros timeout now.
    pose proof (cancel_expired_payments_table timeout now db) as Htbl.
    apply (keys_ok_same_keys db); [| |exact Hok]; rewrite Htbl;
      change (map ?g ?l) with (g <$> l); rewrite <- list_fmap_compose;
      apply list_fmap_ext; intros i x _; simpl;
      destruct (PaymentService.is_expired timeout now x); reflexivity.
  - intros json_loads now webhook_data.
    destruct (webhook_handler_shape json_loads now webhook_data db)
      as [->|(purchase_id & ->)]; [exact Hok|apply Hproc].
Qed.

Lemma purchase_keys_are_kept_witness :
  lifecycle.purchase_keys_ok
    (snd (PaymentService.create_payment fixtures.T0
            "00112233445566778899aabbccddeeff" 1 1 "lesson" None
            (fixtures.one_purchase FAILED))).
Proof.
  apply (purchase_keys_are_kept (fixtures.one_purchase FAILED)).
  repeat split; try apply NoDup_singleton.
  repeat constructor. discriminate.
Defined.

(** ** Purchases: from the intent to the revenue *)

Lemma first_appended {A} (pred : A -> bool) (tbl : list A) (r : A) :
  (forall x, x ∈ tbl -> pred x = false) -> pred r = true ->
  query.first pred (tbl ++ [r]) = Some (length tbl, r).
Proof.
  intros Hno Hr. apply first_intro.
  - apply list_lookup_middle. reflexivity.
  - exact Hr.
  - intros j r' Hj Hl. rewrite lookup_app_l in Hl by exact Hj.
    apply Hno. eapply list_elem_of_lookup_2. exact Hl.
Qed.

(** X25.  From the intent to the revenue.  When [create_payment] succeeds
    (purchase ids being unique) and the parser reads the invoice payload it
    issued back as an object with the issued payment id, then the
    pre-checkout gate answers yes for that payload, and the
    successful_payment webhook carrying it completes the purchase and
    raises the revenue by exactly the [final_amount] of the response. *)
Theorem issued_intent_is_finalised_by_its_webhook
    (json_loads : string -> option json.value) (now now' : datetime.t)
    (uuid4_hex : string) (user_id item_id : Z) (item_type : string)
    (promo_code : option string) (db : Session)
    (resp : PaymentService.PaymentResponse) (db1 : Session)
    (top message successful_payment payload_data : json.dict) :
  NoDup (id <$> purchases db) ->
  PaymentService.create_payment now uuid4_hex user_id item_id item_type
    promo_code db = (Ok resp, db1) ->
  json_loads (PaymentService.r_invoice_payload resp)
    = Some (JObj payload_data) ->
  json.dict_lookup "payment_id" payload_data
    = Some (JStr (PaymentService.r_payment_id resp)) ->
  json.dict_lookup "message" top = Some (JObj message) ->
  json.dict_lookup "successful_payment" message
    = Some (JObj successful_payment) ->
  json.dict_lookup "invoice_payload" successful_payment
    = Some (JStr (PaymentService.r_invoice_payload resp)) ->
  let db2 :=
    payments._process_successful_payment_webhook json_loads now' (JObj top)
      db1 in
  payments._validate_pre_checkout json_loads
    (PaymentService.r_invoice_payload resp) db1 = true /\
  PaymentService.get_payment_status (PaymentService.r_payment_id resp) db2
    = Some COMPLETED /\
  ledger.revenue db2
  = ledger.revenue db + PaymentService.r_final_amount resp.
Proof.
  intros Hnd Hc Hloads Hkey Hmsg Hsp Hinv db2.
  apply create_payment_ok_row in Hc
    as (p & Htbl & Hid & Hst & Hpid & Hresp & Hamt & _ & Hfresh & _).
  set (h := length (purchases db)).
  assert (Hl : purchases db1 !! h = Some p).
  { rewrite Htbl. apply list_lookup_middle. reflexivity. }
  assert (Hf : query.first
                 (fun q => String.eqb (payment_id q)
                             (PaymentService.r_payment_id resp))
                 (purchases db1) = Some (h, p)).
  { rewrite Htbl, Hresp. apply first_appended.
    - intros x Hx. apply String.eqb_neq. apply Hfresh, Hx.
    - apply String.eqb_refl. }
  assert (Hne : PaymentService.r_payment_id resp <> "").
  { rewrite Hresp, Hpid. apply generated_payment_id_not_empty. }
  assert (Hnd1 : NoDup (id <$> purchases db1)).
  { rewrite Htbl, fmap_app. simpl. apply NoDup_app.
    split; [exact Hnd|]. split; [|apply NoDup_singleton].
    intros i (q & -> & Hq)%list_elem_of_fmap Hi.
    apply list_elem_of_singleton in Hi.
    pose proof (next_purchase_id_fresh _ q Hq). lia. }
  assert (Hdb2 : db2 = with_purchases
                         (<[h := set_purchase_status COMPLETED now' p]>
                            (purchases db1)) db1).
  { subst db2.
    rewrite (webhook_handler_found json_loads now' top message
               successful_payment payload_data
               (PaymentService.r_invoice_payload resp)
               (PaymentService.r_payment_id resp) db1 h p); auto.
    rewrite (process_successful_payment_found now' db1 h p Hnd1 Hl).
    reflexivity. }
  split; [|split].
  - apply validate_pre_checkout_true.
    exists payload_data, (JStr (PaymentService.r_payment_id resp)),
      (PaymentService.r_payment_id resp).
    split; [exact Hloads|]. split; [exact Hkey|]. split.
    { simpl. apply String.eqb_neq in Hne. rewrite Hne. reflexivity. }
    split; [reflexivity|].
    unfold PaymentService.get_payment_status. rewrite Hf, Hst. reflexivity.
  - unfold PaymentService.get_payment_status. rewrite Hdb2. simpl.
    rewrite <- (assign_insert (set_purchase_status COMPLETED now') _ h p Hl).
    rewrite (first_assign_stable _ _ _ h h p); [|reflexivity|exact Hf].
    destruct (decide (h = h)); [reflexivity|contradiction].
  - rewrite Hdb2. unfold ledger.revenue. simpl.
    rewrite <- (assign_insert (set_purchase_status COMPLETED now') _ h p Hl).
    unfold query.assign. rewrite (sum_where_alter _ _ _ h p _ Hl).
    rewrite Htbl, sum_where_app. simpl.
    unfold ledger.is_completed. simpl. rewrite Hst. simpl. lia.
Qed.

Lemma issued_intent_is_finalised_by_its_webhook_witness :
  let text :=
    PaymentService._create_invoice_payload fixtures.T0 1 (Some 1) "lesson"
      "pay_0011223344556677" in
  let loads :=
    fixtures.loads_one text
      (JObj [("payment_id", JStr "pay_0011223344556677")]) in
  let db1 :=
    snd (PaymentService.create_payment fixtures.T0
           "00112233445566778899aabbccddeeff" 1 1 "lesson" None
           fixtures.shop) in
  let db2 :=
    payments._process_successful_payment_webhook loads (fixtures.T0 + 5)
      (fixtures.webhook 100 "XTR" text) db1 in
  ledger.revenue db2 = ledger.revenue fixtures.shop + 100.
Proof.
  intros text loads db1 db2.
  refine (proj2 (proj2 (issued_intent_is_finalised_by_its_webhook loads
            fixtures.T0 (fixtures.T0 + 5) "00112233445566778899aabbccddeeff"
            1 1 "lesson" None fixtures.shop
            (PaymentService.mkPaymentResponse "pay_0011223344556677" 100 100
               0 text)
            db1 _ _ _ [("payment_id", JStr "pay_0011223344556677")]
            _ _ _ _ _ _ _))); try reflexivity.
  apply NoDup_nil. constructor.
Defined.

(** ** Purchases: pending intents and new intents *)

Lemma create_payment_other_tables now uuid4_hex user_id item_id item_type
    promo_code db :
  let db' := snd (PaymentService.create_payment now uuid4_hex user_id
                    item_id item_type promo_code db) in
  users db' = users db /\ lessons db' = lessons db /\
  courses db' = courses db /\ withdraw_requests db' = withdraw_requests db.
Proof.
  unfold PaymentService.create_payment.
  destruct (query.first _ (users db)) as [[hu u]|]; [|simpl; auto].
  destruct (negb (user_is_active u)); [simpl; auto|].
  destruct (PaymentService._get_item_and_price item_id item_type db)
    as [[[item|] base_price]|e]; try (simpl; auto; fail).
  destruct (negb (PaymentService.item_is_active item)); [simpl; auto|].
  destruct (PaymentService._check_existing_purchase _ _ _ _);
    [simpl; auto|].
  assert (Hstep : forall r db1,
            (if py.truthy_opt_str promo_code
             then PaymentService._apply_promo_code now
                    (default "" promo_code) base_price user_id db
             else (Ok (0, base_price), db)) = (r, db1) ->
            users db1 = users db /\ lessons db1 = lessons db /\
            courses db1 = courses db /\
            withdraw_requests db1 = withdraw_requests db).
  { intros r db1. destruct (py.truthy_opt_str promo_code).
    - unfold PaymentService._apply_promo_code.
      destruct (query.first _ (promocodes db)) as [[h promo]|];
        [|intros [= _ <-]; auto].
      destruct (is_valid now promo); [|intros [= _ <-]; auto]. simpl.
      destruct (py.truthy_opt_int (max_uses promo) && _);
        intros [= _ <-]; simpl; auto.
    - intros [= _ <-]. auto. }
  destruct (if py.truthy_opt_str promo_code then _ else _)
    as [[[discount final_price]|e] db1] eqn:Hs;
    specialize (Hstep _ _ eq_refl); [|simpl; exact Hstep].
  match goal with
  | |- context [PaymentService.add_purchase ?q db1] =>
      destruct (PaymentService.add_purchase q db1) as [db2|e] eqn:Hadd
  end; [|simpl; exact Hstep].
  apply add_purchase_ok_fresh in Hadd as (_ & ->). simpl. exact Hstep.
Qed.

Lemma create_payment_promocodes_none now uuid4_hex user_id item_id
    item_type db :
  promocodes (snd (PaymentService.create_payment now uuid4_hex user_id
                     item_id item_type None db)) = promocodes db.
Proof.
  unfold PaymentService.create_payment.
  destruct (query.first _ (users db)) as [[hu u]|]; [|reflexivity].
  destruct (negb (user_is_active u)); [reflexivity|].
  destruct (PaymentService._get_item_and_price item_id item_type db)
    as [[[item|] base_price]|e]; try reflexivity.
  destruct (negb (PaymentService.item_is_active item)); [reflexivity|].
  destruct (PaymentService._check_existing_purchase _ _ _ _);
    [reflexivity|]. simpl.
  match goal with
  | |- context [PaymentService.add_purchase ?q db] =>
      destruct (PaymentService.add_purchase q db) as [db2|e] eqn:Hadd
  end; [|reflexivity].
  apply add_purchase_ok_fresh in Hadd as (_ & ->). reflexivity.
Qed.

(** X26.  A pending intent does not block another one.  After
    [create_payment] has succeeded, a second call for the same user and
    item without a promo code succeeds too, whenever its generated payment
    id is new: the store then holds two pending purchases of the same item
    by the same user, the second at the full price.  Only completed
    purchases stand in the way of a new intent. *)
Theorem pending_intent_does_not_block_another
    (now now' : datetime.t) (uuid4_hex uuid4_hex' : string)
    (user_id item_id : Z) (item_type : string) (promo_code : option string)
    (db : Session) (resp : PaymentService.PaymentResponse) (db1 : Session) :
  PaymentService.create_payment now uuid4_hex user_id item_id item_type
    promo_code db = (Ok resp, db1) ->
  PaymentService._generate_payment_id uuid4_hex'
    <> PaymentService._generate_payment_id uuid4_hex ->
  intent.fresh (PaymentService._generate_payment_id uuid4_hex') db ->
  exists resp' p p',
    PaymentService.create_payment now' uuid4_hex' user_id item_id item_type
      None db1
    = (Ok resp', with_purchases (purchases db ++ [p; p']) db1) /\
    status p = PENDING /\ status p' = PENDING /\
    models.user_id p = user_id /\ models.user_id p' = user_id /\
    lesson_id p' = lesson_id p /\ course_id p' = course_id p /\
    PaymentService.r_final_amount resp' = PaymentService.r_amount resp.
Proof.
  intros Hc Hneq Hfresh.
  pose proof (create_payment_other_tables now uuid4_hex user_id item_id
                item_type promo_code db) as Htables.
  cbv zeta in Htables. rewrite Hc in Htables. simpl in Htables.
  destruct Htables as (Hu & Hls & Hcs & _).
  pose proof (create_payment_cases now uuid4_hex user_id item_id item_type
                promo_code db) as Hcases.
  cbv zeta in Hcases. rewrite Hc in Hcases. simpl in Hcases.
  destruct Hcases as [(e & Habs & _)|(resp0 & p0 & _ & _ & _ & _ & _ & _ & _
                                      & Hready)]; [discriminate|].
  pose proof (create_payment_ok_inv _ _ _ _ _ _ _ _ _ Hc)
    as (item & dbs & Hget & _).
  apply create_payment_ok_row in Hc
    as (p & Htbl & _ & Hst & Hpid & _ & _ & _ & _ & Huser & Hlesson
        & Hcourse).
  assert (Hready' : intent.ready now'
                      (PaymentService._generate_payment_id uuid4_hex')
                      user_id item_id item_type None db1).
  { destruct Hready as (Huok & Hiok & Hno & _ & _).
    split; [|split; [|split; [|split]]].
    - unfold intent.user_ok. rewrite Hu. exact Huok.
    - unfold intent.item_ok. rewrite Hls, Hcs. exact Hiok.
    - intros q Hq. rewrite Htbl in Hq.
      apply elem_of_app in Hq as [Hq|Hq]; [apply Hno, Hq|].
      apply list_elem_of_singleton in Hq as ->.
      intros (_ & Hs & _). congruence.
    - left. reflexivity.
    - intros q Hq. rewrite Htbl in Hq.
      apply elem_of_app in Hq as [Hq|Hq]; [apply Hfresh, Hq|].
      apply list_elem_of_singleton in Hq as ->. congruence. }
  pose proof (create_payment_cases now' uuid4_hex' user_id item_id item_type
                None db1) as Hcases.
  cbv zeta in Hcases.
  destruct (PaymentService.create_payment now' uuid4_hex' user_id item_id
              item_type None db1) as [[resp'|e] db2] eqn:Hc2;
    simpl in Hcases.
  2: { destruct Hcases as [(e' & _ & _ & Hnot)|(r & q & Habs & _)];
         [contradiction|discriminate]. }
  clear Hcases.
  pose proof (create_payment_ok_inv _ _ _ _ _ _ _ _ _ Hc2)
    as (item' & dbs' & Hget' & Hstep').
  pose proof (create_payment_other_tables now' uuid4_hex' user_id item_id
                item_type None db1) as Htables.
  cbv zeta in Htables. rewrite Hc2 in Htables. simpl in Htables.
  destruct Htables as (Hu2 & Hls2 & Hcs2 & Hw2).
  pose proof (create_payment_promocodes_none now' uuid4_hex' user_id item_id
                item_type db1) as Hpromo.
  rewrite Hc2 in Hpromo. simpl in Hpromo.
  apply create_payment_ok_row in Hc2
    as (p' & Htbl' & _ & Hst' & _ & _ & _ & _ & _ & Huser' & Hlesson'
        & Hcourse').
  exists resp', p, p'.
  split; [|split; [exact Hst|split; [exact Hst'|split; [exact Huser|
          split; [exact Huser'|split; [congruence|split; [congruence|]]]]]]].
  - f_equal. destruct db1, db2. simpl in *. subst.
    rewrite <- app_assoc. reflexivity.
  - unfold intent.promo_step in Hstep'. simpl in Hstep'.
    injection Hstep' as _ Hfinal _.
    unfold PaymentService._get_item_and_price in Hget, Hget'.
    rewrite Hls, Hcs in Hget'. rewrite Hget in Hget'.
    injection Hget' as _ Hprice. lia.
Qed.

Lemma pending_intent_does_not_block_another_witness :
  exists resp' p p',
    PaymentService.create_payment (fixtures.T0 + 60)
      "ffeeddccbbaa99887766554433221100" 1 1 "lesson" None
      (snd (PaymentService.create_payment fixtures.T0
              "00112233445566778899aabbccddeeff" 1 1 "lesson" (Some "test10")
              fixtures.shop))
    = (Ok resp',
       with_purchases (purchases fixtures.shop ++ [p; p'])
         (snd (PaymentService.create_payment fixtures.T0
                 "00112233445566778899aabbccddeeff" 1 1 "lesson"
                 (Some "test10") fixtures.shop))) /\
    status p = PENDING /\ status p' = PENDING /\
    models.user_id p = 1 /\ models.user_id p' = 1 /\
    lesson_id p' = lesson_id p /\ course_id p' = course_id p /\
    PaymentService.r_final_amount resp' = 100.
Proof.
  refine (pending_intent_does_not_block_another fixtures.T0
            (fixtures.T0 + 60) "00112233445566778899aabbccddeeff"
            "ffeeddccbbaa99887766554433221100" 1 1 "lesson" (Some "test10")
            fixtures.shop
            (PaymentService.mkPaymentResponse "pay_0011223344556677" 100 90
               10 (PaymentService._create_invoice_payload fixtures.T0 1
                     (Some 1) "lesson" "pay_0011223344556677"))
            _ _ _ _).
  - reflexivity.
  - discriminate.
  - intros q Hq. apply elem_of_nil in Hq. contradiction.
Defined.
